(** * The task lifecycle of the CI-driven agent orchestrator

    A shallow embedding of the Go packages [internal/models],
    [internal/services], [internal/api/handlers] and [internal/worker]:
    the task record and its status machine, the task service on top of
    the gorm-managed [tasks] table, the HTTP handlers that list and
    update tasks, and the worker that polls for queued tasks.

    Go values are modelled as follows.  A [string] is a Rocq [string]
    (a sequence of bytes, compared bytewise); an [int] is a [Z] within
    the 64-bit range, with the wrap-around written out where the code
    does arithmetic; a [time.Time] is a [Z] (an instant on the clock,
    [0] standing for Go's zero time); a pointer receiver that a method
    mutates becomes an argument and a returned copy; an [error] result
    is an [option error] ([None] for [nil]).  The database handle is
    threaded through every service call, so the service layer lives in
    a small state-and-error monad over the table contents. *)

From Stdlib Require Import ZArith String Ascii List Bool Lia.
From Stdlib Require Import DecimalString DecimalPos DecimalZ.
From Stdlib Require Import Sorted.
Import ListNotations.

Local Open Scope string_scope.
Local Open Scope Z_scope.

(* ================================================================= *)
(** ** Go preliminaries *)

(** Errors.  The three sentinels come from gorm and the SQL driver;
    [Errorf] is [fmt.Errorf] with the formatted message, [Errorw] is
    [fmt.Errorf] with a format that ends in [%w]: its formatted prefix
    and the error it wraps. *)
Inductive error : Type :=
| ErrRecordNotFound
| ErrInvalidValue
| ErrUniqueViolation
| Errorf (msg : string)
| Errorw (prefix : string) (wrapped : error).

(** The outcome of a call: a value, a returned error, or a run-time
    panic (a slice expression out of range). *)
Inductive result (A : Type) : Type :=
| Ok (a : A)
| Err (e : error)
| Panic.
Arguments Ok {A} a.
Arguments Err {A} e.
Arguments Panic {A}.

Module Go.

(** The range of [int] on the 64-bit targets the binaries are built
    for, and the wrap-around of its arithmetic. *)
Definition MinInt : Z := - 2 ^ 63.
Definition MaxInt : Z := 2 ^ 63 - 1.
Definition wrap (z : Z) : Z := (z + 2 ^ 63) mod 2 ^ 64 - 2 ^ 63.

(** [%d] of an [int]. *)
Definition itoa (z : Z) : string := NilZero.string_of_int (Z.to_int z).

(** [len(s)] as an [int]. *)
Definition len (s : string) : Z := Z.of_nat (String.length s).

(** [s[:n]]: panics when [n] exceeds the length. *)
Definition slice_to (s : string) (n : nat) : option string :=
  if (n <=? String.length s)%nat then Some (substring 0 n s) else None.

Definition is_digit (c : ascii) : bool :=
  ((48 <=? nat_of_ascii c) && (nat_of_ascii c <=? 57))%nat.

(** The digits of a decimal numeral, most significant first,
    accumulated as [n*10 + d]; [None] on any other byte. *)
Fixpoint digits (acc : Z) (s : string) : option Z :=
  match s with
  | EmptyString => Some acc
  | String c rest =>
      if is_digit c
      then digits (acc * 10 + Z.of_nat (nat_of_ascii c - 48)) rest
      else None
  end.

(** [strconv.Atoi]: an optional sign, at least one decimal digit,
    and a value that fits [int]; anything else is an error. *)
Definition Atoi (s : string) : option Z :=
  match s with
  | EmptyString => None
  | String c rest =>
      let neg := Ascii.eqb c "-" in
      let body := if neg || Ascii.eqb c "+" then rest else s in
      match body with
      | EmptyString => None
      | _ =>
          match digits 0 body with
          | None => None
          | Some n =>
              let v := if neg then - n else n in
              if (MinInt <=? v) && (v <=? MaxInt) then Some v else None
          end
      end
  end.

End Go.

(** The functions of Go's [strings] package that the code calls,
    on byte strings. *)
Module Strings.

Fixpoint HasPrefix (s prefix : string) {struct prefix} : bool :=
  match prefix with
  | EmptyString => true
  | String a prefix' =>
      match s with
      | EmptyString => false
      | String b s' => Ascii.eqb a b && HasPrefix s' prefix'
      end
  end.

(** [s[n:]] for [n] within the length. *)
Fixpoint drop (n : nat) (s : string) : string :=
  match n, s with
  | O, _ => s
  | S n', String _ s' => drop n' s'
  | S _, EmptyString => EmptyString
  end.

Definition TrimPrefix (s prefix : string) : string :=
  if HasPrefix s prefix then drop (String.length prefix) s else s.

Definition HasSuffix (s suffix : string) : bool :=
  (String.length suffix <=? String.length s)%nat
  && String.eqb (drop (String.length s - String.length suffix) s) suffix.

Definition TrimSuffix (s suffix : string) : string :=
  if HasSuffix s suffix
  then substring 0 (String.length s - String.length suffix) s
  else s.

(** [Contains]: [substr] occurs at some position of [s]. *)
Fixpoint Contains (s substr : string) : bool :=
  HasPrefix s substr
  || match s with
     | EmptyString => false
     | String _ s' => Contains s' substr
     end.

(** [Split(s, sep)] for a separator of one byte: the pieces between
    the occurrences of the separator, a single piece when there is
    none. *)
Fixpoint Split (s : string) (sep : ascii) : list string :=
  match s with
  | EmptyString => [EmptyString]
  | String c s' =>
      if Ascii.eqb c sep then EmptyString :: Split s' sep
      else
        match Split s' sep with
        | piece :: pieces => String c piece :: pieces
        | [] => [String c EmptyString]
        end
  end.

Fixpoint Join (elems : list string) (sep : string) : string :=
  match elems with
  | [] => EmptyString
  | [e] => e
  | e :: rest => e ++ sep ++ Join rest sep
  end.

End Strings.

(* ================================================================= *)
(** ** internal/models *)

Module Models.

(** [type TaskStatus string]: any string can be converted to a
    status, the seven constants are the valid ones. *)
Definition TaskStatus : Type := string.

Definition TaskStatusQueued      : TaskStatus := "queued".
Definition TaskStatusRunning     : TaskStatus := "running".
Definition TaskStatusRetrying    : TaskStatus := "retrying".
Definition TaskStatusNeedsReview : TaskStatus := "needs_review".
Definition TaskStatusSuccess     : TaskStatus := "success".
Definition TaskStatusAborted     : TaskStatus := "aborted".
Definition TaskStatusError       : TaskStatus := "error".

Definition IsValid (ts : TaskStatus) : bool :=
  existsb (String.eqb ts)
    [TaskStatusQueued; TaskStatusRunning; TaskStatusRetrying;
     TaskStatusNeedsReview; TaskStatusSuccess; TaskStatusAborted;
     TaskStatusError].

Definition IsTerminal (ts : TaskStatus) : bool :=
  existsb (String.eqb ts)
    [TaskStatusSuccess; TaskStatusAborted; TaskStatusError].

Record Task : Type := mkTask {
  ID        : string;
  Repo      : string;
  Branch    : string;
  ThreadID  : string;
  Prompt    : string;
  Status    : TaskStatus;
  CIRunID   : option Z;
  Attempts  : Z;
  Summary   : string;
  BranchURL : string;
  PRURL     : string;
  CreatedAt : Z;
  UpdatedAt : Z
}.

(** Field assignments [t.F = v]. *)
Definition set_Prompt (t : Task) (v : string) : Task :=
  mkTask (ID t) (Repo t) (Branch t) (ThreadID t) v (Status t) (CIRunID t)
         (Attempts t) (Summary t) (BranchURL t) (PRURL t)
         (CreatedAt t) (UpdatedAt t).
Definition set_Status (t : Task) (v : TaskStatus) : Task :=
  mkTask (ID t) (Repo t) (Branch t) (ThreadID t) (Prompt t) v (CIRunID t)
         (Attempts t) (Summary t) (BranchURL t) (PRURL t)
         (CreatedAt t) (UpdatedAt t).
Definition set_Attempts (t : Task) (v : Z) : Task :=
  mkTask (ID t) (Repo t) (Branch t) (ThreadID t) (Prompt t) (Status t)
         (CIRunID t) v (Summary t) (BranchURL t) (PRURL t)
         (CreatedAt t) (UpdatedAt t).
Definition set_BranchURL (t : Task) (v : string) : Task :=
  mkTask (ID t) (Repo t) (Branch t) (ThreadID t) (Prompt t) (Status t)
         (CIRunID t) (Attempts t) (Summary t) v (PRURL t)
         (CreatedAt t) (UpdatedAt t).
Definition set_PRURL (t : Task) (v : string) : Task :=
  mkTask (ID t) (Repo t) (Branch t) (ThreadID t) (Prompt t) (Status t)
         (CIRunID t) (Attempts t) (Summary t) (BranchURL t) v
         (CreatedAt t) (UpdatedAt t).
Definition set_CreatedAt (t : Task) (v : Z) : Task :=
  mkTask (ID t) (Repo t) (Branch t) (ThreadID t) (Prompt t) (Status t)
         (CIRunID t) (Attempts t) (Summary t) (BranchURL t) (PRURL t)
         v (UpdatedAt t).
Definition set_UpdatedAt (t : Task) (v : Z) : Task :=
  mkTask (ID t) (Repo t) (Branch t) (ThreadID t) (Prompt t) (Status t)
         (CIRunID t) (Attempts t) (Summary t) (BranchURL t) (PRURL t)
         (CreatedAt t) v.

(** The gorm hook run before an insert: an invalid status is
    replaced by [queued]; the hook never fails. *)
Definition BeforeCreate (t : Task) : option error * Task :=
  if negb (IsValid (Status t))
  then (None, set_Status t TaskStatusQueued)
  else (None, t).

(** The gorm hook run before an update. *)
Definition BeforeUpdate (t : Task) : option error :=
  if negb (IsValid (Status t)) then Some ErrInvalidValue else None.

(** The map literal of [CanTransitionTo], as the association list
    of its entries. *)
Definition validTransitions : list (TaskStatus * list TaskStatus) :=
  [ (TaskStatusQueued,
      [TaskStatusRunning; TaskStatusAborted]);
    (TaskStatusRunning,
      [TaskStatusRetrying; TaskStatusNeedsReview; TaskStatusSuccess;
       TaskStatusError; TaskStatusAborted]);
    (TaskStatusRetrying,
      [TaskStatusRunning; TaskStatusNeedsReview; TaskStatusError;
       TaskStatusAborted]);
    (TaskStatusNeedsReview,
      [TaskStatusRunning; TaskStatusAborted]) ].

Fixpoint lookup (k : TaskStatus) (m : list (TaskStatus * list TaskStatus))
  : option (list TaskStatus) :=
  match m with
  | [] => None
  | (k', v) :: rest => if String.eqb k' k then Some v else lookup k rest
  end.

Definition CanTransitionTo (t : Task) (newStatus : TaskStatus) : bool :=
  if IsTerminal (Status t)
  then String.eqb newStatus TaskStatusAborted
  else
    match lookup (Status t) validTransitions with
    | None => false
    | Some allowedStatuses =>
        existsb (fun allowed => String.eqb allowed newStatus)
                allowedStatuses
    end.

(** [UpdateStatus] returns its error and the task as the call
    leaves it. *)
Definition UpdateStatus (t : Task) (newStatus : TaskStatus)
  : option error * Task :=
  if negb (CanTransitionTo t newStatus)
  then (Some ErrInvalidValue, t)
  else (None, set_Status t newStatus).

Definition IncrementAttempts (t : Task) : Task :=
  set_Attempts t (Go.wrap (Attempts t + 1)).

Definition IsRetryable (t : Task) (maxRetries : Z) : bool :=
  (Attempts t <? maxRetries)
  && (String.eqb (Status t) TaskStatusError
      || String.eqb (Status t) TaskStatusRetrying
      || String.eqb (Status t) TaskStatusNeedsReview).

Record TaskLog : Type := mkTaskLog {
  LogID        : Z;
  TaskID       : string;
  Level        : string;
  Message      : string;
  Timestamp    : Z;
  LogCreatedAt : Z;
  LogUpdatedAt : Z
}.

End Models.

(* ================================================================= *)
(** ** The gorm handle over the [tasks] and [task_logs] tables *)

(** The part of gorm and of the SQL driver that the services use,
    written from the library's documented behaviour: the table is the
    list of its rows in insertion order; a query is built up by
    [Where], [Limit], [Offset] and [Order] and run by [Find] or
    [First]; [Create] and [Save] run the model's hooks and stamp the
    [autoCreateTime] and [autoUpdateTime] columns.

    [Migrate] of internal/database runs [AutoMigrate(&models.Task{})]
    and nothing else creates a table: the [tasks] table is there, the
    [task_logs] table is not.  [task_logs] is [None] while that table
    does not exist. *)
Module Store.
Import Models.

Record DB : Type := mkDB {
  tasks     : list Task;
  task_logs : option (list TaskLog)
}.

(** The database as [Connect] and [Migrate] leave a new file. *)
Definition empty : DB := mkDB [] None.

(** Computations over the handle. *)
Definition M (A : Type) : Type := DB -> result A * DB.

Definition ret {A} (a : A) : M A := fun db => (Ok a, db).
Definition fail {A} (e : error) : M A := fun db => (Err e, db).
Definition panic {A} : M A := fun db => (Panic, db).
Definition bind {A B} (c : M A) (k : A -> M B) : M B :=
  fun db =>
    match c db with
    | (Ok a, db') => k a db'
    | (Err e, db') => (Err e, db')
    | (Panic, db') => (Panic, db')
    end.

(** [err := f(...)] followed by an inspection of [err]. *)
Definition attempt {A} (c : M A) : M (error + A) :=
  fun db =>
    match c db with
    | (Ok a, db') => (Ok (inr a), db')
    | (Err e, db') => (Ok (inl e), db')
    | (Panic, db') => (Panic, db')
    end.

Inductive Ordering : Type := CreatedAtAsc | CreatedAtDesc.

Record Query : Type := mkQuery {
  q_where  : Task -> bool;
  q_limit  : option Z;
  q_offset : option Z;
  q_order  : option Ordering
}.

Definition Model : Query := mkQuery (fun _ => true) None None None.
Definition Where (p : Task -> bool) (q : Query) : Query :=
  mkQuery (fun t => q_where q t && p t) (q_limit q) (q_offset q) (q_order q).
Definition Limit (n : Z) (q : Query) : Query :=
  mkQuery (q_where q) (Some n) (q_offset q) (q_order q).
Definition Offset (n : Z) (q : Query) : Query :=
  mkQuery (q_where q) (q_limit q) (Some n) (q_order q).
Definition Order (o : Ordering) (q : Query) : Query :=
  mkQuery (q_where q) (q_limit q) (q_offset q) (Some o).

(** [a] sorts no later than [b] under the [ORDER BY] column. *)
Definition order_le (o : option Ordering) (a b : Task) : bool :=
  match o with
  | None => true
  | Some CreatedAtAsc => CreatedAt a <=? CreatedAt b
  | Some CreatedAtDesc => CreatedAt b <=? CreatedAt a
  end.

Fixpoint insert_row (o : option Ordering) (r : Task) (rows : list Task)
  : list Task :=
  match rows with
  | [] => [r]
  | x :: rest =>
      if order_le o r x then r :: x :: rest
      else x :: insert_row o r rest
  end.

(** [ORDER BY]: a stable sort, rows with equal keys stay in table
    order. *)
Fixpoint order_rows (o : option Ordering) (rows : list Task) : list Task :=
  match rows with
  | [] => []
  | r :: rest => insert_row o r (order_rows o rest)
  end.

Definition apply_offset (n : option Z) (rows : list Task) : list Task :=
  match n with
  | Some k => skipn (Z.to_nat k) rows
  | None => rows
  end.

Definition apply_limit (n : option Z) (rows : list Task) : list Task :=
  match n with
  | Some k => firstn (Z.to_nat k) rows
  | None => rows
  end.

Definition select_rows (q : Query) (rows : list Task) : list Task :=
  apply_limit (q_limit q)
    (apply_offset (q_offset q)
       (order_rows (q_order q) (filter (q_where q) rows))).

Definition Find (q : Query) : M (list Task) :=
  fun db => (Ok (select_rows q (tasks db)), db).

(** [First] orders by the query's column, then by the primary key,
    and keeps one row. *)
Definition first_le (o : option Ordering) (a b : Task) : bool :=
  match o with
  | None => String.leb (ID a) (ID b)
  | Some CreatedAtAsc =>
      (CreatedAt a <? CreatedAt b)
      || ((CreatedAt a =? CreatedAt b) && String.leb (ID a) (ID b))
  | Some CreatedAtDesc =>
      (CreatedAt b <? CreatedAt a)
      || ((CreatedAt a =? CreatedAt b) && String.leb (ID a) (ID b))
  end.

Fixpoint min_row (o : option Ordering) (rows : list Task) : option Task :=
  match rows with
  | [] => None
  | r :: rest =>
      match min_row o rest with
      | None => Some r
      | Some m => if first_le o r m then Some r else Some m
      end
  end.

Definition First (q : Query) : M (error + Task) :=
  fun db =>
    match min_row (q_order q) (filter (q_where q) (tasks db)) with
    | Some r => (Ok (inr r), db)
    | None => (Ok (inl ErrRecordNotFound), db)
    end.

Definition has_id (id : string) (t : Task) : bool := String.eqb (ID t) id.

(** The [autoCreateTime] and [autoUpdateTime] columns: a zero time
    is replaced on insert. *)
Definition stamp_created (now : Z) (t : Task) : Task :=
  let t1 := if CreatedAt t =? 0 then set_CreatedAt t now else t in
  if UpdatedAt t1 =? 0 then set_UpdatedAt t1 now else t1.

(** The insert itself: the primary key must be new. *)
Definition insert (t : Task) : M (option error * Task) :=
  fun db =>
    if existsb (has_id (ID t)) (tasks db)
    then (Ok (Some ErrUniqueViolation, t), db)
    else (Ok (None, t), mkDB (tasks db ++ [t]) (task_logs db)).

(** [db.Create(task)]: the [BeforeCreate] hook, the time stamps,
    the insert.  The result is [tx.Error] and the struct as the
    call leaves it. *)
Definition Create (now : Z) (t : Task) : M (option error * Task) :=
  match BeforeCreate t with
  | (Some e, t1) => ret (Some e, t1)
  | (None, t1) => insert (stamp_created now t1)
  end.

Definition replace_row (t : Task) (rows : list Task) : list Task :=
  map (fun r => if has_id (ID t) r then t else r) rows.

(** [db.Save(task)]: an insert when the primary key is the zero
    value; otherwise an update of every column, run after the
    [BeforeUpdate] hook, and, when no row has that key, an insert
    without hooks. *)
Definition Save (now : Z) (t : Task) : M (option error * Task) :=
  if String.eqb (ID t) "" then Create now t
  else
    match BeforeUpdate t with
    | Some e => ret (Some e, t)
    | None =>
        let t1 := set_UpdatedAt t now in
        fun db =>
          if existsb (has_id (ID t1)) (tasks db)
          then (Ok (None, t1),
                mkDB (replace_row t1 (tasks db)) (task_logs db))
          else insert (stamp_created now t1) db
    end.

(** [db.Create(log)] on the log table: the driver's error while the
    table does not exist; otherwise a new row, whose key is assigned
    by the database. *)
Definition CreateLog (now : Z) (l : TaskLog) : M (option error) :=
  fun db =>
    match task_logs db with
    | None => (Ok (Some (Errorf "no such table: task_logs")), db)
    | Some logs =>
        let l1 := mkTaskLog (1 + Z.of_nat (List.length logs))
                            (TaskID l) (Level l) (Message l) (Timestamp l)
                            now now in
        (Ok None, mkDB (tasks db) (Some (logs ++ [l1])%list))
    end.

End Store.

Declare Scope db_scope.
Delimit Scope db_scope with db.
Notation "x <- c ;; k" := (Store.bind c (fun x => k))
  (at level 61, c at next level, right associativity) : db_scope.
Notation "' pat <- c ;; k" :=
  (Store.bind c (fun x => match x with pat => k end))
  (at level 61, pat pattern, c at next level, right associativity) : db_scope.
Local Open Scope db_scope.

(* ================================================================= *)
(** ** internal/services *)

Module Services.
Import Models Store.

(** [CreateTask].  [ulid.Make().String()] comes from the ULID
    library: the freshly made identifier is the argument [id]. *)
Definition CreateTask (repo prompt : string) (id : string) (now : Z)
  : M Task :=
  match Go.slice_to id 6 with
  | None => panic
  | Some id6 =>
      let branch := "amp/" ++ id6 in
      match Go.slice_to id 8 with
      | None => panic
      | Some id8 =>
          let threadID := "thread-" ++ id8 in
          let task :=
            mkTask id repo branch threadID prompt TaskStatusQueued
                   None 0 "" "" "" 0 0 in
          '(err, task) <- Create now task ;;
          match err with
          | Some e => fail (Errorw "failed to create task: " e)
          | None => ret task
          end
      end
  end.

Definition GetTask (id : string) : M Task :=
  r <- First (Where (has_id id) Model) ;;
  match r with
  | inl ErrRecordNotFound => fail (Errorf "task not found")
  | inl e => fail (Errorw "failed to retrieve task: " e)
  | inr task => ret task
  end.

Definition ListTasks (status : string) (limit offset : Z)
  : M (list Task) :=
  let paginate (query : Query) : M (list Task) :=
    let query := if 0 <? limit then Limit limit query else query in
    let query := if 0 <? offset then Offset offset query else query in
    let query := Order CreatedAtDesc query in
    Find query in
  let query := Model in
  if negb (String.eqb status "") then
    if negb (IsValid status)
    then fail (Errorf ("invalid status: " ++ status))
    else paginate (Where (fun t => String.eqb (Status t) status) query)
  else paginate query.

(** [UpdateTask]: the [continue] and [abort] actions. *)
Definition UpdateTask (id action prompt : string) (now : Z) : M unit :=
  task <- GetTask id ;;
  if String.eqb action "continue" then
    if negb (IsRetryable task 3)
    then fail (Errorf ("task cannot be continued: status=" ++ Status task
                         ++ ", attempts=" ++ Go.itoa (Attempts task)))
    else
      let task := if negb (String.eqb prompt "")
                  then set_Prompt task prompt else task in
      match UpdateStatus task TaskStatusQueued with
      | (Some e, _) => fail (Errorw "failed to update task status: " e)
      | (None, task) =>
          '(err, _) <- Save now task ;;
          match err with
          | Some e => fail (Errorw "failed to save updated task: " e)
          | None => ret tt
          end
      end
  else if String.eqb action "abort" then
    let abort (task : Task) : M unit :=
      match UpdateStatus task TaskStatusAborted with
      | (Some e, _) => fail (Errorw "failed to abort task: " e)
      | (None, task) =>
          '(err, _) <- Save now task ;;
          match err with
          | Some e => fail (Errorw "failed to save updated task: " e)
          | None => ret tt
          end
      end in
    if IsTerminal (Status task)
       && negb (String.eqb (Status task) TaskStatusAborted)
    then
      if String.eqb (Status task) TaskStatusSuccess
      then ret tt
      else abort task
    else abort task
  else fail (Errorf ("invalid action: " ++ action)).

Definition ValidatePrompt (prompt : string) : option error :=
  if String.eqb prompt "" then Some (Errorf "prompt cannot be empty")
  else if 10000 <? Go.len prompt
       then Some (Errorf "prompt too long (max 10000 characters)")
       else None.

(** [GetNextTask]: the oldest queued task, or [nil, nil]. *)
Definition GetNextTask : M (option Task) :=
  r <- First (Order CreatedAtAsc
                (Where (fun t => String.eqb (Status t) TaskStatusQueued)
                       Model)) ;;
  match r with
  | inl ErrRecordNotFound => ret None
  | inl e => fail (Errorw "failed to get next task: " e)
  | inr task => ret (Some task)
  end.

Definition UpdateTaskStatus (taskID : string) (status : string) (now : Z)
  : M unit :=
  r <- First (Where (has_id taskID) Model) ;;
  match r with
  | inl e => fail (Errorw "task not found: " e)
  | inr task =>
      let task := set_Status task status in
      '(err, _) <- Save now task ;;
      match err with
      | Some e => fail (Errorw "failed to update task status: " e)
      | None => ret tt
      end
  end.

(** [UpdateTaskModel] saves the caller's struct and, when the save
    succeeds, gives back the struct as the save leaves it. *)
Definition UpdateTaskModel (task : Task) (now : Z) : M Task :=
  '(err, task) <- Save now task ;;
  match err with
  | Some e => fail (Errorw "failed to update task: " e)
  | None => ret task
  end.

Definition AddTaskLog (taskID level message : string) (now : Z) : M unit :=
  err <- CreateLog now (mkTaskLog 0 taskID level message now 0 0) ;;
  match err with
  | Some e => fail (Errorw "failed to add task log: " e)
  | None => ret tt
  end.

Definition GetTasksByRepo (repo : string) (limit offset : Z)
  : M (list Task) :=
  let query := Where (fun t => String.eqb (Repo t) repo) Model in
  let query := if 0 <? limit then Limit limit query else query in
  let query := if 0 <? offset then Offset offset query else query in
  let query := Order CreatedAtDesc query in
  Find query.

(** [GetActiveTasks]: the tasks whose status is one of the four
    listed in the [IN] clause, oldest first. *)
Definition GetActiveTasks : M (list Task) :=
  let query :=
    Where (fun t =>
             existsb (String.eqb (Status t))
               [TaskStatusQueued; TaskStatusRunning; TaskStatusRetrying;
                TaskStatusNeedsReview])
          Model in
  Find (Order CreatedAtAsc query).

Definition ValidateRepo (repo : string) : option error :=
  if String.eqb repo "" then Some (Errorf "repo cannot be empty")
  else if negb (Strings.Contains repo "/")
       then Some (Errorf
                    "repo must be in format 'owner/repo' or full Git URL")
       else None.

End Services.

(* ================================================================= *)
(** ** internal/api/handlers *)

Module Handlers.
Import Models Store.

(** The message texts of the sentinels of gorm and of the SQL
    driver, which the handlers meet only through [err.Error()]. *)
Record SentinelTexts : Type := mkSentinelTexts {
  record_not_found_text : string;
  invalid_value_text    : string;
  unique_violation_text : string
}.

Definition StatusOK                  : Z := 200.
Definition StatusNoContent           : Z := 204.
Definition StatusBadRequest          : Z := 400.
Definition StatusNotFound            : Z := 404.
Definition StatusConflict            : Z := 409.
Definition StatusInternalServerError : Z := 500.

Record UpdateTaskRequest : Type := mkUpdateTaskRequest {
  Action    : string;
  ReqPrompt : string
}.

Record TaskResponse : Type := mkTaskResponse {
  RespID        : string;
  RespRepo      : string;
  RespBranch    : string;
  RespThreadID  : string;
  RespPrompt    : string;
  RespStatus    : TaskStatus;
  RespCIRunID   : option Z;
  RespAttempts  : Z;
  RespSummary   : string;
  RespCreatedAt : Z;
  RespUpdatedAt : Z
}.

Inductive Body : Type :=
| ErrorResponse (Error Message RequestID : string)
| ValidationErrorResponse (Error Message : string)
                          (Fields : list (string * string))
                          (RequestID : string)
| TaskListResponse (Tasks : list TaskResponse) (Total : Z)
| NoBody.

Record Response : Type := mkResponse {
  Code    : Z;
  Payload : Body
}.

Definition ToTaskResponse (task : Task) : TaskResponse :=
  mkTaskResponse (ID task) (Repo task) (Branch task) (ThreadID task)
                 (Prompt task) (Status task) (CIRunID task)
                 (Attempts task) (Summary task)
                 (CreatedAt task) (UpdatedAt task).

Definition ToTaskListResponse (tasks : list Task) : Body :=
  TaskListResponse (map ToTaskResponse tasks)
                   (Z.of_nat (List.length tasks)).

(** [c.DefaultQuery(key, def)]: the default stands in for an absent
    key only. *)
Definition DefaultQuery (value : option string) (def : string) : string :=
  match value with
  | Some v => v
  | None => def
  end.

(** The answer of a handler that may send a single task. *)
Inductive TaskReply : Type :=
| ReplyTask (code : Z) (task : TaskResponse)
| ReplyOther (r : Response).

Section WithSentinelTexts.
Variable txt : SentinelTexts.

(** [err.Error()]. *)
Fixpoint ErrorText (e : error) : string :=
  match e with
  | ErrRecordNotFound => record_not_found_text txt
  | ErrInvalidValue => invalid_value_text txt
  | ErrUniqueViolation => unique_violation_text txt
  | Errorf msg => msg
  | Errorw prefix wrapped => prefix ++ ErrorText wrapped
  end.

(** [ListTasks] handles GET /tasks.  [status] is [c.Query("status")]
    (empty when absent); [limitQ] and [offsetQ] are the raw query
    values, [None] for an absent key. *)
Definition ListTasks (request_id : string) (status : string)
           (limitQ offsetQ : option string) : M Response :=
  let limitStr := DefaultQuery limitQ "50" in
  let offsetStr := DefaultQuery offsetQ "0" in
  let invalid_limit :=
    ret (mkResponse StatusBadRequest
           (ErrorResponse "validation_error" "Invalid limit parameter"
                          request_id)) in
  let invalid_offset :=
    ret (mkResponse StatusBadRequest
           (ErrorResponse "validation_error" "Invalid offset parameter"
                          request_id)) in
  match Go.Atoi limitStr with
  | None => invalid_limit
  | Some limit =>
      if limit <? 0 then invalid_limit
      else
        match Go.Atoi offsetStr with
        | None => invalid_offset
        | Some offset =>
            if offset <? 0 then invalid_offset
            else
              let limit := if 100 <? limit then 100 else limit in
              r <- attempt (Services.ListTasks status limit offset) ;;
              match r with
              | inl err =>
                  if String.eqb (ErrorText err)
                                ("invalid status: " ++ status)
                  then ret (mkResponse StatusBadRequest
                              (ErrorResponse "validation_error"
                                             (ErrorText err) request_id))
                  else ret (mkResponse StatusInternalServerError
                              (ErrorResponse "retrieval_error"
                                             "Failed to retrieve tasks"
                                             request_id))
              | inr tasks =>
                  ret (mkResponse StatusOK (ToTaskListResponse tasks))
              end
        end
  end.

(** [UpdateTask] handles PATCH /tasks/{id}.  [body] is the decoded
    JSON payload, [None] when it does not decode; the binding
    tags ask for an action that is [continue] or [abort]. *)
Definition UpdateTask (request_id : string) (id : string)
           (body : option UpdateTaskRequest) (now : Z) : M Response :=
  let invalid_payload :=
    ret (mkResponse StatusBadRequest
           (ValidationErrorResponse "validation_error"
                                    "Invalid request payload" []
                                    request_id)) in
  if String.eqb id "" then
    ret (mkResponse StatusBadRequest
           (ErrorResponse "validation_error" "Task ID is required"
                          request_id))
  else
    match body with
    | None => invalid_payload
    | Some req =>
        if negb (String.eqb (Action req) "continue"
                 || String.eqb (Action req) "abort")
        then invalid_payload
        else
          let update : M Response :=
            r <- attempt (Services.UpdateTask id (Action req)
                                              (ReqPrompt req) now) ;;
            match r with
            | inl err =>
                if String.eqb (ErrorText err) "task not found" then
                  ret (mkResponse StatusNotFound
                         (ErrorResponse "not_found" "Task not found"
                                        request_id))
                else if String.eqb (ErrorText err)
                          "task cannot be continued: status=success, attempts=3"
                        || String.eqb (ErrorText err)
                             "failed to update task status: invalid value"
                then
                  ret (mkResponse StatusConflict
                         (ErrorResponse "conflict" (ErrorText err)
                                        request_id))
                else
                  ret (mkResponse StatusInternalServerError
                         (ErrorResponse "update_error"
                                        "Failed to update task"
                                        request_id))
            | inr _ => ret (mkResponse StatusNoContent NoBody)
            end in
          if String.eqb (Action req) "continue"
             && negb (String.eqb (ReqPrompt req) "")
          then
            match Services.ValidatePrompt (ReqPrompt req) with
            | Some err =>
                ret (mkResponse StatusBadRequest
                       (ValidationErrorResponse "validation_error"
                                                (ErrorText err) []
                                                request_id))
            | None => update
            end
          else update
    end.

(** [GetTask] handles GET /tasks/{id}. *)
Definition GetTask (request_id : string) (id : string) : M TaskReply :=
  if String.eqb id "" then
    ret (ReplyOther
           (mkResponse StatusBadRequest
              (ErrorResponse "validation_error" "Task ID is required"
                             request_id)))
  else
    r <- attempt (Services.GetTask id) ;;
    match r with
    | inl err =>
        if String.eqb (ErrorText err) "task not found" then
          ret (ReplyOther
                 (mkResponse StatusNotFound
                    (ErrorResponse "not_found" "Task not found"
                                   request_id)))
        else
          ret (ReplyOther
                 (mkResponse StatusInternalServerError
                    (ErrorResponse "retrieval_error"
                                   "Failed to retrieve task" request_id)))
    | inr task => ret (ReplyTask StatusOK (ToTaskResponse task))
    end.

(** [GetActiveTasks] handles GET /tasks/active. *)
Definition GetActiveTasks (request_id : string) : M Response :=
  r <- attempt Services.GetActiveTasks ;;
  match r with
  | inl _ =>
      ret (mkResponse StatusInternalServerError
             (ErrorResponse "retrieval_error"
                            "Failed to retrieve active tasks" request_id))
  | inr tasks => ret (mkResponse StatusOK (ToTaskListResponse tasks))
  end.

(** [GetTasksByRepo] handles GET /tasks?repo={repo}: [repo] is
    [c.Query("repo")], the other two the raw query values. *)
Definition GetTasksByRepo (request_id : string) (repo : string)
           (limitQ offsetQ : option string) : M Response :=
  if String.eqb repo "" then
    ret (mkResponse StatusBadRequest
           (ErrorResponse "validation_error"
                          "Repository parameter is required" request_id))
  else
    let limitStr := DefaultQuery limitQ "50" in
    let offsetStr := DefaultQuery offsetQ "0" in
    let limit := match Go.Atoi limitStr with
                 | None => 50
                 | Some limit => if limit <? 0 then 50 else limit
                 end in
    let limit := if 100 <? limit then 100 else limit in
    let offset := match Go.Atoi offsetStr with
                  | None => 0
                  | Some offset => if offset <? 0 then 0 else offset
                  end in
    r <- attempt (Services.GetTasksByRepo repo limit offset) ;;
    match r with
    | inl _ =>
        ret (mkResponse StatusInternalServerError
               (ErrorResponse "retrieval_error"
                              "Failed to retrieve tasks for repository"
                              request_id))
    | inr tasks => ret (mkResponse StatusOK (ToTaskListResponse tasks))
    end.

End WithSentinelTexts.

End Handlers.

(* ================================================================= *)
(** ** internal/worker *)

Module Worker.
Import Models Store.

Record Config : Type := mkConfig {
  PollInterval   : Z;
  MaxConcurrency : Z;
  WorkDir        : string;
  AmpPath        : string;
  GitHubToken    : string;
  DatabasePath   : string
}.

Record ExecutionResult : Type := mkExecutionResult {
  Success       : bool;
  ExecMessage   : string;
  ExecBranchURL : string;
  ExecPRURL     : string;
  Logs          : list string;
  ExecError     : option string
}.

(** The instants at which [processTask] reaches the store. *)
Record Instants : Type := mkInstants {
  at_status : Z;
  at_start  : Z;
  at_result : Z;
  at_save   : Z
}.

(** The log lines [Execute] writes while it drives git, the
    generator and the pull request: level, message, instant. *)
Fixpoint add_logs (taskID : string) (ls : list (string * string * Z))
  : M unit :=
  match ls with
  | [] => ret tt
  | (level, message, now) :: rest =>
      _ <- attempt (Services.AddTaskLog taskID level message now) ;;
      add_logs taskID rest
  end.

(** [pollForTasks].  [sem] counts the slots taken in the buffered
    channel of capacity [MaxConcurrency]; the result is the count
    after the poll and the task handed to a new [processTask]
    goroutine, if any. *)
Definition pollForTasks (config : Config) (sem : Z)
  : M (Z * option Task) :=
  if sem <? MaxConcurrency config then
    r <- attempt Services.GetNextTask ;;
    match r with
    | inl err => fail (Errorw "failed to get next task: " err)
    | inr None => ret (sem, None)
    | inr (Some task) => ret (sem + 1, Some task)
    end
  else ret (sem, None).

(** [processTask].  What [processor.Execute] did outside the store
    is given by its result [exec] and by the log lines [exec_logs]
    it wrote.  The result is the task struct as the goroutine leaves
    it. *)
Definition processTask (task : Task) (i : Instants)
           (exec : ExecutionResult) (exec_logs : list (string * string * Z))
  : M Task :=
  r <- attempt (Services.UpdateTaskStatus (ID task) "running"
                                          (at_status i)) ;;
  match r with
  | inl _ => ret task
  | inr _ =>
      _ <- attempt (Services.AddTaskLog (ID task) "info"
                      "Task processing started" (at_start i)) ;;
      _ <- add_logs (ID task) exec_logs ;;
      let finish (task : Task) : M Task :=
        r <- attempt (Services.UpdateTaskModel task (at_save i)) ;;
        match r with
        | inl _ => ret task
        | inr task => ret task
        end in
      if Success exec then
        let task := set_Status task "completed" in
        let task := set_BranchURL task (ExecBranchURL exec) in
        let task := set_PRURL task (ExecPRURL exec) in
        _ <- attempt (Services.AddTaskLog (ID task) "info"
                        "Task completed successfully" (at_result i)) ;;
        finish task
      else
        let task := set_Status task "failed" in
        let errorMsg := match ExecError exec with
                        | Some msg => msg
                        | None => "Task failed"
                        end in
        _ <- attempt (Services.AddTaskLog (ID task) "error" errorMsg
                        (at_result i)) ;;
        finish task
  end.

(** [truncateString]: the slice [s[:maxLen-3]] panics when its bound
    is negative. *)
Definition truncateString (s : string) (maxLen : Z) : option string :=
  if Go.len s <=? maxLen then Some s
  else if maxLen - 3 <? 0 then None
       else Some (substring 0 (Z.to_nat (maxLen - 3)) s ++ "...").

(** [validateBranchName] of the git operations. *)
Definition validateBranchName (branchName : string) : option error :=
  if String.eqb branchName "" then
    Some (Errorf "branch name cannot be empty")
  else
    let invalidChars :=
      [" "; "~"; "^"; ":"; "?"; "*"; "["; "\"; ".."; "@{"] in
    match find (fun char => Strings.Contains branchName char) invalidChars with
    | Some char =>
        Some (Errorf ("branch name contains invalid character: " ++ char))
    | None =>
        if Strings.HasPrefix branchName "-" || Strings.HasSuffix branchName "-"
        then Some (Errorf "branch name cannot start or end with hyphen")
        else if Strings.HasPrefix branchName "."
                || Strings.HasSuffix branchName "."
             then Some (Errorf "branch name cannot start or end with dot")
             else None
    end.

(** [normalizeGitURL] of the git operations. *)
Definition normalizeGitURL (url : string) : string :=
  if Strings.HasPrefix url "git@github.com:" then
    let path := Strings.TrimPrefix url "git@github.com:" in
    let path := Strings.TrimSuffix path ".git" in
    "https://github.com/" ++ path
  else if Strings.HasPrefix url "git@gitlab.com:" then
    let path := Strings.TrimPrefix url "git@gitlab.com:" in
    let path := Strings.TrimSuffix path ".git" in
    "https://gitlab.com/" ++ path
  else if Strings.HasSuffix url ".git" then Strings.TrimSuffix url ".git"
  else url.

(** [parseRepoURL] of the GitHub operations. *)
Definition parseRepoURL (repoURL : string) : error + (string * string) :=
  let split (path : string) : error + (string * string) :=
    let path := Strings.TrimSuffix path ".git" in
    match Strings.Split path "/" with
    | [owner; repo] => inr (owner, repo)
    | _ => inl (Errorf ("invalid repository path: " ++ path))
    end in
  if Strings.HasPrefix repoURL "https://github.com/" then
    split (Strings.TrimPrefix repoURL "https://github.com/")
  else if Strings.HasPrefix repoURL "git@github.com:" then
    split (Strings.TrimPrefix repoURL "git@github.com:")
  else inl (Errorf ("unsupported repository URL format: " ++ repoURL)).

(** [CreatePullRequest] of the GitHub operations, a placeholder that
    answers with the address of pull request 123. *)
Definition CreatePullRequest (repoURL baseBranch headBranch title body : string)
  : error + string :=
  match parseRepoURL repoURL with
  | inl err => inl (Errorw "failed to parse repository URL: " err)
  | inr (owner, repo) =>
      inr ("https://github.com/" ++ owner ++ "/" ++ repo ++ "/pull/123")
  end.

End Worker.

(* ================================================================= *)
(** ** internal/validation *)

Module Validation.

(** The custom validators, on the string value of the field. *)
Definition validateTaskStatus (status : string) : bool :=
  existsb (String.eqb status)
    ["queued"; "running"; "retrying"; "needs_review"; "success";
     "failed"; "aborted"].

Definition validateTaskAction (action : string) : bool :=
  existsb (String.eqb action) ["continue"; "abort"].

Definition ValidatePaginationParams (limit offset : Z) : option error :=
  if limit <? 0 then Some (Errorf "limit cannot be negative")
  else if 100 <? limit then Some (Errorf "limit cannot exceed 100")
  else if offset <? 0 then Some (Errorf "offset cannot be negative")
  else None.

End Validation.

(* ================================================================= *)
(** ** internal/cli/commands *)

(** The checks the command-line client makes on a task's status
    before it sends an action to the API. *)
Module Commands.

Definition isTerminalStatus (status : string) : bool :=
  existsb (String.eqb status) ["success"; "failed"; "error"; "aborted"].

Definition canContinue (status : string) : bool :=
  existsb (String.eqb status) ["failed"; "error"; "retrying"; "needs_review"].

Definition canAbort (status : string) : bool :=
  existsb (String.eqb status) ["queued"; "running"; "retrying"; "needs_review"].

(** [validateAbortable], on the status of the task response. *)
Definition validateAbortable (status : string) : option error :=
  let abortableStates := ["queued"; "running"; "retrying"; "needs_review"] in
  if existsb (String.eqb status) abortableStates then None
  else if String.eqb status "success" then
    Some (Errorf
            "task has already completed successfully and cannot be aborted")
  else if String.eqb status "failed" || String.eqb status "error" then
    Some (Errorf
            "task has already failed and cannot be aborted (use 'continue' to retry)")
  else if String.eqb status "aborted" then
    Some (Errorf "task is already aborted")
  else
    Some (Errorf ("task cannot be aborted: current status is '" ++ status
                    ++ "' (must be one of: "
                    ++ Strings.Join abortableStates ", " ++ ")")).

(** [validateContinuable], on the status of the task response. *)
Definition validateContinuable (status : string) : option error :=
  let continuableStates := ["failed"; "error"; "retrying"; "needs_review"] in
  if existsb (String.eqb status) continuableStates then None
  else
    Some (Errorf ("task cannot be continued: current status is '" ++ status
                    ++ "' (must be one of: "
                    ++ Strings.Join continuableStates ", " ++ ")")).

(** [TruncateString] of the output package (and [truncateString] of
    the list command): a bound of three or less cuts without the
    ellipsis; the slice panics on a negative bound. *)
Definition TruncateString (s : string) (maxLen : Z) : option string :=
  if Go.len s <=? maxLen then Some s
  else if maxLen <=? 3 then
    if maxLen <? 0 then None else Some (substring 0 (Z.to_nat maxLen) s)
  else Some (substring 0 (Z.to_nat (maxLen - 3)) s ++ "...").

End Commands.

(* ================================================================= *)
(** ** Identifiers and branch names *)

Module Ulid.

(** The alphabet of the ULID text form (Crockford's base 32):
    the digits and the upper-case letters without I, L, O and U. *)
Definition is_crockford (c : ascii) : bool :=
  let n := nat_of_ascii c in
  (((48 <=? n) && (n <=? 57))               (* 0-9 *)
   || ((65 <=? n) && (n <=? 72))            (* A-H *)
   || ((74 <=? n) && (n <=? 75))            (* J-K *)
   || ((77 <=? n) && (n <=? 78))            (* M-N *)
   || ((80 <=? n) && (n <=? 84))            (* P-T *)
   || ((86 <=? n) && (n <=? 90)))%nat.      (* V-Z *)

(** The character class [a-z0-9]. *)
Definition is_lower_alnum (c : ascii) : bool :=
  let n := nat_of_ascii c in
  (((97 <=? n) && (n <=? 122)) || ((48 <=? n) && (n <=? 57)))%nat.

Fixpoint all_chars (p : ascii -> bool) (s : string) : bool :=
  match s with
  | EmptyString => true
  | String c rest => p c && all_chars p rest
  end.

(** What [ulid.Make().String()] returns: 26 characters of the
    alphabet. *)
Definition is_ulid (id : string) : bool :=
  (String.length id =? 26)%nat && all_chars is_crockford id.

(** The regular expression [^amp/C{6}$] for a character class [C]. *)
Definition matches_amp (cls : ascii -> bool) (s : string) : bool :=
  prefix "amp/" s
  && (String.length s =? 10)%nat
  && all_chars cls (substring 4 6 s).

(** The bytes of a minted branch name: those of ["amp/"] and the
    ULID alphabet. *)
Definition is_branch_char (c : ascii) : bool :=
  is_crockford c
  || Ascii.eqb c "a" || Ascii.eqb c "m" || Ascii.eqb c "p" || Ascii.eqb c "/".

Definition not_slash (c : ascii) : bool := negb (Ascii.eqb c "/").

End Ulid.

(* ================================================================= *)
(** ** The transition table of the specification *)

Module Spec32.
Import Models.

(** The table of permitted transitions as the specification words
    it (section 3.2), to be compared with [Models.CanTransitionTo]:
    queued to running or aborted; running to retrying, needs_review,
    success, error or aborted; retrying to running, queued,
    needs_review, error or aborted; needs_review to queued or
    aborted; from a terminal state only aborted to aborted. *)
Definition table : list (TaskStatus * list TaskStatus) :=
  [ (TaskStatusQueued,
      [TaskStatusRunning; TaskStatusAborted]);
    (TaskStatusRunning,
      [TaskStatusRetrying; TaskStatusNeedsReview; TaskStatusSuccess;
       TaskStatusError; TaskStatusAborted]);
    (TaskStatusRetrying,
      [TaskStatusRunning; TaskStatusQueued; TaskStatusNeedsReview;
       TaskStatusError; TaskStatusAborted]);
    (TaskStatusNeedsReview,
      [TaskStatusQueued; TaskStatusAborted]);
    (TaskStatusAborted,
      [TaskStatusAborted]) ].

Definition permitted (from to : TaskStatus) : bool :=
  match lookup from table with
  | None => false
  | Some allowed => existsb (String.eqb to) allowed
  end.

End Spec32.

(* ================================================================= *)
(** ** The store over time *)

Module System.
Import Models Store.

(** The calls that reach the store: the service operations, and the
    worker's poll and task processing. *)
Inductive call : Type :=
| CallCreateTask (repo prompt id : string) (now : Z)
| CallUpdateTask (id action prompt : string) (now : Z)
| CallUpdateTaskStatus (taskID status : string) (now : Z)
| CallUpdateTaskModel (task : Task) (now : Z)
| CallAddTaskLog (taskID level message : string) (now : Z)
| CallPollForTasks (config : Worker.Config) (sem : Z)
| CallProcessTask (task : Task) (i : Worker.Instants)
                  (exec : Worker.ExecutionResult)
                  (exec_logs : list (string * string * Z)).

(** The store after a call, whatever the call returned. *)
Definition run (c : call) (db : DB) : DB :=
  match c with
  | CallCreateTask repo prompt id now =>
      snd (Services.CreateTask repo prompt id now db)
  | CallUpdateTask id action prompt now =>
      snd (Services.UpdateTask id action prompt now db)
  | CallUpdateTaskStatus taskID status now =>
      snd (Services.UpdateTaskStatus taskID status now db)
  | CallUpdateTaskModel task now =>
      snd (Services.UpdateTaskModel task now db)
  | CallAddTaskLog taskID level message now =>
      snd (Services.AddTaskLog taskID level message now db)
  | CallPollForTasks config sem =>
      snd (Worker.pollForTasks config sem db)
  | CallProcessTask task i exec exec_logs =>
      snd (Worker.processTask task i exec exec_logs db)
  end.

(** The stores that a freshly migrated, empty database can reach. *)
Inductive reachable : DB -> Prop :=
| reach_empty : reachable empty
| reach_step (c : call) (db : DB) :
    reachable db -> reachable (run c db).



Definition is_queued (t : Task) : bool :=
  String.eqb (Status t) TaskStatusQueued.

(** A task record for the examples: identifier, status, attempts and
    creation instant. *)
Definition sample (id : string) (status : TaskStatus) (attempts : Z)
           (created : Z) : Task :=
  mkTask id "owner/repo" ("amp/" ++ substring 0 6 id)
         ("thread-" ++ substring 0 8 id) "fix the failing tests"
         status None attempts "" "" "" created created.

Definition sample_id : string := "01ARZ3NDEKTSV4RRFFQ69G5FAV".

Definition store_with (t : Task) : DB := mkDB [t] None.

(** The identifiers of the stored tasks, in table order. *)
Definition ids (db : DB) : list string := map ID (tasks db).

(** What a call can do to the store at most: append tasks, rewrite
    tasks in place under their identifier, and append entries to the
    log table where that table exists; it creates no table. *)
Definition grows (db db' : DB) : Prop :=
  (exists new, ids db' = (ids db ++ new)%list)
  /\ match task_logs db with
     | None => task_logs db' = None
     | Some logs => exists more, task_logs db' = Some (logs ++ more)%list
     end.

Definition advances {A : Type} (c : M A) : Prop :=
  forall db, grows db (snd (c db)).

(** The log table after [n] entries were offered to it: nothing,
    while the table does not exist; otherwise [n] more rows. *)
Definition log_gains (n : nat) (before after : option (list TaskLog))
  : Prop :=
  match before with
  | None => after = None
  | Some logs =>
      exists more, after = Some (logs ++ more)%list
                   /\ List.length more = n
  end.

(** The orders of the two [ORDER BY] clauses. *)
Definition newest_first (a b : Task) : Prop := CreatedAt b <= CreatedAt a.
Definition oldest_first (a b : Task) : Prop := CreatedAt a <= CreatedAt b.

Definition is_active (t : Task) : bool :=
  existsb (String.eqb (Status t))
    [TaskStatusQueued; TaskStatusRunning; TaskStatusRetrying;
     TaskStatusNeedsReview].

End System.

(* ================================================================= *)
(** * Properties *)

Import Models Store System.

(** ** Statuses *)

Lemma IsValid_true (s : TaskStatus) :
  IsValid s = true <->
  s = TaskStatusQueued \/ s = TaskStatusRunning \/ s = TaskStatusRetrying \/
  s = TaskStatusNeedsReview \/ s = TaskStatusSuccess \/
  s = TaskStatusAborted \/ s = TaskStatusError.
Proof.
  unfold IsValid; cbn [existsb].
  rewrite orb_false_r, !orb_true_iff, !String.eqb_eq. tauto.
Qed.

Lemma set_Status_same (t : Task) (s : TaskStatus) :
  Status t = s -> set_Status t s = t.
Proof. intros <-. now destruct t. Qed.

(** No entry of the code's table leads to [queued]. *)
Lemma status_cases (P : string -> Prop) :
  P "queued" -> P "running" -> P "retrying" -> P "needs_review" ->
  P "success" -> P "aborted" -> P "error" -> P "failed" ->
  (forall s,
      String.eqb s "queued" = false -> String.eqb s "running" = false ->
      String.eqb s "retrying" = false ->
      String.eqb s "needs_review" = false ->
      String.eqb s "success" = false -> String.eqb s "aborted" = false ->
      String.eqb s "error" = false -> String.eqb s "failed" = false ->
      P s) ->
  forall s, P s.
Proof.
  intros Hq Hr Ht Hn Hs Ha He Hf Hother s.
  destruct (String.eqb_spec s "queued") as [->|H1]; [exact Hq|].
  destruct (String.eqb_spec s "running") as [->|H2]; [exact Hr|].
  destruct (String.eqb_spec s "retrying") as [->|H3]; [exact Ht|].
  destruct (String.eqb_spec s "needs_review") as [->|H4]; [exact Hn|].
  destruct (String.eqb_spec s "success") as [->|H5]; [exact Hs|].
  destruct (String.eqb_spec s "aborted") as [->|H6]; [exact Ha|].
  destruct (String.eqb_spec s "error") as [->|H7]; [exact He|].
  destruct (String.eqb_spec s "failed") as [->|H8]; [exact Hf|].
  apply Hother; now apply String.eqb_neq.
Qed.

Lemma CanTransitionTo_queued (t : Task) :
  CanTransitionTo t TaskStatusQueued = false.
Proof.
  unfold CanTransitionTo.
  destruct (IsTerminal (Status t)); [reflexivity|].
  unfold validTransitions; cbn [lookup].
  repeat match goal with
         | |- context [String.eqb ?a ?b] =>
             destruct (String.eqb a b); [reflexivity|]
         end.
  reflexivity.
Qed.

(** ** C1: updates of a task in a terminal state *)

(** C1, as stated, fails: [UpdateStatus] accepts [success -> aborted]
    and [error -> aborted], which the claim says are rejected. *)
Lemma C1_terminal_to_aborted_accepted :
  UpdateStatus (System.sample System.sample_id TaskStatusSuccess 0 1)
               TaskStatusAborted
  = (None, System.sample System.sample_id TaskStatusAborted 0 1)
  /\ UpdateStatus (System.sample System.sample_id TaskStatusError 0 1)
                  TaskStatusAborted
     = (None, System.sample System.sample_id TaskStatusAborted 0 1).
Proof. split; reflexivity. Qed.

(** C1 (amended): for a task whose status is terminal (success,
    aborted or error), [UpdateStatus] accepts the target [aborted],
    from each of the three states, and rejects every other target
    with [ErrInvalidValue], leaving the task as it was. *)
Theorem C1_terminal_update_status (t : Task) (s : TaskStatus) :
  IsTerminal (Status t) = true ->
  (s = TaskStatusAborted ->
   UpdateStatus t s = (None, set_Status t TaskStatusAborted))
  /\ (s <> TaskStatusAborted ->
      UpdateStatus t s = (Some ErrInvalidValue, t)).
Proof.
  intros Hterm. unfold UpdateStatus, CanTransitionTo. rewrite Hterm.
  split; intros Hs.
  - subst s. reflexivity.
  - apply String.eqb_neq in Hs. rewrite Hs. reflexivity.
Qed.

Lemma C1_terminal_update_status_witness :
  UpdateStatus (System.sample System.sample_id TaskStatusError 3 1)
               TaskStatusAborted
  = (None, System.sample System.sample_id TaskStatusAborted 3 1)
  /\ UpdateStatus (System.sample System.sample_id TaskStatusSuccess 0 1)
                  TaskStatusRunning
     = (Some ErrInvalidValue,
        System.sample System.sample_id TaskStatusSuccess 0 1).
Proof.
  split.
  - apply (C1_terminal_update_status
             (System.sample System.sample_id TaskStatusError 3 1)
             TaskStatusAborted); reflexivity.
  - apply (C1_terminal_update_status
             (System.sample System.sample_id TaskStatusSuccess 0 1)
             TaskStatusRunning); [reflexivity | discriminate].
Defined.

(** ** The store *)

Lemma min_row_In (o : option Ordering) (rows : list Task) (r : Task) :
  min_row o rows = Some r -> In r rows.
Proof.
  revert r; induction rows as [|x rest IH]; intros r; cbn [min_row].
  - discriminate.
  - destruct (min_row o rest) as [m|].
    + destruct (first_le o x m); intros [= <-]; [now left|].
      right. now apply IH.
    + intros [= <-]. now left.
Qed.

Lemma min_row_None (o : option Ordering) (rows : list Task) :
  min_row o rows = None <-> rows = [].
Proof.
  destruct rows as [|x rest]; cbn [min_row]; [tauto|].
  split; [|discriminate].
  destruct (min_row o rest) as [m|]; [|discriminate].
  destruct (first_le o x m); discriminate.
Qed.

Lemma min_row_constant (o : option Ordering) (rows : list Task) (t : Task) :
  rows <> [] -> Forall (eq t) rows -> min_row o rows = Some t.
Proof.
  induction rows as [|x rest IH]; [congruence|].
  intros _ Hall. apply Forall_cons_iff in Hall as [Hx Hrest]. subst x.
  cbn [min_row]. destruct rest as [|y rest'].
  - reflexivity.
  - rewrite IH by (auto; discriminate). now destruct (first_le o t t).
Qed.

Lemma has_id_true (id : string) (t : Task) :
  has_id id t = true <-> ID t = id.
Proof. unfold has_id. apply String.eqb_eq. Qed.

Lemma existsb_filter_nil (p : Task -> bool) (rows : list Task) :
  existsb p rows = false <-> filter p rows = [].
Proof.
  induction rows as [|x rest IH]; cbn [existsb filter]; [tauto|].
  destruct (p x); cbn [orb]; [split; discriminate | exact IH].
Qed.

Lemma filter_replace_row (t : Task) (rows : list Task) :
  filter (has_id (ID t)) (replace_row t rows)
  = map (fun _ => t) (filter (has_id (ID t)) rows).
Proof.
  unfold replace_row.
  induction rows as [|x rest IH]; cbn [map filter]; [reflexivity|].
  destruct (has_id (ID t) x) eqn:Hx.
  - assert (Ht : has_id (ID t) t = true) by now apply has_id_true.
    rewrite Ht. cbn [map]. now rewrite IH.
  - rewrite Hx. exact IH.
Qed.

(** [GetTask] reads the first row with the identifier and leaves the
    store alone. *)
Lemma GetTask_eq (id : string) (db : DB) :
  Services.GetTask id db
  = match min_row None (filter (has_id id) (tasks db)) with
    | Some t => (Ok t, db)
    | None => (Err (Errorf "task not found"), db)
    end.
Proof.
  unfold Services.GetTask, bind, First, ret, fail. cbn.
  change (fun t : Task => has_id id t) with (has_id id).
  now destruct (min_row None (filter (has_id id) (tasks db))).
Qed.

Lemma GetTask_Ok (id : string) (db db' : DB) (t : Task) :
  Services.GetTask id db = (Ok t, db') ->
  db' = db /\ In t (tasks db) /\ ID t = id
  /\ existsb (has_id id) (tasks db) = true.
Proof.
  rewrite GetTask_eq.
  destruct (min_row None (filter (has_id id) (tasks db))) as [r|] eqn:Hmin;
    [|discriminate].
  intros [= -> <-]. apply min_row_In in Hmin as Hin.
  apply filter_In in Hin as [Hin Hid].
  repeat split; auto.
  - now apply has_id_true.
  - apply existsb_exists. eauto.
Qed.

(** After a save that updates the rows of an identifier, [GetTask]
    returns the saved struct. *)
Lemma GetTask_after_replace (t : Task) (db : DB) :
  existsb (has_id (ID t)) (tasks db) = true ->
  Services.GetTask (ID t) (mkDB (replace_row t (tasks db)) (task_logs db))
  = (Ok t, mkDB (replace_row t (tasks db)) (task_logs db)).
Proof.
  intros Hex. rewrite GetTask_eq. cbn [tasks].
  rewrite filter_replace_row.
  rewrite min_row_constant with (t := t); [reflexivity| |].
  - destruct (filter (has_id (ID t)) (tasks db)) eqn:Hf; [|discriminate].
    apply existsb_filter_nil in Hf. congruence.
  - apply Forall_forall. intros x Hx. apply in_map_iff in Hx as [? [<- _]].
    reflexivity.
Qed.

(** [Save] of a struct with a valid status and a key present in the
    table. *)
Lemma Save_update (now : Z) (t : Task) (db : DB) :
  ID t <> "" -> IsValid (Status t) = true ->
  existsb (has_id (ID t)) (tasks db) = true ->
  Save now t db
  = (Ok (None, set_UpdatedAt t now),
     mkDB (replace_row (set_UpdatedAt t now) (tasks db)) (task_logs db)).
Proof.
  intros Hid Hvalid Hex. unfold Save, BeforeUpdate.
  apply String.eqb_neq in Hid. rewrite Hid, Hvalid. cbn.
  now rewrite Hex.
Qed.

(** [Save] of a struct with an invalid status and a non-empty key. *)
Lemma Save_invalid (now : Z) (t : Task) (db : DB) :
  ID t <> "" -> IsValid (Status t) = false ->
  Save now t db = (Ok (Some ErrInvalidValue, t), db).
Proof.
  intros Hid Hinvalid. unfold Save, BeforeUpdate.
  apply String.eqb_neq in Hid. now rewrite Hid, Hinvalid.
Qed.

(** ** C2: the continue action *)

(** Whatever the task, the [continue] action never succeeds and never
    writes: the task is missing, or not retryable, or retryable and
    then refused by [UpdateStatus], whose table has no entry leading
    to [queued]. *)
Lemma continue_never_succeeds (id prompt : string) (now : Z) (db : DB) :
  exists e, Services.UpdateTask id "continue" prompt now db = (Err e, db).
Proof.
  unfold Services.UpdateTask, bind. rewrite GetTask_eq.
  destruct (min_row None (filter (has_id id) (tasks db))) as [t|];
    [|eexists; reflexivity].
  cbn [String.eqb Ascii.eqb Bool.eqb andb].
  destruct (IsRetryable t 3); cbn [negb]; [|eexists; reflexivity].
  unfold UpdateStatus. rewrite CanTransitionTo_queued. cbn [negb].
  eexists; reflexivity.
Qed.

(** C2 (the code departs from the claim): tasks in [needs_review],
    [retrying] and [error] with attempts below the budget of 3 are
    retryable, yet [continue] with a new prompt returns the error of
    the refused transition and stores nothing. *)
Theorem C2_continue_rejected_below_budget :
  let refused := Errorw "failed to update task status: " ErrInvalidValue in
  let run (status : TaskStatus) :=
    Services.UpdateTask System.sample_id "continue" "try once more" 9
      (System.store_with (System.sample System.sample_id status 1 1)) in
  IsRetryable (System.sample System.sample_id TaskStatusNeedsReview 1 1) 3
  = true
  /\ run TaskStatusNeedsReview
     = (Err refused,
        System.store_with
          (System.sample System.sample_id TaskStatusNeedsReview 1 1))
  /\ run TaskStatusRetrying
     = (Err refused,
        System.store_with
          (System.sample System.sample_id TaskStatusRetrying 1 1))
  /\ run TaskStatusError
     = (Err refused,
        System.store_with
          (System.sample System.sample_id TaskStatusError 1 1)).
Proof. cbv zeta. repeat split; vm_compute; reflexivity. Qed.

(** ** C6: abort of an aborted task *)

(** C6: on a stored task whose status is already [aborted], the
    [abort] action returns no error, and the stored task is afterwards
    the same task, status [aborted], with only its update stamp
    renewed. *)
Theorem C6_abort_aborted_idempotent
        (db : DB) (id prompt : string) (now : Z) (t : Task) :
  id <> "" ->
  Services.GetTask id db = (Ok t, db) ->
  Status t = TaskStatusAborted ->
  exists db',
    Services.UpdateTask id "abort" prompt now db = (Ok tt, db')
    /\ Services.GetTask id db' = (Ok (set_UpdatedAt t now), db')
    /\ Status (set_UpdatedAt t now) = TaskStatusAborted.
Proof.
  intros Hid Hget Hst.
  destruct (GetTask_Ok _ _ _ _ Hget) as (_ & _ & Hidt & Hex).
  unfold Services.UpdateTask, bind. rewrite Hget.
  cbn [String.eqb Ascii.eqb Bool.eqb andb].
  unfold UpdateStatus, CanTransitionTo. rewrite Hst.
  cbn [IsTerminal existsb TaskStatusAborted TaskStatusSuccess TaskStatusError
       String.eqb Ascii.eqb Bool.eqb andb orb negb].
  rewrite (set_Status_same t TaskStatusAborted Hst).
  rewrite Save_update; [| congruence | now rewrite Hst | now rewrite Hidt].
  eexists; split; [reflexivity|]. split; [|exact Hst].
  subst id. apply (GetTask_after_replace (set_UpdatedAt t now)). exact Hex.
Qed.

Lemma C6_abort_aborted_idempotent_witness :
  exists db',
    Services.UpdateTask System.sample_id "abort" "" 9
      (System.store_with (System.sample System.sample_id TaskStatusAborted 0 1))
    = (Ok tt, db')
    /\ Services.GetTask System.sample_id db'
       = (Ok (set_UpdatedAt
                (System.sample System.sample_id TaskStatusAborted 0 1) 9), db')
    /\ Status (set_UpdatedAt
                 (System.sample System.sample_id TaskStatusAborted 0 1) 9)
       = TaskStatusAborted.
Proof.
  apply (C6_abort_aborted_idempotent
           (System.store_with
              (System.sample System.sample_id TaskStatusAborted 0 1))
           System.sample_id "" 9
           (System.sample System.sample_id TaskStatusAborted 0 1)).
  - discriminate.
  - reflexivity.
  - reflexivity.
Defined.

(** ** C10: the service-level status update *)

Lemma First_by_id (id : string) (db : DB) :
  First (Where (has_id id) Model) db
  = match min_row None (filter (has_id id) (tasks db)) with
    | Some t => (Ok (inr t), db)
    | None => (Ok (inl ErrRecordNotFound), db)
    end.
Proof. reflexivity. Qed.

Lemma GetTask_First (id : string) (db : DB) (t : Task) :
  Services.GetTask id db = (Ok t, db) ->
  First (Where (has_id id) Model) db = (Ok (inr t), db).
Proof.
  rewrite GetTask_eq, First_by_id.
  destruct (min_row None (filter (has_id id) (tasks db)));
    [intros [= ->]; reflexivity | discriminate].
Qed.

(** [UpdateTaskStatus] with a valid status on an identifier of the
    table: the first row of the identifier is rewritten. *)
Lemma UpdateTaskStatus_valid
      (db : DB) (id status : string) (now : Z) (t : Task) :
  id <> "" -> IsValid status = true ->
  Services.GetTask id db = (Ok t, db) ->
  let t' := set_UpdatedAt (set_Status t status) now in
  let db' := mkDB (replace_row t' (tasks db)) (task_logs db) in
  Services.UpdateTaskStatus id status now db = (Ok tt, db')
  /\ Services.GetTask id db' = (Ok t', db').
Proof.
  intros Hid Hv Hget. cbv zeta.
  destruct (GetTask_Ok _ _ _ _ Hget) as (_ & _ & Hidt & Hex).
  apply GetTask_First in Hget.
  unfold Services.UpdateTaskStatus, bind. rewrite Hget.
  rewrite Save_update; [| cbn; congruence | exact Hv | cbn; now rewrite Hidt].
  split; [reflexivity|]. subst id.
  apply (GetTask_after_replace (set_UpdatedAt (set_Status t status) now)).
  exact Hex.
Qed.

(** C10: [UpdateTaskStatus] on a stored task never looks at the
    transition table.  Whatever the current status, each of the seven
    valid values is written (and the update stamp renewed); a value
    outside the seven is refused by the save, and nothing is
    stored. *)
Theorem C10_UpdateTaskStatus_overwrites
        (db : DB) (id : string) (status : string) (now : Z) (t : Task) :
  id <> "" ->
  Services.GetTask id db = (Ok t, db) ->
  (IsValid status = true ->
   exists db',
     Services.UpdateTaskStatus id status now db = (Ok tt, db')
     /\ Services.GetTask id db'
        = (Ok (set_UpdatedAt (set_Status t status) now), db'))
  /\ (IsValid status = false ->
      Services.UpdateTaskStatus id status now db
      = (Err (Errorw "failed to update task status: " ErrInvalidValue), db)).
Proof.
  intros Hid Hget. split; intros Hv.
  - destruct (UpdateTaskStatus_valid db id status now t Hid Hv Hget)
      as [Hupdate Hstored].
    eexists; split; [exact Hupdate | exact Hstored].
  - destruct (GetTask_Ok _ _ _ _ Hget) as (_ & _ & Hidt & _).
    apply GetTask_First in Hget.
    unfold Services.UpdateTaskStatus, bind. rewrite Hget.
    rewrite Save_invalid; [reflexivity | cbn; congruence | exact Hv].
Qed.

Lemma C10_UpdateTaskStatus_overwrites_witness :
  let t := System.sample System.sample_id TaskStatusSuccess 0 1 in
  CanTransitionTo t TaskStatusRunning = false
  /\ (exists db',
        Services.UpdateTaskStatus System.sample_id "running" 9
                                  (System.store_with t) = (Ok tt, db')
        /\ Services.GetTask System.sample_id db'
           = (Ok (set_UpdatedAt (set_Status t "running") 9), db'))
  /\ Services.UpdateTaskStatus System.sample_id "completed" 9
                               (System.store_with t)
     = (Err (Errorw "failed to update task status: " ErrInvalidValue),
        System.store_with t).
Proof.
  cbv zeta. split; [reflexivity|].
  pose proof (C10_UpdateTaskStatus_overwrites
                (System.store_with
                   (System.sample System.sample_id TaskStatusSuccess 0 1))
                System.sample_id) as H.
  split.
  - apply (H "running" 9 (System.sample System.sample_id TaskStatusSuccess 0 1));
      [discriminate | reflexivity | reflexivity].
  - apply (H "completed" 9
             (System.sample System.sample_id TaskStatusSuccess 0 1));
      [discriminate | reflexivity | reflexivity].
Defined.

(** ** C7 and C8: creation *)

Lemma length_substring0 (n : nat) (s : string) :
  (n <= String.length s)%nat -> String.length (substring 0 n s) = n.
Proof.
  revert s; induction n as [|n IH]; intros [|c s]; cbn; intros H;
    try reflexivity; try lia.
  f_equal. apply IH. lia.
Qed.

Lemma all_chars_substring0 (p : ascii -> bool) (n : nat) (s : string) :
  Ulid.all_chars p s = true -> Ulid.all_chars p (substring 0 n s) = true.
Proof.
  revert s; induction n as [|n IH]; intros [|c s]; cbn; auto.
  rewrite !andb_true_iff. intros [Hc Hs]. auto.
Qed.

Lemma is_ulid_inv (id : string) :
  Ulid.is_ulid id = true ->
  String.length id = 26%nat /\ Ulid.all_chars Ulid.is_crockford id = true.
Proof.
  unfold Ulid.is_ulid. rewrite andb_true_iff, Nat.eqb_eq. tauto.
Qed.

(** [CreateTask] with an identifier of at least eight characters. *)
Lemma CreateTask_eq (repo prompt id : string) (now : Z) (db : DB) :
  (8 <= String.length id)%nat ->
  let task := mkTask id repo ("amp/" ++ substring 0 6 id)
                     ("thread-" ++ substring 0 8 id) prompt
                     TaskStatusQueued None 0 "" "" "" now now in
  Services.CreateTask repo prompt id now db
  = if existsb (has_id id) (tasks db)
    then (Err (Errorw "failed to create task: " ErrUniqueViolation), db)
    else (Ok task, mkDB (tasks db ++ [task]) (task_logs db)).
Proof.
  intros Hlen. cbv zeta. unfold Services.CreateTask, Go.slice_to.
  assert (H6 : (6 <=? String.length id)%nat = true)
    by (apply Nat.leb_le; lia).
  assert (H8 : (8 <=? String.length id)%nat = true)
    by (apply Nat.leb_le; lia).
  rewrite H6, H8.
  unfold bind, Create, insert, ret, fail. cbn.
  now destruct (existsb (has_id id) (tasks db)).
Qed.

Lemma GetTask_after_insert (t : Task) (db : DB) :
  existsb (has_id (ID t)) (tasks db) = false ->
  Services.GetTask (ID t) (mkDB (tasks db ++ [t]) (task_logs db))
  = (Ok t, mkDB (tasks db ++ [t]) (task_logs db)).
Proof.
  intros Hfresh. rewrite GetTask_eq. cbn [tasks].
  rewrite filter_app. apply existsb_filter_nil in Hfresh. rewrite Hfresh.
  cbn [app filter]. assert (Ht : has_id (ID t) t = true) by now apply has_id_true.
  now rewrite Ht.
Qed.

(** C7: creating a task under a fresh identifier succeeds, and getting
    the task by the returned identifier yields the task created: the
    same repo and prompt, status [queued], attempts [0]. *)
Theorem C7_create_then_get
        (db : DB) (repo prompt id : string) (now : Z) :
  Ulid.is_ulid id = true ->
  existsb (has_id id) (tasks db) = false ->
  exists t db',
    Services.CreateTask repo prompt id now db = (Ok t, db')
    /\ Services.GetTask (ID t) db' = (Ok t, db')
    /\ Repo t = repo /\ Prompt t = prompt
    /\ Status t = TaskStatusQueued /\ Attempts t = 0.
Proof.
  intros Hulid Hfresh. apply is_ulid_inv in Hulid as [Hlen _].
  rewrite CreateTask_eq by lia. cbv zeta. rewrite Hfresh.
  eexists; eexists; split; [reflexivity|].
  split; [|now cbn].
  apply GetTask_after_insert. exact Hfresh.
Qed.

Lemma C7_create_then_get_witness :
  exists t db',
    Services.CreateTask "owner/repo" "fix the bug" System.sample_id 5
      (System.store_with (System.sample "01BX5ZZKBKACTAV9WEVGEMMVRZ"
                                        TaskStatusRunning 1 2))
    = (Ok t, db')
    /\ Services.GetTask (ID t) db' = (Ok t, db')
    /\ Repo t = "owner/repo" /\ Prompt t = "fix the bug"
    /\ Status t = TaskStatusQueued /\ Attempts t = 0.
Proof.
  apply (C7_create_then_get
           (System.store_with (System.sample "01BX5ZZKBKACTAV9WEVGEMMVRZ"
                                             TaskStatusRunning 1 2))
           "owner/repo" "fix the bug" System.sample_id 5);
    reflexivity.
Defined.

Lemma matches_amp_intro (cls : ascii -> bool) (x : string) :
  String.length x = 6%nat -> Ulid.all_chars cls x = true ->
  Ulid.matches_amp cls ("amp/" ++ x) = true.
Proof.
  intros Hlen Hcls. unfold Ulid.matches_amp.
  assert (prefix "amp/" ("amp/" ++ x) = true) as ->
    by (destruct x; [discriminate Hlen | reflexivity]).
  assert (String.length ("amp/" ++ x) = S (S (S (S (String.length x)))))
    as -> by reflexivity.
  assert (substring 4 6 ("amp/" ++ x) = substring 0 6 x) as -> by reflexivity.
  rewrite Hlen. cbn [Nat.eqb andb].
  now apply all_chars_substring0.
Qed.

(** C8, as stated, fails: the identifier is a ULID, whose letters are
    upper case, so the branch of this task does not match
    [^amp/[a-z0-9]{6}$]. *)
Lemma C8_branch_not_lower_case :
  let t := System.sample System.sample_id TaskStatusQueued 0 5 in
  Ulid.is_ulid System.sample_id = true
  /\ Services.CreateTask "owner/repo" "fix the failing tests"
                         System.sample_id 5 empty
     = (Ok t, System.store_with t)
  /\ Branch t = "amp/01ARZ3"
  /\ Ulid.matches_amp Ulid.is_lower_alnum (Branch t) = false.
Proof. cbv zeta. repeat split; vm_compute; reflexivity. Qed.

(** C8 (amended): the branch of a created task is ["amp/"] followed
    by exactly the first six characters of the task's identifier, and
    it matches [^amp/[0-9A-HJKMNP-TV-Z]{6}$], the six characters being
    digits and upper-case letters of the ULID alphabet. *)
Theorem C8_branch_of_created_task
        (db db' : DB) (repo prompt id : string) (now : Z) (t : Task) :
  Ulid.is_ulid id = true ->
  Services.CreateTask repo prompt id now db = (Ok t, db') ->
  ID t = id
  /\ Branch t = "amp/" ++ substring 0 6 id
  /\ String.length (substring 0 6 id) = 6%nat
  /\ Ulid.matches_amp Ulid.is_crockford (Branch t) = true.
Proof.
  intros Hulid. apply is_ulid_inv in Hulid as [Hlen Hall].
  rewrite CreateTask_eq by lia. cbv zeta.
  destruct (existsb (has_id id) (tasks db)); [discriminate|].
  intros [= <- <-]. cbn [ID Branch].
  assert (H6 : String.length (substring 0 6 id) = 6%nat)
    by (apply length_substring0; lia).
  repeat split; auto.
  apply (matches_amp_intro _ (substring 0 6 id)); [exact H6|].
  now apply all_chars_substring0.
Qed.

Lemma C8_branch_of_created_task_witness :
  let t := System.sample System.sample_id TaskStatusQueued 0 5 in
  Services.CreateTask "owner/repo" "fix the failing tests"
                      System.sample_id 5 empty
  = (Ok t, System.store_with t)
  /\ ID t = System.sample_id
  /\ Branch t = "amp/" ++ substring 0 6 System.sample_id
  /\ String.length (substring 0 6 System.sample_id) = 6%nat
  /\ Ulid.matches_amp Ulid.is_crockford (Branch t) = true.
Proof.
  cbv zeta. split; [vm_compute; reflexivity|].
  apply (C8_branch_of_created_task
           empty
           (System.store_with
              (System.sample System.sample_id TaskStatusQueued 0 5))
           "owner/repo" "fix the failing tests" System.sample_id 5
           (System.sample System.sample_id TaskStatusQueued 0 5));
    vm_compute; reflexivity.
Defined.

(** ** C4: the next task *)

Lemma GetNextTask_eq (db : DB) :
  Services.GetNextTask db
  = match min_row (Some CreatedAtAsc) (filter is_queued (tasks db)) with
    | Some t => (Ok (Some t), db)
    | None => (Ok None, db)
    end.
Proof.
  unfold Services.GetNextTask, bind, First, ret, fail. cbn.
  change (fun t : Task => String.eqb (Status t) TaskStatusQueued)
    with is_queued.
  now destruct (min_row (Some CreatedAtAsc) (filter is_queued (tasks db))).
Qed.

(** The row [First] keeps under [ORDER BY created_at ASC] is created
    no later than any other row. *)
Lemma min_row_oldest (rows : list Task) (m : Task) :
  min_row (Some CreatedAtAsc) rows = Some m ->
  forall r, In r rows -> CreatedAt m <= CreatedAt r.
Proof.
  revert m; induction rows as [|x rest IH]; intros m; cbn [min_row];
    [discriminate|].
  destruct (min_row (Some CreatedAtAsc) rest) as [m'|] eqn:Hrest.
  - specialize (IH m' eq_refl).
    destruct (first_le (Some CreatedAtAsc) x m') eqn:Hle;
      intros [= <-] r [<- | Hin]; cbn [first_le] in Hle.
    + lia.
    + specialize (IH r Hin).
      apply orb_true_iff in Hle as [Hlt | Heq].
      * apply Z.ltb_lt in Hlt. lia.
      * apply andb_true_iff in Heq as [Heq _]. apply Z.eqb_eq in Heq. lia.
    + apply orb_false_iff in Hle as [Hlt Heq].
      apply Z.ltb_ge in Hlt. exact Hlt.
    + now apply IH.
  - apply min_row_None in Hrest. subst rest.
    intros [= <-] r [<- | []]. lia.
Qed.

Lemma GetTask_of_In (db : DB) (t : Task) :
  In t (tasks db) -> exists t0, Services.GetTask (ID t) db = (Ok t0, db).
Proof.
  intros Hin. rewrite GetTask_eq.
  destruct (min_row None (filter (has_id (ID t)) (tasks db))) as [t0|] eqn:Hm;
    [eauto|].
  apply min_row_None in Hm.
  assert (Hf : In t (filter (has_id (ID t)) (tasks db)))
    by (apply filter_In; split; [assumption | now apply has_id_true]).
  rewrite Hm in Hf. destruct Hf.
Qed.

(** C4, as stated, fails: [GetNextTask] returns the oldest queued
    task but leaves it [queued] in the store, so that a second call
    returns the same task again. *)
Lemma C4_next_task_left_queued :
  let older := System.sample System.sample_id TaskStatusQueued 0 3 in
  let newer := System.sample "01BX5ZZKBKACTAV9WEVGEMMVRZ" TaskStatusQueued 0 7 in
  let db := mkDB [newer; older] None in
  Services.GetNextTask db = (Ok (Some older), db)
  /\ Services.GetTask System.sample_id (snd (Services.GetNextTask db))
     = (Ok older, db)
  /\ Status older = TaskStatusQueued
  /\ Services.GetNextTask (snd (Services.GetNextTask db))
     = (Ok (Some older), db).
Proof. cbv zeta. repeat split; vm_compute; reflexivity. Qed.

(** C4 (amended): [GetNextTask] selects the oldest queued task and
    returns it without changing the store, where the task stays
    [queued]; when no queued task exists it returns empty without
    error.  The transition to [running] is a separate, later step:
    the status update that the worker makes for the task returned. *)
Theorem C4_GetNextTask_oldest_queued (db : DB) :
  (exists t,
     Services.GetNextTask db = (Ok (Some t), db)
     /\ In t (tasks db)
     /\ Status t = TaskStatusQueued
     /\ (forall r, In r (tasks db) -> Status r = TaskStatusQueued ->
                   CreatedAt t <= CreatedAt r)
     /\ (forall now, ID t <> "" ->
           exists db' t',
             Services.UpdateTaskStatus (ID t) TaskStatusRunning now db
             = (Ok tt, db')
             /\ Services.GetTask (ID t) db' = (Ok t', db')
             /\ Status t' = TaskStatusRunning))
  \/ (Services.GetNextTask db = (Ok None, db)
      /\ forall r, In r (tasks db) -> Status r <> TaskStatusQueued).
Proof.
  rewrite GetNextTask_eq.
  destruct (min_row (Some CreatedAtAsc) (filter is_queued (tasks db)))
    as [t|] eqn:Hmin.
  - left. exists t. apply min_row_In in Hmin as Hin.
    apply filter_In in Hin as [Hin Hq]. apply String.eqb_eq in Hq.
    repeat split; auto.
    + intros r Hr Hrq. apply (min_row_oldest _ _ Hmin).
      apply filter_In. split; [assumption|]. now apply String.eqb_eq.
    + intros now Hid. destruct (GetTask_of_In db t Hin) as [t0 Hget].
      destruct (UpdateTaskStatus_valid db (ID t) TaskStatusRunning now t0
                                       Hid eq_refl Hget) as [Hup Hget'].
      eexists; eexists. split; [exact Hup|]. split; [exact Hget'|].
      reflexivity.
  - right. split; [reflexivity|].
    apply min_row_None in Hmin. intros r Hr Hq.
    assert (Hf : In r (filter is_queued (tasks db)))
      by (apply filter_In; split; [assumption | now apply String.eqb_eq]).
    rewrite Hmin in Hf. destruct Hf.
Qed.

(** ** C5: continue on a successful task *)

Lemma to_int_proper (n : Z) :
  Z.to_int n <> Decimal.Pos Decimal.Nil /\ Z.to_int n <> Decimal.Neg Decimal.Nil.
Proof.
  destruct n as [|p|p]; cbn; split; try discriminate;
    intros [= H]; now apply Unsigned.to_uint_nonnil in H.
Qed.

Lemma itoa_inj (a b : Z) : Go.itoa a = Go.itoa b -> a = b.
Proof.
  unfold Go.itoa. intros H.
  apply (f_equal NilZero.int_of_string) in H.
  destruct (to_int_proper a) as [Ha1 Ha2], (to_int_proper b) as [Hb1 Hb2].
  rewrite !NilZero.isi in H by assumption.
  injection H as H. now apply DecimalZ.to_int_inj.
Qed.

Lemma itoa_eqb (a b : Z) : String.eqb (Go.itoa a) (Go.itoa b) = (a =? b).
Proof.
  destruct (Z.eqb_spec a b) as [-> | Hne].
  - apply String.eqb_refl.
  - apply String.eqb_neq. intros H. now apply itoa_inj in H.
Qed.

Lemma IsRetryable_success (t : Task) (n : Z) :
  Status t = TaskStatusSuccess -> IsRetryable t n = false.
Proof. unfold IsRetryable. intros ->. cbn. apply andb_false_r. Qed.

(** The service's answer to [continue] on a successful task: an error
    that carries the attempts, and an untouched store. *)
Lemma continue_on_success (db : DB) (id prompt : string) (now : Z) (t : Task) :
  Services.GetTask id db = (Ok t, db) ->
  Status t = TaskStatusSuccess ->
  Services.UpdateTask id "continue" prompt now db
  = (Err (Errorf ("task cannot be continued: status=success, attempts="
                    ++ Go.itoa (Attempts t))), db).
Proof.
  intros Hget Hst. unfold Services.UpdateTask, bind. rewrite Hget.
  cbn [String.eqb Ascii.eqb Bool.eqb andb].
  rewrite (IsRetryable_success _ _ Hst), Hst. reflexivity.
Qed.

(** The handler maps that error to [Conflict] exactly when the task
    stands at three attempts, and to an internal error otherwise. *)
Lemma handler_continue_on_success
      (txt : Handlers.SentinelTexts) (request_id : string)
      (db : DB) (id prompt : string) (now : Z) (t : Task) :
  id <> "" -> Go.len prompt <= 10000 ->
  Services.GetTask id db = (Ok t, db) ->
  Status t = TaskStatusSuccess ->
  Handlers.UpdateTask txt request_id id
    (Some (Handlers.mkUpdateTaskRequest "continue" prompt)) now db
  = (Ok (if Attempts t =? 3
         then Handlers.mkResponse Handlers.StatusConflict
                (Handlers.ErrorResponse "conflict"
                   "task cannot be continued: status=success, attempts=3"
                   request_id)
         else Handlers.mkResponse Handlers.StatusInternalServerError
                (Handlers.ErrorResponse "update_error"
                   "Failed to update task" request_id)),
     db).
Proof.
  intros Hid Hlen Hget Hst.
  assert (Hupd :
    (r <- attempt (Services.UpdateTask id "continue" prompt now) ;;
     match r with
     | inl err =>
         if String.eqb (Handlers.ErrorText txt err) "task not found" then
           ret (Handlers.mkResponse Handlers.StatusNotFound
                  (Handlers.ErrorResponse "not_found" "Task not found"
                                          request_id))
         else if String.eqb (Handlers.ErrorText txt err)
                   "task cannot be continued: status=success, attempts=3"
                 || String.eqb (Handlers.ErrorText txt err)
                      "failed to update task status: invalid value"
         then
           ret (Handlers.mkResponse Handlers.StatusConflict
                  (Handlers.ErrorResponse "conflict"
                     (Handlers.ErrorText txt err) request_id))
         else
           ret (Handlers.mkResponse Handlers.StatusInternalServerError
                  (Handlers.ErrorResponse "update_error"
                     "Failed to update task" request_id))
     | inr _ => ret (Handlers.mkResponse Handlers.StatusNoContent
                                         Handlers.NoBody)
     end) db
    = (Ok (if Attempts t =? 3
           then Handlers.mkResponse Handlers.StatusConflict
                  (Handlers.ErrorResponse "conflict"
                     "task cannot be continued: status=success, attempts=3"
                     request_id)
           else Handlers.mkResponse Handlers.StatusInternalServerError
                  (Handlers.ErrorResponse "update_error"
                     "Failed to update task" request_id)),
       db)).
  { unfold bind, attempt. rewrite (continue_on_success _ _ _ _ _ Hget Hst).
    cbn [Handlers.ErrorText append String.eqb Ascii.eqb Bool.eqb andb orb].
    change "3" with (Go.itoa 3). rewrite itoa_eqb.
    destruct (Z.eqb_spec (Attempts t) 3) as [-> | Hne]; reflexivity. }
  unfold Handlers.UpdateTask.
  apply String.eqb_neq in Hid. rewrite Hid.
  cbn [Handlers.Action Handlers.ReqPrompt String.eqb Ascii.eqb Bool.eqb
       andb orb negb].
  destruct (String.eqb prompt "") eqn:Hp; cbn [negb]; [exact Hupd|].
  unfold Services.ValidatePrompt. rewrite Hp.
  assert (Hfit : (10000 <? Go.len prompt) = false) by (apply Z.ltb_ge; lia).
  rewrite Hfit. exact Hupd.
Qed.

(** C5 (the code departs from the claim): a task that succeeded at
    its first attempt receives [continue].  The store is left as it
    was, but the answer is the internal error [update_error], not
    [Conflict]: the handler recognises the refusal only by the
    message of a task with three attempts. *)
Theorem C5_continue_on_success_not_conflict
        (txt : Handlers.SentinelTexts) (request_id : string) :
  let t := System.sample System.sample_id TaskStatusSuccess 0 1 in
  Handlers.UpdateTask txt request_id System.sample_id
    (Some (Handlers.mkUpdateTaskRequest "continue" "")) 9
    (System.store_with t)
  = (Ok (Handlers.mkResponse Handlers.StatusInternalServerError
           (Handlers.ErrorResponse "update_error" "Failed to update task"
                                   request_id)),
     System.store_with t).
Proof.
  cbv zeta.
  rewrite (handler_continue_on_success txt request_id _ _ _ _
             (System.sample System.sample_id TaskStatusSuccess 0 1));
    [reflexivity | discriminate | (vm_compute; discriminate)
     | reflexivity | reflexivity].
Qed.

(** ** C9: limits and offsets of the task list *)

Lemma select_rows_limit (q : Query) (rows : list Task) (n : Z) :
  q_limit q = Some n ->
  (List.length (select_rows q rows) <= Z.to_nat n)%nat.
Proof.
  intros Hq. unfold select_rows. rewrite Hq. cbn [apply_limit].
  apply firstn_le_length.
Qed.

Lemma ListTasks_at_most (status : string) (limit offset : Z)
      (db db' : DB) (ts : list Task) :
  0 < limit ->
  Services.ListTasks status limit offset db = (Ok ts, db') ->
  Z.of_nat (List.length ts) <= limit.
Proof.
  intros Hpos. unfold Services.ListTasks.
  assert (Hlim : (0 <? limit) = true) by now apply Z.ltb_lt.
  rewrite Hlim.
  assert (Hfind : forall q, q_limit q = Some limit ->
            Find q db = (Ok ts, db') -> Z.of_nat (List.length ts) <= limit).
  { intros q Hq. unfold Find. intros [= <- _].
    pose proof (select_rows_limit q (tasks db) limit Hq). lia. }
  destruct (negb (String.eqb status "")).
  - destruct (negb (IsValid status)); [discriminate|].
    apply Hfind. now destruct (0 <? offset).
  - apply Hfind. now destruct (0 <? offset).
Qed.





(** ** C3: statuses in the store and the changes made to them *)









Lemma Status_stamp_created (now : Z) (t : Task) :
  Status (stamp_created now t) = Status t
  /\ ID (stamp_created now t) = ID t.
Proof.
  unfold stamp_created.
  destruct (CreatedAt t =? 0);
    match goal with |- context [UpdatedAt ?x =? 0] =>
      destruct (UpdatedAt x =? 0) end; now cbn.
Qed.
















(** [Save] of a struct whose key is in the table: either the save
    fails and writes nothing, or it rewrites the rows of the key. *)
Lemma Save_existing (now : Z) (t : Task) (db : DB) :
  existsb (has_id (ID t)) (tasks db) = true ->
  (exists e t', Save now t db = (Ok (Some e, t'), db))
  \/ (ID t <> "" /\
      Save now t db
      = (Ok (None, set_UpdatedAt t now),
         mkDB (replace_row (set_UpdatedAt t now) (tasks db)) (task_logs db))).
Proof.
  intros Hex. unfold Save.
  destruct (String.eqb_spec (ID t) "") as [Hid | Hid].
  - left. unfold Create, BeforeCreate, insert.
    destruct (IsValid (Status t)); cbn [negb];
      rewrite (proj2 (Status_stamp_created _ _)); cbn [ID set_Status];
      rewrite Hex; eauto.
  - unfold BeforeUpdate. destruct (IsValid (Status t)); cbn [negb].
    + right. split; [exact Hid|].
      change (ID (set_UpdatedAt t now)) with (ID t). now rewrite Hex.
    + left. unfold ret. eauto.
Qed.



(** The code's table against the table of section 3.2, on the seven
    statuses: the code drops the entries that lead to [queued], adds
    [needs_review -> running], and lets every terminal state move to
    [aborted]. *)
Lemma CanTransitionTo_against_spec (t : Task) (s : TaskStatus) :
  IsValid (Status t) = true -> IsValid s = true ->
  CanTransitionTo t s
  = (Spec32.permitted (Status t) s && negb (String.eqb s TaskStatusQueued))
    || (String.eqb (Status t) TaskStatusNeedsReview
        && String.eqb s TaskStatusRunning)
    || (IsTerminal (Status t) && String.eqb s TaskStatusAborted).
Proof.
  intros Hfrom Hto. unfold CanTransitionTo.
  apply IsValid_true in Hfrom. apply IsValid_true in Hto.
  destruct Hfrom as [-> | [-> | [-> | [-> | [-> | [-> | ->]]]]]];
    destruct Hto as [-> | [-> | [-> | [-> | [-> | [-> | ->]]]]]];
    reflexivity.
Qed.

(** *** The worker's writes *)

Lemma log_gains_trans (n m : nat) (a b c : option (list TaskLog)) :
  log_gains n a b -> log_gains m b c -> log_gains (n + m) a c.
Proof.
  unfold log_gains. destruct a as [logs|].
  - intros (m1 & -> & <-) (m2 & -> & <-).
    exists (m1 ++ m2)%list. now rewrite app_assoc, length_app.
  - now intros ->.
Qed.

Lemma attempt_AddTaskLog
      (taskID level message : string) (now : Z) (db : DB) :
  exists r logs,
    attempt (Services.AddTaskLog taskID level message now) db
    = (Ok r, mkDB (tasks db) logs)
    /\ log_gains 1 (task_logs db) logs.
Proof.
  unfold attempt, Services.AddTaskLog, bind, CreateLog, log_gains.
  destruct db as [rows [logs|]]; cbn [task_logs tasks].
  - eexists; eexists. split; [reflexivity|].
    eexists. split; reflexivity.
  - eexists; eexists. split; reflexivity.
Qed.

Lemma add_logs_eq (taskID : string) (ls : list (string * string * Z))
      (db : DB) :
  exists logs,
    Worker.add_logs taskID ls db = (Ok tt, mkDB (tasks db) logs)
    /\ log_gains (List.length ls) (task_logs db) logs.
Proof.
  revert db; induction ls as [|[[level message] now] rest IH]; intros db.
  - exists (task_logs db). destruct db as [rows [logs|]];
      cbn [Worker.add_logs log_gains task_logs tasks List.length];
      split; try reflexivity.
    exists []. now rewrite app_nil_r.
  - cbn [Worker.add_logs]. unfold bind.
    destruct (attempt_AddTaskLog taskID level message now db)
      as (r & logs1 & -> & Hone).
    destruct (IH (mkDB (tasks db) logs1)) as (logs & Heq & Hrest).
    cbn [tasks task_logs] in Heq, Hrest.
    exists logs. split; [exact Heq|].
    exact (log_gains_trans 1 (List.length rest) _ _ _ Hone Hrest).
Qed.

Lemma GetTask_logs_irrelevant (id : string) (rows : list Task)
      (logs logs' : option (list TaskLog)) (t : Task) :
  Services.GetTask id (mkDB rows logs) = (Ok t, mkDB rows logs) ->
  Services.GetTask id (mkDB rows logs') = (Ok t, mkDB rows logs').
Proof.
  rewrite !GetTask_eq. cbn [tasks].
  destruct (min_row None (filter (has_id id) rows)); [|discriminate].
  now intros [= ->].
Qed.

Lemma UpdateTaskModel_invalid (task : Task) (now : Z) (db : DB) :
  ID task <> "" -> IsValid (Status task) = false ->
  Services.UpdateTaskModel task now db
  = (Err (Errorw "failed to update task: " ErrInvalidValue), db).
Proof.
  intros Hid Hinv. unfold Services.UpdateTaskModel, bind.
  now rewrite (Save_invalid now task db Hid Hinv).
Qed.


(** What [processTask] leaves behind for a stored task: the row set
    to [running] by the first write, the struct with a status that
    the last save refuses, and a log that gained the start line, the
    lines of the execution and the result line where the log table
    exists. *)
Lemma processTask_outcome
      (db : DB) (task t0 : Task) (i : Worker.Instants)
      (exec : Worker.ExecutionResult)
      (exec_logs : list (string * string * Z)) :
  ID task <> "" ->
  Services.GetTask (ID task) db = (Ok t0, db) ->
  let stored := set_UpdatedAt (set_Status t0 TaskStatusRunning)
                              (Worker.at_status i) in
  exists task' logs,
    Worker.processTask task i exec exec_logs db
    = (Ok task', mkDB (replace_row stored (tasks db)) logs)
    /\ Status task' = (if Worker.Success exec then "completed" else "failed")
    /\ IsValid (Status task') = false
    /\ Services.GetTask (ID task) (mkDB (replace_row stored (tasks db)) logs)
       = (Ok stored, mkDB (replace_row stored (tasks db)) logs)
    /\ log_gains (2 + List.length exec_logs) (task_logs db) logs.
Proof.
  intros Hid Hget. cbv zeta.
  destruct (UpdateTaskStatus_valid db (ID task) TaskStatusRunning
              (Worker.at_status i) t0 Hid eq_refl Hget) as [Hup Hstored].
  cbv zeta in Hup, Hstored.
  set (stored := set_UpdatedAt (set_Status t0 TaskStatusRunning)
                               (Worker.at_status i)) in *.
  unfold Worker.processTask.
  unfold bind at 1. unfold attempt at 1.
  change "running" with TaskStatusRunning. rewrite Hup.
  unfold bind at 1.
  match goal with |- context [attempt (Services.AddTaskLog ?a ?b ?c ?d) ?e] =>
    destruct (attempt_AddTaskLog a b c d e) as (r1 & logs1 & -> & Hg1)
  end.
  cbn [tasks task_logs] in Hg1 |- *.
  unfold bind at 1.
  match goal with |- context [Worker.add_logs ?id ?ls ?d] =>
    destruct (add_logs_eq id ls d) as (logs2 & -> & Hg2)
  end.
  cbn [tasks task_logs] in Hg2 |- *.
  pose proof (log_gains_trans _ _ _ _ _ Hg1 Hg2) as Hg12.
  destruct (Worker.Success exec).
  - unfold bind at 1.
    match goal with |- context [attempt (Services.AddTaskLog ?a ?b ?c ?d) ?e] =>
      destruct (attempt_AddTaskLog a b c d e) as (r3 & logs3 & -> & Hg3)
    end.
    cbn [tasks task_logs] in Hg3 |- *.
    unfold bind, attempt.
    rewrite UpdateTaskModel_invalid by (cbn; auto).
    eexists; eexists. split; [reflexivity|].
    split; [reflexivity|]. split; [reflexivity|]. split.
    + eapply GetTask_logs_irrelevant. exact Hstored.
    + pose proof (log_gains_trans _ _ _ _ _ Hg12 Hg3) as Hall.
      replace (2 + List.length exec_logs)%nat
        with (1 + List.length exec_logs + 1)%nat by lia.
      exact Hall.
  - unfold bind at 1.
    match goal with |- context [attempt (Services.AddTaskLog ?a ?b ?c ?d) ?e] =>
      destruct (attempt_AddTaskLog a b c d e) as (r3 & logs3 & -> & Hg3)
    end.
    cbn [tasks task_logs] in Hg3 |- *.
    unfold bind, attempt.
    rewrite UpdateTaskModel_invalid by (cbn; auto).
    eexists; eexists. split; [reflexivity|].
    split; [reflexivity|]. split; [reflexivity|]. split.
    + eapply GetTask_logs_irrelevant. exact Hstored.
    + pose proof (log_gains_trans _ _ _ _ _ Hg12 Hg3) as Hall.
      replace (2 + List.length exec_logs)%nat
        with (1 + List.length exec_logs + 1)%nat by lia.
      exact Hall.
Qed.




(** The worker's own update after the execution: the struct is given
    the status ["completed"] (or ["failed"]), neither of which is one
    of the seven; the save of the struct is refused, and the stored
    task stays [running]. *)
Lemma processTask_status_not_saved :
  let t := System.sample System.sample_id TaskStatusQueued 0 1 in
  let i := Worker.mkInstants 2 3 4 5 in
  let ok := Worker.mkExecutionResult true "Task completed successfully"
                                     "https://host/x/y/tree/b" "" [] None in
  let ko := Worker.mkExecutionResult false "" "" "" []
                                     (Some "failed to push branch") in
  let after (exec : Worker.ExecutionResult) :=
    Worker.processTask t i exec [] (System.store_with t) in
  (exists task db, after ok = (Ok task, db)
     /\ Status task = "completed" /\ IsValid (Status task) = false
     /\ Services.UpdateTaskModel task 5 db
        = (Err (Errorw "failed to update task: " ErrInvalidValue), db)
     /\ tasks db = [set_UpdatedAt (set_Status t TaskStatusRunning) 2])
  /\ (exists task db, after ko = (Ok task, db)
        /\ Status task = "failed" /\ IsValid (Status task) = false
        /\ tasks db = [set_UpdatedAt (set_Status t TaskStatusRunning) 2]).
Proof.
  cbv zeta. split.
  - eexists; eexists. split; [vm_compute; reflexivity|].
    repeat split; vm_compute; reflexivity.
  - eexists; eexists. split; [vm_compute; reflexivity|].
    repeat split; vm_compute; reflexivity.
Qed.

Lemma C4_GetNextTask_oldest_queued_witness :
  let older := System.sample System.sample_id TaskStatusQueued 0 3 in
  let newer := System.sample "01BX5ZZKBKACTAV9WEVGEMMVRZ" TaskStatusQueued 0 7 in
  let db := mkDB [newer; older] None in
  (exists t,
     Services.GetNextTask db = (Ok (Some t), db)
     /\ In t (tasks db)
     /\ Status t = TaskStatusQueued
     /\ (forall r, In r (tasks db) -> Status r = TaskStatusQueued ->
                   CreatedAt t <= CreatedAt r)
     /\ (forall now, ID t <> "" ->
           exists db' t',
             Services.UpdateTaskStatus (ID t) TaskStatusRunning now db
             = (Ok tt, db')
             /\ Services.GetTask (ID t) db' = (Ok t', db')
             /\ Status t' = TaskStatusRunning))
  \/ (Services.GetNextTask db = (Ok None, db)
      /\ forall r, In r (tasks db) -> Status r <> TaskStatusQueued).
Proof.
  cbv zeta.
  apply (C4_GetNextTask_oldest_queued
           (mkDB [System.sample "01BX5ZZKBKACTAV9WEVGEMMVRZ"
                                TaskStatusQueued 0 7;
                  System.sample System.sample_id TaskStatusQueued 0 3] None)).
Defined.

(* ================================================================= *)
(** * Further properties of the code *)

(** ** The status machine of [internal/models] *)

Lemma CanTransitionTo_target (t : Task) (s : TaskStatus) :
  CanTransitionTo t s = true -> IsValid s = true /\ s <> TaskStatusQueued.
Proof.
  unfold CanTransitionTo.
  destruct (IsTerminal (Status t)).
  - intros H. apply String.eqb_eq in H. subst s. split; [reflexivity|discriminate].
  - unfold validTransitions; cbn [lookup].
    repeat match goal with
           | |- context [if String.eqb ?a (Status t) then _ else _] =>
               destruct (String.eqb a (Status t))
           end;
      cbn [existsb]; rewrite ?orb_false_r, ?orb_true_iff, ?String.eqb_eq;
      try discriminate;
      intros H; decompose [or] H; subst s; split;
        (reflexivity || discriminate).
Qed.

(** X1: [UpdateStatus] either accepts, and then the task carries
    exactly the requested status, which is one of the seven and is
    never [queued], or it refuses with [ErrInvalidValue] and leaves
    the task as it was. *)
Theorem UpdateStatus_outcome (t : Task) (s : TaskStatus) :
  (UpdateStatus t s = (None, set_Status t s)
   /\ IsValid s = true /\ s <> TaskStatusQueued)
  \/ UpdateStatus t s = (Some ErrInvalidValue, t).
Proof.
  unfold UpdateStatus.
  destruct (CanTransitionTo t s) eqn:Hcan; cbn [negb]; [left | now right].
  split; [reflexivity|]. exact (CanTransitionTo_target t s Hcan).
Qed.

Lemma IsValid_false_eqb (s : TaskStatus) :
  IsValid s = false ->
  forall v, IsValid v = true -> String.eqb v s = false.
Proof.
  intros Hs v Hv. apply String.eqb_neq. intros ->. congruence.
Qed.

(** X2: a task whose status is not one of the seven cannot move: for
    every target, [UpdateStatus] refuses and leaves the task as it
    was. *)
Theorem UpdateStatus_unknown_status_stuck (t : Task) (s : TaskStatus) :
  IsValid (Status t) = false -> UpdateStatus t s = (Some ErrInvalidValue, t).
Proof.
  intros Hinv. unfold UpdateStatus, CanTransitionTo.
  assert (Hterm : IsTerminal (Status t) = false).
  { unfold IsTerminal; cbn [existsb].
    rewrite !(String.eqb_sym (Status t)).
    now rewrite !(IsValid_false_eqb _ Hinv) by reflexivity. }
  rewrite Hterm. unfold validTransitions; cbn [lookup].
  now rewrite !(IsValid_false_eqb _ Hinv) by reflexivity.
Qed.

Lemma UpdateStatus_unknown_status_stuck_witness :
  UpdateStatus (System.sample System.sample_id "completed" 0 1)
               TaskStatusAborted
  = (Some ErrInvalidValue, System.sample System.sample_id "completed" 0 1).
Proof.
  apply (UpdateStatus_unknown_status_stuck
           (System.sample System.sample_id "completed" 0 1) TaskStatusAborted).
  reflexivity.
Defined.

(** X3: [success] can be entered from [running] only. *)
Theorem success_only_from_running (t : Task) :
  CanTransitionTo t TaskStatusSuccess = true <-> Status t = TaskStatusRunning.
Proof.
  split.
  - unfold CanTransitionTo.
    destruct (IsTerminal (Status t)); [discriminate|].
    unfold validTransitions; cbn [lookup].
    destruct (String.eqb_spec TaskStatusQueued (Status t)); [discriminate|].
    destruct (String.eqb_spec TaskStatusRunning (Status t)); [easy|].
    destruct (String.eqb_spec TaskStatusRetrying (Status t)); [discriminate|].
    destruct (String.eqb_spec TaskStatusNeedsReview (Status t)); discriminate.
  - intros H. unfold CanTransitionTo. rewrite H. reflexivity.
Qed.

(** The two gorm hooks agree.  [BeforeCreate] never fails and
    leaves a task with one of the seven statuses alone; any other
    status it replaces by [queued]; and what it returns always passes
    [BeforeUpdate]. *)
Theorem BeforeCreate_then_BeforeUpdate (t : Task) :
  BeforeUpdate (snd (BeforeCreate t)) = None
  /\ BeforeCreate t
     = (None, if IsValid (Status t) then t
              else set_Status t TaskStatusQueued).
Proof.
  unfold BeforeCreate, BeforeUpdate.
  destruct (IsValid (Status t)) eqn:Hv; cbn [negb snd]; [now rewrite Hv|].
  split; reflexivity.
Qed.

(** X4: [IncrementAttempts] adds one to the attempts and touches no
    other field; at the largest [int] the counter wraps around to the
    smallest. *)
Theorem IncrementAttempts_wraps (t : Task) :
  Go.MinInt <= Attempts t <= Go.MaxInt ->
  IncrementAttempts t
  = set_Attempts t (if Attempts t =? Go.MaxInt then Go.MinInt
                    else Attempts t + 1).
Proof.
  unfold IncrementAttempts, Go.wrap, Go.MinInt, Go.MaxInt. intros Hrange.
  f_equal. destruct (Z.eqb_spec (Attempts t) (2 ^ 63 - 1)) as [-> | Hne].
  - reflexivity.
  - rewrite Z.mod_small by lia. lia.
Qed.

Lemma IncrementAttempts_wraps_witness :
  IncrementAttempts (System.sample System.sample_id TaskStatusRunning 2 1)
  = System.sample System.sample_id TaskStatusRunning 3 1
  /\ Attempts (IncrementAttempts
                 (System.sample System.sample_id TaskStatusRunning Go.MaxInt 1))
     = Go.MinInt.
Proof.
  split.
  - apply (IncrementAttempts_wraps
             (System.sample System.sample_id TaskStatusRunning 2 1)).
    vm_compute. split; discriminate.
  - rewrite (IncrementAttempts_wraps
               (System.sample System.sample_id TaskStatusRunning Go.MaxInt 1));
      [reflexivity | vm_compute; split; discriminate].
Defined.

(** ** The task service: identifiers that are missing or taken *)

Lemma filter_has_id_nil (id : string) (rows : list Task) :
  (forall t, In t rows -> ID t <> id) -> filter (has_id id) rows = [].
Proof.
  intros Hnone. apply existsb_filter_nil.
  destruct (existsb (has_id id) rows) eqn:Hex; [|reflexivity].
  apply existsb_exists in Hex as (t & Hin & Hid).
  apply has_id_true in Hid. now apply Hnone in Hin.
Qed.

Lemma GetTask_missing (id : string) (db : DB) :
  (forall t, In t (tasks db) -> ID t <> id) ->
  Services.GetTask id db = (Err (Errorf "task not found"), db).
Proof.
  intros Hnone. rewrite GetTask_eq.
  now rewrite (filter_has_id_nil id (tasks db) Hnone).
Qed.

(** X5: under an identifier that no stored task has, [GetTask] and
    [UpdateTask] (whatever the action) answer "task not found",
    [UpdateTaskStatus] answers its wrapped record-not-found error,
    and none of them writes to the store. *)
Theorem unknown_id_not_found (db : DB) (id : string) :
  (forall t, In t (tasks db) -> ID t <> id) ->
  Services.GetTask id db = (Err (Errorf "task not found"), db)
  /\ (forall action prompt now,
        Services.UpdateTask id action prompt now db
        = (Err (Errorf "task not found"), db))
  /\ (forall status now,
        Services.UpdateTaskStatus id status now db
        = (Err (Errorw "task not found: " ErrRecordNotFound), db)).
Proof.
  intros Hnone. pose proof (GetTask_missing id db Hnone) as Hget.
  split; [exact Hget|]. split.
  - intros action prompt now. unfold Services.UpdateTask, bind.
    now rewrite Hget.
  - intros status now. unfold Services.UpdateTaskStatus, bind.
    rewrite First_by_id.
    now rewrite (filter_has_id_nil id (tasks db) Hnone).
Qed.

Lemma unknown_id_not_found_witness :
  let db := System.store_with
              (System.sample System.sample_id TaskStatusQueued 0 1) in
  Services.GetTask "01BX5ZZKBKACTAV9WEVGEMMVRZ" db
  = (Err (Errorf "task not found"), db)
  /\ (forall action prompt now,
        Services.UpdateTask "01BX5ZZKBKACTAV9WEVGEMMVRZ" action prompt now db
        = (Err (Errorf "task not found"), db))
  /\ (forall status now,
        Services.UpdateTaskStatus "01BX5ZZKBKACTAV9WEVGEMMVRZ" status now db
        = (Err (Errorw "task not found: " ErrRecordNotFound), db)).
Proof.
  cbv zeta.
  apply (unknown_id_not_found
           (System.store_with
              (System.sample System.sample_id TaskStatusQueued 0 1))
           "01BX5ZZKBKACTAV9WEVGEMMVRZ").
  intros t [<- | []]. discriminate.
Defined.

(** [CreateTask] under an identifier that a stored task already
    has fails with the wrapped key violation and stores nothing. *)
Theorem CreateTask_taken_id
        (db : DB) (repo prompt id : string) (now : Z) (t : Task) :
  Ulid.is_ulid id = true ->
  In t (tasks db) -> ID t = id ->
  Services.CreateTask repo prompt id now db
  = (Err (Errorw "failed to create task: " ErrUniqueViolation), db).
Proof.
  intros Hulid Hin Hid. apply is_ulid_inv in Hulid as [Hlen _].
  rewrite CreateTask_eq by lia. cbv zeta.
  assert (Hex : existsb (has_id id) (tasks db) = true)
    by (apply existsb_exists; exists t; split;
        [assumption | now apply has_id_true]).
  now rewrite Hex.
Qed.

Lemma CreateTask_taken_id_witness :
  let db := System.store_with
              (System.sample System.sample_id TaskStatusRunning 1 1) in
  Services.CreateTask "owner/other" "another prompt" System.sample_id 9 db
  = (Err (Errorw "failed to create task: " ErrUniqueViolation), db).
Proof.
  cbv zeta.
  apply (CreateTask_taken_id
           (System.store_with
              (System.sample System.sample_id TaskStatusRunning 1 1))
           "owner/other" "another prompt" System.sample_id 9
           (System.sample System.sample_id TaskStatusRunning 1 1));
    [reflexivity | now left | reflexivity].
Defined.

Lemma GetTask_other_insert (id' : string) (t : Task) (db : DB) :
  ID t <> id' ->
  Services.GetTask id' (mkDB (tasks db ++ [t]) (task_logs db))
  = (fst (Services.GetTask id' db), mkDB (tasks db ++ [t]) (task_logs db)).
Proof.
  intros Hne. rewrite !GetTask_eq. cbn [tasks]. rewrite filter_app.
  cbn [filter]. assert (Hf : has_id id' t = false).
  { destruct (has_id id' t) eqn:H; [|reflexivity].
    apply has_id_true in H. contradiction. }
  rewrite Hf, app_nil_r.
  now destruct (min_row None (filter (has_id id') (tasks db))).
Qed.

(** X6: a successful [CreateTask] appends exactly the new task to the
    table, writes no log entry, and leaves every other identifier
    resolving as before. *)
Theorem CreateTask_appends
        (db db' : DB) (repo prompt id : string) (now : Z) (t : Task) :
  Ulid.is_ulid id = true ->
  Services.CreateTask repo prompt id now db = (Ok t, db') ->
  tasks db' = (tasks db ++ [t])%list
  /\ task_logs db' = task_logs db
  /\ ThreadID t = "thread-" ++ substring 0 8 id
  /\ CreatedAt t = now /\ UpdatedAt t = now
  /\ forall id', id' <> id ->
       Services.GetTask id' db' = (fst (Services.GetTask id' db), db').
Proof.
  intros Hulid. apply is_ulid_inv in Hulid as [Hlen _].
  rewrite CreateTask_eq by lia. cbv zeta.
  destruct (existsb (has_id id) (tasks db)); [discriminate|].
  intros [= <- <-]. cbn [tasks task_logs ThreadID CreatedAt UpdatedAt].
  repeat split; try reflexivity.
  intros id' Hne. apply GetTask_other_insert. cbn [ID]. congruence.
Qed.

Lemma CreateTask_appends_witness :
  let old := System.sample "01BX5ZZKBKACTAV9WEVGEMMVRZ" TaskStatusRunning 1 2 in
  let t := System.sample System.sample_id TaskStatusQueued 0 5 in
  let db := System.store_with old in
  let db' := mkDB [old; t] None in
  tasks db' = (tasks db ++ [t])%list
  /\ task_logs db' = task_logs db
  /\ ThreadID t = "thread-" ++ substring 0 8 System.sample_id
  /\ CreatedAt t = 5 /\ UpdatedAt t = 5
  /\ forall id', id' <> System.sample_id ->
       Services.GetTask id' db' = (fst (Services.GetTask id' db), db').
Proof.
  cbv zeta.
  apply (CreateTask_appends
           (System.store_with
              (System.sample "01BX5ZZKBKACTAV9WEVGEMMVRZ" TaskStatusRunning 1 2))
           _ "owner/repo" "fix the failing tests" System.sample_id 5
           (System.sample System.sample_id TaskStatusQueued 0 5));
    vm_compute; reflexivity.
Defined.

(** ** The task service: [UpdateTask] *)

Lemma CanTransitionTo_aborted (t : Task) :
  IsValid (Status t) = true -> CanTransitionTo t TaskStatusAborted = true.
Proof.
  intros Hv. apply IsValid_true in Hv. unfold CanTransitionTo.
  destruct Hv as [-> | [-> | [-> | [-> | [-> | [-> | ->]]]]]]; reflexivity.
Qed.

(** On a stored task, an action other than [continue] and [abort]
    is refused as invalid, and nothing is written. *)
Theorem UpdateTask_unknown_action
        (db : DB) (id action prompt : string) (now : Z) (t : Task) :
  Services.GetTask id db = (Ok t, db) ->
  action <> "continue" -> action <> "abort" ->
  Services.UpdateTask id action prompt now db
  = (Err (Errorf ("invalid action: " ++ action)), db).
Proof.
  intros Hget Hc Ha. unfold Services.UpdateTask, bind. rewrite Hget.
  apply String.eqb_neq in Hc, Ha. now rewrite Hc, Ha.
Qed.

Lemma UpdateTask_unknown_action_witness :
  let db := System.store_with
              (System.sample System.sample_id TaskStatusRunning 0 1) in
  Services.UpdateTask System.sample_id "pause" "" 9 db
  = (Err (Errorf "invalid action: pause"), db).
Proof.
  cbv zeta.
  apply (UpdateTask_unknown_action
           (System.store_with
              (System.sample System.sample_id TaskStatusRunning 0 1))
           System.sample_id "pause" "" 9
           (System.sample System.sample_id TaskStatusRunning 0 1));
    [reflexivity | discriminate | discriminate].
Defined.

Lemma abort_success_eq
      (db : DB) (id prompt : string) (now : Z) (t : Task) :
  Services.GetTask id db = (Ok t, db) ->
  Status t = TaskStatusSuccess ->
  Services.UpdateTask id "abort" prompt now db = (Ok tt, db).
Proof.
  intros Hget Hst. unfold Services.UpdateTask, bind. rewrite Hget.
  cbn [String.eqb Ascii.eqb Bool.eqb andb]. now rewrite Hst.
Qed.

(** X7: [abort] on a task that has succeeded returns no error and
    writes nothing: the task stays [success], and not even its update
    stamp changes. *)
Theorem abort_on_success_is_noop
        (db : DB) (id prompt : string) (now : Z) (t : Task) :
  Services.GetTask id db = (Ok t, db) ->
  Status t = TaskStatusSuccess ->
  Services.UpdateTask id "abort" prompt now db = (Ok tt, db)
  /\ Services.GetTask id (snd (Services.UpdateTask id "abort" prompt now db))
     = (Ok t, db).
Proof.
  intros Hget Hst. rewrite (abort_success_eq db id prompt now t Hget Hst).
  split; [reflexivity | exact Hget].
Qed.

Lemma abort_on_success_is_noop_witness :
  let t := System.sample System.sample_id TaskStatusSuccess 0 1 in
  let db := System.store_with t in
  Services.UpdateTask System.sample_id "abort" "" 9 db = (Ok tt, db)
  /\ Services.GetTask System.sample_id
       (snd (Services.UpdateTask System.sample_id "abort" "" 9 db))
     = (Ok t, db).
Proof.
  cbv zeta.
  apply (abort_on_success_is_noop
           (System.store_with
              (System.sample System.sample_id TaskStatusSuccess 0 1))
           System.sample_id "" 9
           (System.sample System.sample_id TaskStatusSuccess 0 1));
    reflexivity.
Defined.

Lemma abort_other_eq
        (db : DB) (id prompt : string) (now : Z) (t : Task) :
  id <> "" ->
  Services.GetTask id db = (Ok t, db) ->
  IsValid (Status t) = true -> Status t <> TaskStatusSuccess ->
  let t' := set_UpdatedAt (set_Status t TaskStatusAborted) now in
  let db' := mkDB (replace_row t' (tasks db)) (task_logs db) in
  Services.UpdateTask id "abort" prompt now db = (Ok tt, db')
  /\ Services.GetTask id db' = (Ok t', db').
Proof.
  intros Hid Hget Hv Hns. cbv zeta.
  destruct (GetTask_Ok _ _ _ _ Hget) as (_ & _ & Hidt & Hex).
  unfold Services.UpdateTask, bind. rewrite Hget.
  cbn [String.eqb Ascii.eqb Bool.eqb andb].
  apply String.eqb_neq in Hns. rewrite Hns.
  unfold UpdateStatus. rewrite (CanTransitionTo_aborted t Hv). cbn [negb].
  assert (Hsave :
    Save now (set_Status t TaskStatusAborted) db
    = (Ok (None, set_UpdatedAt (set_Status t TaskStatusAborted) now),
       mkDB (replace_row (set_UpdatedAt (set_Status t TaskStatusAborted) now)
                         (tasks db)) (task_logs db))).
  { apply Save_update; cbn [ID Status set_Status];
      [congruence | reflexivity | now rewrite Hidt]. }
  split.
  - destruct (IsTerminal (Status t)
              && negb (String.eqb (Status t) TaskStatusAborted));
      cbv beta; now rewrite Hsave.
  - subst id.
    apply (GetTask_after_replace
             (set_UpdatedAt (set_Status t TaskStatusAborted) now) db Hex).
Qed.


(** X8: [abort] on a stored task in any of the other six statuses
    returns no error and stores the task as [aborted], with a renewed
    update stamp and every other field as it was, the prompt
    included. *)
Theorem abort_moves_to_aborted
        (db : DB) (id prompt : string) (now : Z) (t : Task) :
  id <> "" ->
  Services.GetTask id db = (Ok t, db) ->
  IsValid (Status t) = true -> Status t <> TaskStatusSuccess ->
  let t' := set_UpdatedAt (set_Status t TaskStatusAborted) now in
  let db' := mkDB (replace_row t' (tasks db)) (task_logs db) in
  Services.UpdateTask id "abort" prompt now db = (Ok tt, db')
  /\ Services.GetTask id db' = (Ok t', db').
Proof. apply abort_other_eq. Qed.

Lemma abort_moves_to_aborted_witness :
  let t := System.sample System.sample_id TaskStatusNeedsReview 3 1 in
  let db := System.store_with t in
  let t' := set_UpdatedAt (set_Status t TaskStatusAborted) 9 in
  let db' := mkDB (replace_row t' (tasks db)) (task_logs db) in
  Services.UpdateTask System.sample_id "abort" "ignored" 9 db = (Ok tt, db')
  /\ Services.GetTask System.sample_id db' = (Ok t', db').
Proof.
  cbv zeta.
  apply (abort_moves_to_aborted
           (System.store_with
              (System.sample System.sample_id TaskStatusNeedsReview 3 1))
           System.sample_id "ignored" 9
           (System.sample System.sample_id TaskStatusNeedsReview 3 1));
    [discriminate | reflexivity | reflexivity | discriminate].
Defined.

(** What [UpdateTask] can do to the store: nothing, or rewrite the
    rows of its identifier. *)
Lemma UpdateTask_store (db : DB) (id action prompt : string) (now : Z) :
  snd (Services.UpdateTask id action prompt now db) = db
  \/ exists t1,
       ID t1 = id
       /\ snd (Services.UpdateTask id action prompt now db)
          = mkDB (replace_row t1 (tasks db)) (task_logs db).
Proof.
  destruct (String.eqb_spec action "continue") as [-> | Hcont].
  { destruct (continue_never_succeeds id prompt now db) as [e ->]. now left. }
  unfold Services.UpdateTask, bind. rewrite GetTask_eq.
  destruct (min_row None (filter (has_id id) (tasks db))) as [t|] eqn:Hmin;
    [|now left].
  assert (Hget : Services.GetTask id db = (Ok t, db))
    by (rewrite GetTask_eq, Hmin; reflexivity).
  destruct (GetTask_Ok _ _ _ _ Hget) as (_ & _ & Hidt & Hex).
  apply String.eqb_neq in Hcont. rewrite Hcont.
  destruct (String.eqb action "abort"); [|now left].
  assert (Habort :
    snd (match UpdateStatus t TaskStatusAborted with
         | (Some e, _) => fail (Errorw "failed to abort task: " e)
         | (None, task) =>
             Store.bind (Save now task)
               (fun x => let (err, _) := x in
                         match err with
                         | Some e =>
                             fail (Errorw "failed to save updated task: " e)
                         | None => ret tt
                         end)
         end db) = db
    \/ exists t1,
         ID t1 = id
         /\ snd (match UpdateStatus t TaskStatusAborted with
                 | (Some e, _) => fail (Errorw "failed to abort task: " e)
                 | (None, task) =>
                     Store.bind (Save now task)
                       (fun x => let (err, _) := x in
                                 match err with
                                 | Some e =>
                                     fail (Errorw
                                             "failed to save updated task: " e)
                                 | None => ret tt
                                 end)
                 end db)
            = mkDB (replace_row t1 (tasks db)) (task_logs db)).
  { unfold UpdateStatus.
    destruct (CanTransitionTo t TaskStatusAborted); cbn [negb]; [|now left].
    unfold bind.
    destruct (Save_existing now (set_Status t TaskStatusAborted) db)
      as [(e & t1 & ->) | [Hne ->]];
      [cbn [ID set_Status]; now rewrite Hidt | now left |].
    right. exists (set_UpdatedAt (set_Status t TaskStatusAborted) now).
    split; [exact Hidt | reflexivity]. }
  destruct (IsTerminal (Status t)
            && negb (String.eqb (Status t) TaskStatusAborted));
    [|exact Habort].
  destruct (String.eqb (Status t) TaskStatusSuccess);
    [now left | exact Habort].
Qed.

Lemma filter_other_replace_row (id' : string) (t1 : Task) (rows : list Task) :
  ID t1 <> id' ->
  filter (has_id id') (replace_row t1 rows) = filter (has_id id') rows.
Proof.
  intros Hne. unfold replace_row.
  induction rows as [|r rest IH]; cbn [map filter]; [reflexivity|].
  destruct (has_id (ID t1) r) eqn:Hr.
  - apply has_id_true in Hr.
    assert (H1 : has_id id' t1 = false)
      by (destruct (has_id id' t1) eqn:H; [apply has_id_true in H|]; congruence).
    assert (H2 : has_id id' r = false)
      by (destruct (has_id id' r) eqn:H; [apply has_id_true in H|]; congruence).
    now rewrite H1, H2.
  - now rewrite IH.
Qed.

(** X9: [UpdateTask] touches one task at most.  Whatever the action
    and its outcome, the table keeps its number of rows, the log is
    untouched, and every other identifier resolves to the same task
    as before. *)
Theorem UpdateTask_touches_one_task
        (db : DB) (id action prompt : string) (now : Z) :
  let db' := snd (Services.UpdateTask id action prompt now db) in
  List.length (tasks db') = List.length (tasks db)
  /\ task_logs db' = task_logs db
  /\ forall id', id' <> id ->
       Services.GetTask id' db' = (fst (Services.GetTask id' db), db').
Proof.
  cbv zeta.
  destruct (UpdateTask_store db id action prompt now) as [-> | (t1 & Hid & ->)].
  - repeat split. intros id' _. rewrite GetTask_eq.
    now destruct (min_row None (filter (has_id id') (tasks db))).
  - cbn [tasks task_logs]. unfold replace_row at 1. rewrite length_map.
    repeat split. intros id' Hne. rewrite !GetTask_eq. cbn [tasks].
    rewrite filter_other_replace_row by congruence.
    now destruct (min_row None (filter (has_id id') (tasks db))).
Qed.

(** ** The store over time: the task table and the log table *)

Lemma grows_refl (db : DB) : grows db db.
Proof.
  split; [exists []; now rewrite app_nil_r|].
  destruct (task_logs db) as [logs|]; [|reflexivity].
  exists []. now rewrite app_nil_r.
Qed.

Lemma grows_trans (a b c : DB) : grows a b -> grows b c -> grows a c.
Proof.
  unfold grows. intros ([n1 H1] & L1) ([n2 H2] & L2). split.
  - exists (n1 ++ n2)%list. now rewrite H2, H1, app_assoc.
  - destruct (task_logs a) as [logs|].
    + destruct L1 as [m1 L1]. rewrite L1 in L2. destruct L2 as [m2 L2].
      exists (m1 ++ m2)%list. now rewrite L2, app_assoc.
    + now rewrite L1 in L2.
Qed.

Lemma grows_same_logs (db db' : DB) :
  (exists new, ids db' = (ids db ++ new)%list) ->
  task_logs db' = task_logs db -> grows db db'.
Proof.
  intros Hids Hlogs. split; [exact Hids|]. rewrite Hlogs.
  destruct (task_logs db) as [logs|]; [|reflexivity].
  exists []. now rewrite app_nil_r.
Qed.

Lemma advances_ret {A} (a : A) : advances (ret a).
Proof. intros db. apply grows_refl. Qed.

Lemma advances_fail {A} (e : error) : advances (@fail A e).
Proof. intros db. apply grows_refl. Qed.

Lemma advances_panic {A} : advances (@panic A).
Proof. intros db. apply grows_refl. Qed.

Lemma advances_bind {A B} (c : M A) (k : A -> M B) :
  advances c -> (forall a, advances (k a)) -> advances (bind c k).
Proof.
  intros Hc Hk db. unfold bind. specialize (Hc db).
  destruct (c db) as [[a | e |] db1]; cbn [snd] in *; auto.
  eapply grows_trans; [exact Hc | apply Hk].
Qed.

Lemma advances_attempt {A} (c : M A) : advances c -> advances (attempt c).
Proof.
  intros Hc db. unfold attempt. specialize (Hc db).
  now destruct (c db) as [[a | e |] db1].
Qed.

Lemma advances_First (q : Query) : advances (First q).
Proof.
  intros db. unfold First.
  destruct (min_row (q_order q) (filter (q_where q) (tasks db)));
    apply grows_refl.
Qed.

Lemma advances_Find (q : Query) : advances (Find q).
Proof. intros db. apply grows_refl. Qed.

Lemma advances_insert (t : Task) : advances (insert t).
Proof.
  intros db. unfold insert.
  destruct (existsb (has_id (ID t)) (tasks db)) eqn:Hex; [apply grows_refl|].
  cbn [snd]. apply grows_same_logs; [|reflexivity].
  unfold ids. cbn [tasks]. rewrite map_app. now exists [ID t].
Qed.

Lemma advances_Create (now : Z) (t : Task) : advances (Create now t).
Proof.
  unfold Create, BeforeCreate.
  destruct (IsValid (Status t)); cbn [negb]; apply advances_insert.
Qed.

Lemma map_ID_replace_row (t : Task) (rows : list Task) :
  map ID (replace_row t rows) = map ID rows.
Proof.
  unfold replace_row. rewrite map_map. apply map_ext_in. intros r _.
  destruct (has_id (ID t) r) eqn:Hr; [|reflexivity].
  apply has_id_true in Hr. now rewrite Hr.
Qed.

Lemma advances_Save (now : Z) (t : Task) : advances (Save now t).
Proof.
  unfold Save. destruct (String.eqb (ID t) ""); [apply advances_Create|].
  unfold BeforeUpdate.
  destruct (IsValid (Status t)); cbn [negb]; [|apply advances_ret].
  intros db.
  destruct (existsb (has_id (ID (set_UpdatedAt t now))) (tasks db)).
  - cbn [snd]. apply grows_same_logs; [|reflexivity].
    unfold ids. cbn [tasks]. rewrite map_ID_replace_row.
    exists []. now rewrite app_nil_r.
  - apply advances_insert.
Qed.

Lemma advances_CreateLog (now : Z) (l : TaskLog) : advances (CreateLog now l).
Proof.
  intros db. unfold CreateLog, grows.
  destruct (task_logs db) as [logs|] eqn:Hlogs; cbn [snd].
  - split; [exists []; now rewrite app_nil_r|].
    cbn [task_logs]. eexists. reflexivity.
  - split; [exists []; now rewrite app_nil_r | exact Hlogs].
Qed.

Ltac advances_step :=
  lazymatch goal with
  | |- advances (bind _ _) => apply advances_bind; [|intros ?]
  | |- advances (ret _) => apply advances_ret
  | |- advances (fail _) => apply advances_fail
  | |- advances panic => apply advances_panic
  | |- advances (attempt _) => apply advances_attempt
  | |- advances (First _) => apply advances_First
  | |- advances (Find _) => apply advances_Find
  | |- advances (Save _ _) => apply advances_Save
  | |- advances (Create _ _) => apply advances_Create
  | |- advances (CreateLog _ _) => apply advances_CreateLog
  | |- advances (match ?x with _ => _ end) => destruct x
  end.

Lemma advances_AddTaskLog (taskID level message : string) (now : Z) :
  advances (Services.AddTaskLog taskID level message now).
Proof. unfold Services.AddTaskLog. repeat advances_step. Qed.

Lemma advances_UpdateTaskStatus (taskID status : string) (now : Z) :
  advances (Services.UpdateTaskStatus taskID status now).
Proof. unfold Services.UpdateTaskStatus. cbv zeta. repeat advances_step. Qed.

Lemma advances_UpdateTaskModel (task : Task) (now : Z) :
  advances (Services.UpdateTaskModel task now).
Proof. unfold Services.UpdateTaskModel. repeat advances_step. Qed.

Lemma advances_add_logs (taskID : string) (ls : list (string * string * Z)) :
  advances (Worker.add_logs taskID ls).
Proof.
  induction ls as [|[[level message] now] rest IH]; cbn [Worker.add_logs].
  - apply advances_ret.
  - apply advances_bind; [|intros _; exact IH].
    apply advances_attempt, advances_AddTaskLog.
Qed.

Lemma advances_CreateTask (repo prompt id : string) (now : Z) :
  advances (Services.CreateTask repo prompt id now).
Proof. unfold Services.CreateTask. cbv zeta. repeat advances_step. Qed.

Lemma advances_UpdateTask (id action prompt : string) (now : Z) :
  advances (Services.UpdateTask id action prompt now).
Proof.
  unfold Services.UpdateTask, Services.GetTask. cbv zeta.
  repeat advances_step.
Qed.

Lemma advances_pollForTasks (config : Worker.Config) (sem : Z) :
  advances (Worker.pollForTasks config sem).
Proof.
  unfold Worker.pollForTasks, Services.GetNextTask. repeat advances_step.
Qed.

Lemma advances_processTask (task : Task) (i : Worker.Instants)
      (exec : Worker.ExecutionResult)
      (exec_logs : list (string * string * Z)) :
  advances (Worker.processTask task i exec exec_logs).
Proof.
  unfold Worker.processTask. cbv zeta.
  apply advances_bind;
    [apply advances_attempt, advances_UpdateTaskStatus | intros r].
  destruct r as [e | []]; [apply advances_ret|].
  apply advances_bind;
    [apply advances_attempt, advances_AddTaskLog | intros _].
  apply advances_bind; [apply advances_add_logs | intros _].
  destruct (Worker.Success exec);
    (apply advances_bind;
     [apply advances_attempt, advances_AddTaskLog | intros _]);
    (apply advances_bind;
     [apply advances_attempt, advances_UpdateTaskModel | intros r]);
    destruct r; apply advances_ret.
Qed.

Lemma advances_run (c : call) (db : DB) : grows db (run c db).
Proof.
  destruct c; cbn [run].
  - apply advances_CreateTask.
  - apply advances_UpdateTask.
  - apply advances_UpdateTaskStatus.
  - apply advances_UpdateTaskModel.
  - apply advances_AddTaskLog.
  - apply advances_pollForTasks.
  - apply advances_processTask.
Qed.

(** X10: no call of the services or of the worker removes a task,
    changes a task's identifier or reorders the table, and none
    creates the log table or removes or rewrites a log entry: after
    the call the identifiers are the old ones followed by new ones;
    a log table that does not exist still does not exist, and one
    that exists holds the old log followed by new entries. *)
Theorem store_only_grows (c : call) (db : DB) :
  (exists new, ids (run c db) = (ids db ++ new)%list)
  /\ match task_logs db with
     | None => task_logs (run c db) = None
     | Some logs =>
         exists more, task_logs (run c db) = Some (logs ++ more)%list
     end.
Proof. exact (advances_run c db). Qed.

Lemma reachable_no_log_table (db : DB) : reachable db -> task_logs db = None.
Proof.
  induction 1 as [|c db Hreach IH]; [reflexivity|].
  destruct (advances_run c db) as [_ Hlogs]. now rewrite IH in Hlogs.
Qed.

Lemma AddTaskLog_no_table
      (taskID level message : string) (now : Z) (db : DB) :
  task_logs db = None ->
  Services.AddTaskLog taskID level message now db
  = (Err (Errorw "failed to add task log: "
                 (Errorf "no such table: task_logs")), db).
Proof.
  intros Hnone. unfold Services.AddTaskLog, bind, CreateLog.
  now rewrite Hnone.
Qed.

(** X11: the log is never written.  [Migrate] creates the [tasks]
    table only and no call creates another, so in every store that
    the services and the worker reach from the migrated database the
    log table does not exist, and every [AddTaskLog] returns its
    wrapped error and writes nothing. *)
Theorem log_never_written (db : DB) :
  reachable db ->
  task_logs db = None
  /\ forall taskID level message now,
       exists e,
         Services.AddTaskLog taskID level message now db
         = (Err (Errorw "failed to add task log: " e), db).
Proof.
  intros Hreach. pose proof (reachable_no_log_table db Hreach) as Hnone.
  split; [exact Hnone|]. intros taskID level message now.
  eexists. now apply AddTaskLog_no_table.
Qed.

Lemma log_never_written_witness :
  let db := run (CallAddTaskLog System.sample_id "info" "started" 3)
              (run (CallProcessTask
                      (System.sample System.sample_id TaskStatusQueued 0 1)
                      (Worker.mkInstants 2 3 4 5)
                      (Worker.mkExecutionResult true "done" "" "" [] None)
                      [("info", "Cloning repository...", 3)])
                   (run (CallCreateTask "owner/repo" "fix the failing tests"
                                        System.sample_id 1) empty)) in
  task_logs db = None
  /\ exists e,
       Services.AddTaskLog System.sample_id "info" "started" 4 db
       = (Err (Errorw "failed to add task log: " e), db).
Proof.
  cbv zeta.
  destruct (log_never_written
              (run (CallAddTaskLog System.sample_id "info" "started" 3)
                 (run (CallProcessTask
                         (System.sample System.sample_id TaskStatusQueued 0 1)
                         (Worker.mkInstants 2 3 4 5)
                         (Worker.mkExecutionResult true "done" "" "" [] None)
                         [("info", "Cloning repository...", 3)])
                      (run (CallCreateTask "owner/repo"
                                           "fix the failing tests"
                                           System.sample_id 1) empty))))
    as [Hnone Hadd].
  - repeat apply reach_step. apply reach_empty.
  - split; [exact Hnone | apply Hadd].
Defined.

(** ** Queries: filter, order, offset, limit *)

Lemma insert_row_In (o : option Ordering) (r x : Task) (rows : list Task) :
  In x (insert_row o r rows) <-> x = r \/ In x rows.
Proof.
  induction rows as [|y rest IH]; cbn [insert_row].
  - cbn. intuition.
  - destruct (order_le o r y); cbn [In] in *; [intuition | rewrite IH; intuition].
Qed.

Lemma order_rows_In (o : option Ordering) (x : Task) (rows : list Task) :
  In x (order_rows o rows) <-> In x rows.
Proof.
  induction rows as [|y rest IH]; cbn [order_rows]; [tauto|].
  rewrite insert_row_In, IH. cbn. intuition.
Qed.

Lemma insert_row_length (o : option Ordering) (r : Task) (rows : list Task) :
  List.length (insert_row o r rows) = S (List.length rows).
Proof.
  induction rows as [|y rest IH]; cbn [insert_row]; [reflexivity|].
  destruct (order_le o r y); cbn [List.length]; [reflexivity | now rewrite IH].
Qed.

Lemma order_rows_length (o : option Ordering) (rows : list Task) :
  List.length (order_rows o rows) = List.length rows.
Proof.
  induction rows as [|y rest IH]; cbn [order_rows]; [reflexivity|].
  rewrite insert_row_length. cbn. now rewrite IH.
Qed.

Section Ordered.
Variable o : option Ordering.
Variable R : Task -> Task -> Prop.
Hypothesis R_le : forall a b, order_le o a b = true -> R a b.
Hypothesis R_total : forall a b, order_le o a b = false -> R b a.
Hypothesis R_trans : forall a b c, R a b -> R b c -> R a c.

Lemma insert_row_sorted (r : Task) (rows : list Task) :
  StronglySorted R rows -> StronglySorted R (insert_row o r rows).
Proof.
  induction 1 as [|y rest Hrest IH Hall]; cbn [insert_row].
  - repeat constructor.
  - destruct (order_le o r y) eqn:Hle.
    + constructor; [now constructor|].
      constructor; [now apply R_le|].
      revert Hall. apply Forall_impl. intros z. apply R_trans. now apply R_le.
    + constructor; [exact IH|].
      apply Forall_forall. intros z Hz. apply insert_row_In in Hz as [-> | Hz].
      * now apply R_total.
      * now apply (proj1 (Forall_forall _ _) Hall).
Qed.

Lemma order_rows_sorted (rows : list Task) :
  StronglySorted R (order_rows o rows).
Proof.
  induction rows as [|y rest IH]; cbn [order_rows]; [constructor|].
  now apply insert_row_sorted.
Qed.

End Ordered.

Lemma In_skipn {A} (n : nat) (l : list A) (x : A) :
  In x (skipn n l) -> In x l.
Proof.
  revert l; induction n as [|n IH]; intros [|y l]; cbn; auto.
Qed.

Lemma In_firstn {A} (n : nat) (l : list A) (x : A) :
  In x (firstn n l) -> In x l.
Proof.
  revert l; induction n as [|n IH]; intros [|y l]; cbn; try tauto.
  intros [-> | H]; auto.
Qed.

Lemma StronglySorted_skipn {A} (R : A -> A -> Prop) (n : nat) (l : list A) :
  StronglySorted R l -> StronglySorted R (skipn n l).
Proof.
  revert l; induction n as [|n IH]; intros l Hs; [exact Hs|].
  destruct l as [|y l]; [constructor|]. cbn. apply IH.
  now inversion Hs.
Qed.

Lemma StronglySorted_firstn {A} (R : A -> A -> Prop) (n : nat) (l : list A) :
  StronglySorted R l -> StronglySorted R (firstn n l).
Proof.
  revert l; induction n as [|n IH]; intros l Hs; [constructor|].
  destruct l as [|y l]; [constructor|]. cbn.
  inversion Hs as [|? ? Hl Hall]; subst. constructor; [now apply IH|].
  apply Forall_forall. intros z Hz. apply In_firstn in Hz.
  now apply (proj1 (Forall_forall _ _) Hall).
Qed.

(** The rows a query selects: stored rows that pass the filter, in
    the order asked for. *)
Lemma select_rows_sound (q : Query) (R : Task -> Task -> Prop)
      (rows : list Task) :
  (forall a b, order_le (q_order q) a b = true -> R a b) ->
  (forall a b, order_le (q_order q) a b = false -> R b a) ->
  (forall a b c, R a b -> R b c -> R a c) ->
  Forall (fun t => In t rows /\ q_where q t = true) (select_rows q rows)
  /\ StronglySorted R (select_rows q rows).
Proof.
  intros Hle Htot Htrans. unfold select_rows, apply_limit, apply_offset. split.
  - apply Forall_forall. intros t Ht.
    assert (Hin : In t (order_rows (q_order q) (filter (q_where q) rows))).
    { destruct (q_limit q); [apply In_firstn in Ht|];
        destruct (q_offset q); try apply In_skipn in Ht; exact Ht. }
    apply order_rows_In, filter_In in Hin. exact Hin.
  - pose proof (order_rows_sorted (q_order q) R Hle Htot Htrans
                                  (filter (q_where q) rows)) as Hs.
    destruct (q_limit q); [apply StronglySorted_firstn|];
      destruct (q_offset q); try apply StronglySorted_skipn; exact Hs.
Qed.

Lemma newest_first_order :
  (forall a b, order_le (Some CreatedAtDesc) a b = true -> newest_first a b)
  /\ (forall a b, order_le (Some CreatedAtDesc) a b = false -> newest_first b a)
  /\ (forall a b c, newest_first a b -> newest_first b c -> newest_first a c).
Proof.
  unfold newest_first; cbn [order_le]. repeat split; intros.
  - now apply Z.leb_le.
  - apply Z.leb_gt in H. lia.
  - lia.
Qed.

Lemma oldest_first_order :
  (forall a b, order_le (Some CreatedAtAsc) a b = true -> oldest_first a b)
  /\ (forall a b, order_le (Some CreatedAtAsc) a b = false -> oldest_first b a)
  /\ (forall a b c, oldest_first a b -> oldest_first b c -> oldest_first a c).
Proof.
  unfold oldest_first; cbn [order_le]. repeat split; intros.
  - now apply Z.leb_le.
  - apply Z.leb_gt in H. lia.
  - lia.
Qed.

Lemma ListTasks_query
      (db db' : DB) (status : string) (limit offset : Z) (ts : list Task) :
  Services.ListTasks status limit offset db = (Ok ts, db') ->
  exists q,
    Find q db = (Ok ts, db')
    /\ q_order q = Some CreatedAtDesc
    /\ (forall t, q_where q t = true -> status <> "" -> Status t = status).
Proof.
  unfold Services.ListTasks. cbv zeta.
  destruct (String.eqb_spec status "") as [-> | Hne]; cbn [negb].
  - intros H. eexists. split; [exact H|].
    split; [now destruct (0 <? limit), (0 <? offset)|].
    intros t _ Hc. now contradiction Hc.
  - destruct (IsValid status); cbn [negb]; [|discriminate].
    intros H. eexists. split; [exact H|].
    split; [now destruct (0 <? limit), (0 <? offset)|].
    intros t Ht _.
    destruct (0 <? limit), (0 <? offset); cbn in Ht;
      now apply String.eqb_eq in Ht.
Qed.

(** X12: what the service's [ListTasks] returns, when it returns: the
    store is untouched; every task listed is a stored task and, under
    a status filter, has that status; the list runs from the newest
    creation stamp to the oldest; and a positive limit bounds its
    length. *)
Theorem ListTasks_sound
        (db db' : DB) (status : string) (limit offset : Z) (ts : list Task) :
  Services.ListTasks status limit offset db = (Ok ts, db') ->
  db' = db
  /\ Forall (fun t => In t (tasks db)
                      /\ (status <> "" -> Status t = status)) ts
  /\ StronglySorted newest_first ts
  /\ (0 < limit -> Z.of_nat (List.length ts) <= limit).
Proof.
  intros Hlist.
  destruct (ListTasks_query _ _ _ _ _ _ Hlist) as (q & Hfind & Horder & Hwhere).
  unfold Find in Hfind. injection Hfind as <- <-.
  destruct newest_first_order as (Hle & Htot & Htrans).
  destruct (select_rows_sound q newest_first (tasks db)) as [Hin Hs];
    try (rewrite Horder; assumption); try assumption.
  split; [reflexivity|]. split; [|split; [exact Hs|]].
  - revert Hin. apply Forall_impl. intros t [Hin Hw]. auto.
  - intros Hpos. now apply (ListTasks_at_most status limit offset db db).
Qed.

Lemma ListTasks_sound_witness :
  let older := System.sample System.sample_id TaskStatusQueued 0 3 in
  let newer := System.sample "01BX5ZZKBKACTAV9WEVGEMMVRZ" TaskStatusQueued 0 7 in
  let db := mkDB [older; newer] None in
  db = db
  /\ Forall (fun t => In t (tasks db)
                      /\ ("queued" <> "" -> Status t = "queued"))
            [newer; older]
  /\ StronglySorted newest_first [newer; older]
  /\ (0 < 5 -> Z.of_nat (List.length [newer; older]) <= 5).
Proof.
  cbv zeta.
  apply (ListTasks_sound
           (mkDB [System.sample System.sample_id TaskStatusQueued 0 3;
                  System.sample "01BX5ZZKBKACTAV9WEVGEMMVRZ"
                                TaskStatusQueued 0 7] None)
           _ "queued" 5 0).
  vm_compute. reflexivity.
Defined.

Lemma filter_all {A} (rows : list A) : filter (fun _ => true) rows = rows.
Proof. induction rows as [|x rest IH]; cbn; [reflexivity | now rewrite IH]. Qed.

(** X13: a limit of zero lifts every bound.  When the [limit]
    parameter of GET /tasks reads as 0 (and no status filter and no
    offset is given), the answer lists every stored task, however
    many there are: the cap of 100 applies to limits above 100
    only. *)
Theorem ListTasks_limit_zero_lists_all
        (txt : Handlers.SentinelTexts) (request_id : string)
        (limitQ offsetQ : option string) (db : DB) :
  Go.Atoi (Handlers.DefaultQuery limitQ "50") = Some 0 ->
  Go.Atoi (Handlers.DefaultQuery offsetQ "0") = Some 0 ->
  exists ts,
    Handlers.ListTasks txt request_id "" limitQ offsetQ db
    = (Ok (Handlers.mkResponse Handlers.StatusOK
             (Handlers.ToTaskListResponse ts)), db)
    /\ List.length ts = List.length (tasks db)
    /\ forall t, In t ts <-> In t (tasks db).
Proof.
  intros Hl Ho. exists (order_rows (Some CreatedAtDesc) (tasks db)).
  split; [|split].
  - unfold Handlers.ListTasks. rewrite Hl, Ho. cbn.
    unfold select_rows. cbn. now rewrite filter_all.
  - apply order_rows_length.
  - intros t. apply order_rows_In.
Qed.

Lemma ListTasks_limit_zero_lists_all_witness :
  let txt := Handlers.mkSentinelTexts "record not found" "invalid value"
                                      "constraint failed" in
  let db := mkDB [System.sample System.sample_id TaskStatusQueued 0 3;
                  System.sample "01BX5ZZKBKACTAV9WEVGEMMVRZ"
                                TaskStatusSuccess 0 7] None in
  exists ts,
    Handlers.ListTasks txt "req-1" "" (Some "0") None db
    = (Ok (Handlers.mkResponse Handlers.StatusOK
             (Handlers.ToTaskListResponse ts)), db)
    /\ List.length ts = List.length (tasks db)
    /\ forall t, In t ts <-> In t (tasks db).
Proof.
  cbv zeta.
  apply (ListTasks_limit_zero_lists_all
           (Handlers.mkSentinelTexts "record not found" "invalid value"
                                     "constraint failed")
           "req-1" (Some "0") None); reflexivity.
Defined.

Lemma is_active_eq (t : Task) :
  is_active t = IsValid (Status t) && negb (IsTerminal (Status t)).
Proof.
  unfold is_active, IsValid, IsTerminal. cbn [existsb].
  destruct (String.eqb_spec (Status t) TaskStatusQueued) as [-> | _];
    [reflexivity|].
  destruct (String.eqb_spec (Status t) TaskStatusRunning) as [-> | _];
    [reflexivity|].
  destruct (String.eqb_spec (Status t) TaskStatusRetrying) as [-> | _];
    [reflexivity|].
  destruct (String.eqb_spec (Status t) TaskStatusNeedsReview) as [-> | _];
    [reflexivity|].
  cbn [orb].
  destruct (String.eqb (Status t) TaskStatusSuccess); [reflexivity|].
  destruct (String.eqb (Status t) TaskStatusAborted); [reflexivity|].
  destruct (String.eqb (Status t) TaskStatusError); reflexivity.
Qed.

(** X14: [GetActiveTasks] never fails and never writes; it returns
    exactly the stored tasks whose status is one of the seven and not
    terminal, from the oldest creation stamp to the newest. *)
Theorem GetActiveTasks_exact (db : DB) :
  exists ts,
    Services.GetActiveTasks db = (Ok ts, db)
    /\ (forall t, In t ts <->
                  In t (tasks db) /\ IsValid (Status t) = true
                  /\ IsTerminal (Status t) = false)
    /\ StronglySorted oldest_first ts
    /\ (List.length ts <= List.length (tasks db))%nat.
Proof.
  exists (order_rows (Some CreatedAtAsc) (filter is_active (tasks db))).
  split; [reflexivity|].
  split; [|split].
  - intros t. rewrite order_rows_In, filter_In, is_active_eq.
    rewrite andb_true_iff, negb_true_iff. tauto.
  - destruct oldest_first_order as (Hle & Htot & Htrans).
    now apply (order_rows_sorted (Some CreatedAtAsc)).
  - rewrite order_rows_length. apply filter_length_le.
Qed.

(** X15: the handler of GET /tasks?repo= never refuses a limit or an
    offset: a value that does not parse or is negative is replaced by
    the default.  For a non-empty [repo] the answer is always 200; it
    lists only stored tasks of that repository, newest first, and at
    most 100 of them unless the limit reads as 0. *)
Theorem GetTasksByRepo_lenient
        (request_id repo : string)
        (limitQ offsetQ : option string) (db : DB) :
  repo <> "" ->
  exists ts,
    Handlers.GetTasksByRepo request_id repo limitQ offsetQ db
    = (Ok (Handlers.mkResponse Handlers.StatusOK
             (Handlers.ToTaskListResponse ts)), db)
    /\ Forall (fun t => In t (tasks db) /\ Repo t = repo) ts
    /\ StronglySorted newest_first ts
    /\ (Go.Atoi (Handlers.DefaultQuery limitQ "50") <> Some 0 ->
        (List.length ts <= 100)%nat).
Proof.
  intros Hrepo. unfold Handlers.GetTasksByRepo.
  apply String.eqb_neq in Hrepo. rewrite Hrepo. cbv zeta.
  set (limit0 := match Go.Atoi (Handlers.DefaultQuery limitQ "50") with
                 | Some limit => if limit <? 0 then 50 else limit
                 | None => 50
                 end).
  set (limit := if 100 <? limit0 then 100 else limit0).
  set (offset := match Go.Atoi (Handlers.DefaultQuery offsetQ "0") with
                 | Some offset => if offset <? 0 then 0 else offset
                 | None => 0
                 end).
  unfold bind, attempt, Services.GetTasksByRepo, Find, ret. cbv zeta.
  eexists. split; [reflexivity|].
  destruct newest_first_order as (Hle & Htot & Htrans).
  match goal with |- context [select_rows ?q _] =>
    destruct (select_rows_sound q newest_first (tasks db)) as [Hin Hs];
      try assumption;
      try (destruct (0 <? limit), (0 <? offset); assumption);
    pose proof (select_rows_limit q (tasks db) limit) as Hbound
  end.
  split; [|split; [exact Hs|]].
  - revert Hin. apply Forall_impl. intros t [Hin Hw]. split; [exact Hin|].
    destruct (0 <? limit), (0 <? offset); cbn in Hw;
      now apply String.eqb_eq in Hw.
  - intros Hnz.
    assert (Hrange : 0 < limit <= 100).
    { subst limit limit0.
      destruct (Go.Atoi (Handlers.DefaultQuery limitQ "50")) as [l|].
      - destruct (Z.ltb_spec l 0).
        + cbn. lia.
        + assert (l <> 0) by congruence.
          destruct (Z.ltb_spec 100 l); lia.
      - cbn. lia. }
    assert (Hpos : (0 <? limit) = true) by (apply Z.ltb_lt; lia).
    rewrite Hpos in Hbound |- *.
    assert (Hq : (Z.to_nat limit <= 100)%nat) by lia.
    etransitivity; [apply Hbound|exact Hq].
    now destruct (0 <? offset).
Qed.

Lemma GetTasksByRepo_lenient_witness :
  let db := System.store_with
              (System.sample System.sample_id TaskStatusQueued 0 3) in
  exists ts,
    Handlers.GetTasksByRepo "req-1" "owner/repo" (Some "-5")
                            (Some "many") db
    = (Ok (Handlers.mkResponse Handlers.StatusOK
             (Handlers.ToTaskListResponse ts)), db)
    /\ Forall (fun t => In t (tasks db) /\ Repo t = "owner/repo") ts
    /\ StronglySorted newest_first ts
    /\ (Go.Atoi (Handlers.DefaultQuery (Some "-5") "50") <> Some 0 ->
        (List.length ts <= 100)%nat).
Proof.
  cbv zeta.
  apply (GetTasksByRepo_lenient
           "req-1" "owner/repo" (Some "-5") (Some "many")).
  discriminate.
Defined.

(** ** The handler of PATCH /tasks/{id} *)

(** A request that passes the handler's own checks is answered from
    the outcome of the service call. *)
Lemma UpdateTask_handler_request
      (txt : Handlers.SentinelTexts) (request_id : string)
      (id action prompt : string) (now : Z) (db : DB) :
  id <> "" -> action = "continue" \/ action = "abort" ->
  Go.len prompt <= 10000 ->
  Handlers.UpdateTask txt request_id id
    (Some (Handlers.mkUpdateTaskRequest action prompt)) now db
  = match Services.UpdateTask id action prompt now db with
    | (Ok _, db') =>
        (Ok (Handlers.mkResponse Handlers.StatusNoContent Handlers.NoBody),
         db')
    | (Err err, db') =>
        (Ok (if String.eqb (Handlers.ErrorText txt err) "task not found"
             then Handlers.mkResponse Handlers.StatusNotFound
                    (Handlers.ErrorResponse "not_found" "Task not found"
                                            request_id)
             else if String.eqb (Handlers.ErrorText txt err)
                       "task cannot be continued: status=success, attempts=3"
                     || String.eqb (Handlers.ErrorText txt err)
                          "failed to update task status: invalid value"
                  then Handlers.mkResponse Handlers.StatusConflict
                         (Handlers.ErrorResponse "conflict"
                            (Handlers.ErrorText txt err) request_id)
                  else Handlers.mkResponse Handlers.StatusInternalServerError
                         (Handlers.ErrorResponse "update_error"
                            "Failed to update task" request_id)),
         db')
    | (Panic, db') => (Panic, db')
    end.
Proof.
  intros Hid Haction Hlen.
  assert (Hupd :
    (r <- attempt (Services.UpdateTask id action prompt now) ;;
     match r with
     | inl err =>
         if String.eqb (Handlers.ErrorText txt err) "task not found" then
           ret (Handlers.mkResponse Handlers.StatusNotFound
                  (Handlers.ErrorResponse "not_found" "Task not found"
                                          request_id))
         else if String.eqb (Handlers.ErrorText txt err)
                   "task cannot be continued: status=success, attempts=3"
                 || String.eqb (Handlers.ErrorText txt err)
                      "failed to update task status: invalid value"
         then
           ret (Handlers.mkResponse Handlers.StatusConflict
                  (Handlers.ErrorResponse "conflict"
                     (Handlers.ErrorText txt err) request_id))
         else
           ret (Handlers.mkResponse Handlers.StatusInternalServerError
                  (Handlers.ErrorResponse "update_error"
                     "Failed to update task" request_id))
     | inr _ => ret (Handlers.mkResponse Handlers.StatusNoContent
                                         Handlers.NoBody)
     end) db
    = match Services.UpdateTask id action prompt now db with
      | (Ok _, db') =>
          (Ok (Handlers.mkResponse Handlers.StatusNoContent Handlers.NoBody),
           db')
      | (Err err, db') =>
          (Ok (if String.eqb (Handlers.ErrorText txt err) "task not found"
               then Handlers.mkResponse Handlers.StatusNotFound
                      (Handlers.ErrorResponse "not_found" "Task not found"
                                              request_id)
               else if String.eqb (Handlers.ErrorText txt err)
                         "task cannot be continued: status=success, attempts=3"
                       || String.eqb (Handlers.ErrorText txt err)
                            "failed to update task status: invalid value"
                    then Handlers.mkResponse Handlers.StatusConflict
                           (Handlers.ErrorResponse "conflict"
                              (Handlers.ErrorText txt err) request_id)
                    else Handlers.mkResponse
                           Handlers.StatusInternalServerError
                           (Handlers.ErrorResponse "update_error"
                              "Failed to update task" request_id)),
           db')
      | (Panic, db') => (Panic, db')
      end).
  { unfold bind, attempt, ret.
    destruct (Services.UpdateTask id action prompt now db)
      as [[u | err |] db']; try reflexivity.
    destruct (String.eqb (Handlers.ErrorText txt err) "task not found");
      [reflexivity|].
    now destruct (String.eqb (Handlers.ErrorText txt err)
                    "task cannot be continued: status=success, attempts=3"
                  || String.eqb (Handlers.ErrorText txt err)
                       "failed to update task status: invalid value"). }
  unfold Handlers.UpdateTask.
  apply String.eqb_neq in Hid. rewrite Hid.
  cbn [Handlers.Action Handlers.ReqPrompt].
  assert (Hok : negb (String.eqb action "continue"
                      || String.eqb action "abort") = false)
    by (destruct Haction as [-> | ->]; reflexivity).
  rewrite Hok.
  destruct (String.eqb action "continue" && negb (String.eqb prompt ""))
    eqn:Hcheck; [|exact Hupd].
  apply andb_true_iff in Hcheck as [_ Hp]. apply negb_true_iff in Hp.
  unfold Services.ValidatePrompt. rewrite Hp.
  assert (Hfit : (10000 <? Go.len prompt) = false) by (apply Z.ltb_ge; lia).
  rewrite Hfit. exact Hupd.
Qed.

(** X16: a well-formed PATCH for an identifier that no stored task
    has is answered 404 [not_found], whichever the action, and
    writes nothing. *)
Theorem UpdateTask_handler_not_found
        (txt : Handlers.SentinelTexts) (request_id : string)
        (id action prompt : string) (now : Z) (db : DB) :
  id <> "" -> action = "continue" \/ action = "abort" ->
  Go.len prompt <= 10000 ->
  (forall t, In t (tasks db) -> ID t <> id) ->
  Handlers.UpdateTask txt request_id id
    (Some (Handlers.mkUpdateTaskRequest action prompt)) now db
  = (Ok (Handlers.mkResponse Handlers.StatusNotFound
           (Handlers.ErrorResponse "not_found" "Task not found" request_id)),
     db).
Proof.
  intros Hid Haction Hlen Hnone.
  rewrite UpdateTask_handler_request by assumption.
  unfold Services.UpdateTask, bind.
  now rewrite (GetTask_missing id db Hnone).
Qed.

Lemma UpdateTask_handler_not_found_witness :
  let txt := Handlers.mkSentinelTexts "record not found" "invalid value"
                                      "constraint failed" in
  Handlers.UpdateTask txt "req-1" "non-existent-id"
    (Some (Handlers.mkUpdateTaskRequest "abort" "")) 9 empty
  = (Ok (Handlers.mkResponse Handlers.StatusNotFound
           (Handlers.ErrorResponse "not_found" "Task not found" "req-1")),
     empty).
Proof.
  cbv zeta.
  apply (UpdateTask_handler_not_found
           (Handlers.mkSentinelTexts "record not found" "invalid value"
                                     "constraint failed")
           "req-1" "non-existent-id" "abort" "" 9 empty);
    [discriminate | now right | (vm_compute; discriminate) | intros t []].
Defined.

(** X17: the handler refuses with 400, before it reads the store, a
    PATCH without an identifier, with a body that does not decode,
    with an action other than [continue] and [abort], or with a
    [continue] whose new prompt is longer than 10000 bytes. *)
Theorem UpdateTask_handler_bad_request
        (txt : Handlers.SentinelTexts) (request_id : string)
        (id : string) (body : option Handlers.UpdateTaskRequest)
        (now : Z) (db : DB) :
  id = ""
  \/ body = None
  \/ (exists req, body = Some req
                  /\ Handlers.Action req <> "continue"
                  /\ Handlers.Action req <> "abort")
  \/ (exists req, body = Some req
                  /\ Handlers.Action req = "continue"
                  /\ 10000 < Go.len (Handlers.ReqPrompt req)) ->
  exists payload,
    Handlers.UpdateTask txt request_id id body now db
    = (Ok (Handlers.mkResponse Handlers.StatusBadRequest payload), db).
Proof.
  unfold Handlers.UpdateTask.
  intros [-> | Hrest]; [eexists; reflexivity|].
  destruct (String.eqb id ""); [eexists; reflexivity|].
  destruct Hrest as [-> | [(req & -> & Hc & Ha) | (req & -> & Hc & Hlong)]].
  - eexists; reflexivity.
  - apply String.eqb_neq in Hc, Ha. rewrite Hc, Ha.
    eexists; reflexivity.
  - rewrite Hc. cbn [String.eqb Ascii.eqb Bool.eqb andb orb negb].
    destruct (String.eqb (Handlers.ReqPrompt req) "") eqn:Hp.
    + apply String.eqb_eq in Hp. rewrite Hp in Hlong.
      vm_compute in Hlong. discriminate.
    + cbn [negb]. unfold Services.ValidatePrompt. rewrite Hp.
      assert (Hl : (10000 <? Go.len (Handlers.ReqPrompt req)) = true)
        by now apply Z.ltb_lt.
      rewrite Hl. eexists; reflexivity.
Qed.

Lemma UpdateTask_handler_bad_request_witness :
  let txt := Handlers.mkSentinelTexts "record not found" "invalid value"
                                      "constraint failed" in
  let db := System.store_with
              (System.sample System.sample_id TaskStatusRunning 0 1) in
  exists payload,
    Handlers.UpdateTask txt "req-1" System.sample_id
      (Some (Handlers.mkUpdateTaskRequest "invalid" "")) 9 db
    = (Ok (Handlers.mkResponse Handlers.StatusBadRequest payload), db).
Proof.
  cbv zeta.
  apply (UpdateTask_handler_bad_request
           (Handlers.mkSentinelTexts "record not found" "invalid value"
                                     "constraint failed")
           "req-1" System.sample_id
           (Some (Handlers.mkUpdateTaskRequest "invalid" "")) 9).
  right. right. left.
  exists (Handlers.mkUpdateTaskRequest "invalid" "").
  split; [reflexivity | split; discriminate].
Defined.

(** X18: an [abort] request for a stored task with one of the seven
    statuses is answered 204 with an empty body; afterwards the
    stored task is [aborted], unless it had succeeded, in which case
    it stays [success]. *)
Theorem UpdateTask_handler_abort
        (txt : Handlers.SentinelTexts) (request_id : string)
        (id prompt : string) (now : Z) (db : DB) (t : Task) :
  id <> "" -> Go.len prompt <= 10000 ->
  Services.GetTask id db = (Ok t, db) ->
  IsValid (Status t) = true ->
  exists db' t',
    Handlers.UpdateTask txt request_id id
      (Some (Handlers.mkUpdateTaskRequest "abort" prompt)) now db
    = (Ok (Handlers.mkResponse Handlers.StatusNoContent Handlers.NoBody), db')
    /\ Services.GetTask id db' = (Ok t', db')
    /\ Status t' = (if String.eqb (Status t) TaskStatusSuccess
                    then TaskStatusSuccess else TaskStatusAborted).
Proof.
  intros Hid Hlen Hget Hv.
  rewrite UpdateTask_handler_request by (auto; now right).
  destruct (String.eqb_spec (Status t) TaskStatusSuccess) as [Hs | Hs].
  - rewrite (abort_success_eq db id prompt now t Hget Hs).
    exists db, t. repeat split; assumption.
  - destruct (abort_other_eq db id prompt now t Hid Hget Hv Hs) as [-> Hget'].
    eexists; eexists. split; [reflexivity|]. split; [exact Hget'|reflexivity].
Qed.

Lemma UpdateTask_handler_abort_witness :
  let txt := Handlers.mkSentinelTexts "record not found" "invalid value"
                                      "constraint failed" in
  let t := System.sample System.sample_id TaskStatusRunning 0 1 in
  exists db' t',
    Handlers.UpdateTask txt "req-1" System.sample_id
      (Some (Handlers.mkUpdateTaskRequest "abort" "")) 9 (System.store_with t)
    = (Ok (Handlers.mkResponse Handlers.StatusNoContent Handlers.NoBody), db')
    /\ Services.GetTask System.sample_id db' = (Ok t', db')
    /\ Status t' = (if String.eqb (Status t) TaskStatusSuccess
                    then TaskStatusSuccess else TaskStatusAborted).
Proof.
  cbv zeta.
  apply (UpdateTask_handler_abort
           (Handlers.mkSentinelTexts "record not found" "invalid value"
                                     "constraint failed")
           "req-1" System.sample_id "" 9
           (System.store_with
              (System.sample System.sample_id TaskStatusRunning 0 1))
           (System.sample System.sample_id TaskStatusRunning 0 1));
    [discriminate | (vm_compute; discriminate) | reflexivity | reflexivity].
Defined.

Lemma continue_retryable_eq
      (db : DB) (id prompt : string) (now : Z) (t : Task) :
  Services.GetTask id db = (Ok t, db) ->
  IsRetryable t 3 = true ->
  Services.UpdateTask id "continue" prompt now db
  = (Err (Errorw "failed to update task status: " ErrInvalidValue), db).
Proof.
  intros Hget Hr. unfold Services.UpdateTask, bind. rewrite Hget.
  cbn [String.eqb Ascii.eqb Bool.eqb andb]. rewrite Hr. cbn [negb].
  unfold UpdateStatus. rewrite CanTransitionTo_queued. reflexivity.
Qed.

(** X19: a [continue] request for a retryable task (status [error],
    [retrying] or [needs_review], fewer than three attempts) is always
    answered with an error and stores nothing, the new prompt
    included: 409 [conflict] when the text of gorm's invalid-value
    error is exactly "invalid value", and 500 [update_error] for any
    other text. *)
Theorem UpdateTask_handler_continue_retryable
        (txt : Handlers.SentinelTexts) (request_id : string)
        (id prompt : string) (now : Z) (db : DB) (t : Task) :
  id <> "" -> Go.len prompt <= 10000 ->
  Services.GetTask id db = (Ok t, db) ->
  IsRetryable t 3 = true ->
  Handlers.UpdateTask txt request_id id
    (Some (Handlers.mkUpdateTaskRequest "continue" prompt)) now db
  = (Ok (if String.eqb (Handlers.invalid_value_text txt) "invalid value"
         then Handlers.mkResponse Handlers.StatusConflict
                (Handlers.ErrorResponse "conflict"
                   ("failed to update task status: "
                      ++ Handlers.invalid_value_text txt) request_id)
         else Handlers.mkResponse Handlers.StatusInternalServerError
                (Handlers.ErrorResponse "update_error"
                   "Failed to update task" request_id)),
     db).
Proof.
  intros Hid Hlen Hget Hr.
  rewrite UpdateTask_handler_request by (auto; now left).
  rewrite (continue_retryable_eq db id prompt now t Hget Hr).
  cbn [Handlers.ErrorText append String.eqb Ascii.eqb Bool.eqb andb orb].
  reflexivity.
Qed.

Lemma UpdateTask_handler_continue_retryable_witness :
  let txt := Handlers.mkSentinelTexts
               "record not found"
               "invalid value, should be pointer to struct or slice"
               "constraint failed" in
  let t := System.sample System.sample_id TaskStatusNeedsReview 1 1 in
  Handlers.UpdateTask txt "req-1" System.sample_id
    (Some (Handlers.mkUpdateTaskRequest "continue" "try once more")) 9
    (System.store_with t)
  = (Ok (Handlers.mkResponse Handlers.StatusInternalServerError
           (Handlers.ErrorResponse "update_error" "Failed to update task"
                                   "req-1")),
     System.store_with t).
Proof.
  cbv zeta.
  apply (UpdateTask_handler_continue_retryable
           (Handlers.mkSentinelTexts
              "record not found"
              "invalid value, should be pointer to struct or slice"
              "constraint failed")
           "req-1" System.sample_id "try once more" 9
           (System.store_with
              (System.sample System.sample_id TaskStatusNeedsReview 1 1))
           (System.sample System.sample_id TaskStatusNeedsReview 1 1));
    [discriminate | (vm_compute; discriminate) | reflexivity | reflexivity].
Defined.

(** ** The handlers of GET /tasks and GET /tasks/{id} *)

(** X20: with a well-formed limit and offset, a [status] filter that
    is not one of the seven statuses is answered 400
    [validation_error], the message naming the value, and the store
    is not read. *)
Theorem ListTasks_handler_unknown_status
        (txt : Handlers.SentinelTexts) (request_id status : string)
        (limitQ offsetQ : option string) (db : DB) (l o : Z) :
  Go.Atoi (Handlers.DefaultQuery limitQ "50") = Some l -> 0 <= l ->
  Go.Atoi (Handlers.DefaultQuery offsetQ "0") = Some o -> 0 <= o ->
  status <> "" -> IsValid status = false ->
  Handlers.ListTasks txt request_id status limitQ offsetQ db
  = (Ok (Handlers.mkResponse Handlers.StatusBadRequest
           (Handlers.ErrorResponse "validation_error"
                                   ("invalid status: " ++ status)
                                   request_id)),
     db).
Proof.
  intros Hl Hl0 Ho Ho0 Hne Hinv. unfold Handlers.ListTasks.
  rewrite Hl, Ho.
  assert (H1 : (l <? 0) = false) by (apply Z.ltb_ge; lia).
  assert (H2 : (o <? 0) = false) by (apply Z.ltb_ge; lia).
  rewrite H1, H2. unfold bind, attempt, Services.ListTasks. cbv zeta.
  apply String.eqb_neq in Hne. rewrite Hne, Hinv.
  cbn [negb fail Handlers.ErrorText]. unfold fail.
  now rewrite String.eqb_refl.
Qed.

Lemma ListTasks_handler_unknown_status_witness :
  let txt := Handlers.mkSentinelTexts "record not found" "invalid value"
                                      "constraint failed" in
  Handlers.ListTasks txt "req-1" "failed" None None empty
  = (Ok (Handlers.mkResponse Handlers.StatusBadRequest
           (Handlers.ErrorResponse "validation_error"
                                   ("invalid status: " ++ "failed")
                                   "req-1")),
     empty).
Proof.
  cbv zeta.
  apply (ListTasks_handler_unknown_status
           (Handlers.mkSentinelTexts "record not found" "invalid value"
                                     "constraint failed")
           "req-1" "failed" None None empty 50 0);
    (reflexivity || lia || discriminate).
Defined.

(** X21: GET /tasks/{id} never writes and never answers 500.  Without
    an identifier it answers 400; for an identifier no stored task
    has, 404; otherwise 200 with the stored task. *)
Theorem GetTask_handler_answers
        (txt : Handlers.SentinelTexts) (request_id id : string) (db : DB) :
  (id = "" ->
   Handlers.GetTask txt request_id id db
   = (Ok (Handlers.ReplyOther
            (Handlers.mkResponse Handlers.StatusBadRequest
               (Handlers.ErrorResponse "validation_error"
                                       "Task ID is required" request_id))),
      db))
  /\ (id <> "" -> (forall t, In t (tasks db) -> ID t <> id) ->
      Handlers.GetTask txt request_id id db
      = (Ok (Handlers.ReplyOther
               (Handlers.mkResponse Handlers.StatusNotFound
                  (Handlers.ErrorResponse "not_found" "Task not found"
                                          request_id))),
         db))
  /\ (id <> "" -> forall t, Services.GetTask id db = (Ok t, db) ->
      Handlers.GetTask txt request_id id db
      = (Ok (Handlers.ReplyTask Handlers.StatusOK
                                (Handlers.ToTaskResponse t)), db)).
Proof.
  unfold Handlers.GetTask. split; [|split].
  - intros ->. reflexivity.
  - intros Hid Hnone. apply String.eqb_neq in Hid. rewrite Hid.
    unfold bind, attempt. now rewrite (GetTask_missing id db Hnone).
  - intros Hid t Hget. apply String.eqb_neq in Hid. rewrite Hid.
    unfold bind, attempt. now rewrite Hget.
Qed.

Lemma GetTask_handler_answers_witness :
  let txt := Handlers.mkSentinelTexts "record not found" "invalid value"
                                      "constraint failed" in
  let t := System.sample System.sample_id TaskStatusRunning 0 1 in
  Handlers.GetTask txt "req-1" System.sample_id (System.store_with t)
  = (Ok (Handlers.ReplyTask Handlers.StatusOK (Handlers.ToTaskResponse t)),
     System.store_with t)
  /\ Handlers.GetTask txt "req-1" System.sample_id empty
     = (Ok (Handlers.ReplyOther
              (Handlers.mkResponse Handlers.StatusNotFound
                 (Handlers.ErrorResponse "not_found" "Task not found"
                                         "req-1"))),
        empty).
Proof.
  cbv zeta. split.
  - apply (GetTask_handler_answers
             (Handlers.mkSentinelTexts "record not found" "invalid value"
                                       "constraint failed")
             "req-1" System.sample_id
             (System.store_with
                (System.sample System.sample_id TaskStatusRunning 0 1)));
      [discriminate | reflexivity].
  - apply (GetTask_handler_answers
             (Handlers.mkSentinelTexts "record not found" "invalid value"
                                       "constraint failed")
             "req-1" System.sample_id empty);
      [discriminate | intros t []].
Defined.

(** ** The worker *)

(** X22: what [processTask] leaves behind for a stored task, whatever
    the execution did.  The only write to the task table is the first
    one, which sets the stored task to [running].  The struct then
    gets the status "completed" or "failed", neither of which is one
    of the seven, so the final save is refused: the stored task stays
    [running], without the branch and pull-request addresses.  No
    log line is stored while the log table does not exist, which is
    the case in every store that the program reaches from the
    migrated database; where the table exists, the log gains the
    start line, the lines of the execution and the result line. *)
Theorem processTask_leaves_task_running
        (db : DB) (task t0 : Task) (i : Worker.Instants)
        (exec : Worker.ExecutionResult)
        (exec_logs : list (string * string * Z)) :
  ID task <> "" ->
  Services.GetTask (ID task) db = (Ok t0, db) ->
  let stored := set_UpdatedAt (set_Status t0 TaskStatusRunning)
                              (Worker.at_status i) in
  exists task' logs,
    Worker.processTask task i exec exec_logs db
    = (Ok task', mkDB (replace_row stored (tasks db)) logs)
    /\ Status task' = (if Worker.Success exec then "completed" else "failed")
    /\ IsValid (Status task') = false
    /\ Services.GetTask (ID task) (mkDB (replace_row stored (tasks db)) logs)
       = (Ok stored, mkDB (replace_row stored (tasks db)) logs)
    /\ (reachable db -> logs = None)
    /\ match task_logs db with
       | None => logs = None
       | Some old =>
           exists new,
             logs = Some (old ++ new)%list
             /\ List.length new = (2 + List.length exec_logs)%nat
       end.
Proof.
  intros Hid Hget. cbv zeta.
  destruct (processTask_outcome db task t0 i exec exec_logs Hid Hget)
    as (task' & logs & Hrun & Hst & Hinv & Hstored & Hlogs).
  exists task', logs. split; [exact Hrun|].
  split; [exact Hst|]. split; [exact Hinv|]. split; [exact Hstored|].
  split; [|exact Hlogs].
  intros Hreach. unfold log_gains in Hlogs.
  now rewrite (reachable_no_log_table db Hreach) in Hlogs.
Qed.

Lemma processTask_leaves_task_running_witness :
  let t := System.sample System.sample_id TaskStatusQueued 0 1 in
  let i := Worker.mkInstants 2 3 4 5 in
  let exec := Worker.mkExecutionResult true "Task completed successfully"
                                       "https://host/x/y/tree/b" "" [] None in
  let stored := set_UpdatedAt (set_Status t TaskStatusRunning) 2 in
  exists task' logs,
    Worker.processTask t i exec [] (System.store_with t)
    = (Ok task', mkDB (replace_row stored [t]) logs)
    /\ Status task' = "completed"
    /\ IsValid (Status task') = false
    /\ Services.GetTask System.sample_id (mkDB (replace_row stored [t]) logs)
       = (Ok stored, mkDB (replace_row stored [t]) logs)
    /\ logs = None.
Proof.
  cbv zeta.
  destruct (processTask_leaves_task_running
              (System.store_with
                 (System.sample System.sample_id TaskStatusQueued 0 1))
              (System.sample System.sample_id TaskStatusQueued 0 1)
              (System.sample System.sample_id TaskStatusQueued 0 1)
              (Worker.mkInstants 2 3 4 5)
              (Worker.mkExecutionResult true "Task completed successfully"
                                        "https://host/x/y/tree/b" "" [] None)
              [])
    as (task' & logs & Hrun & Hst & Hinv & Hstored & _ & Hlogs);
    [discriminate | reflexivity |].
  exists task', logs. split; [exact Hrun|].
  split; [exact Hst|]. split; [exact Hinv|]. split; [exact Hstored|].
  exact Hlogs.
Defined.

(** X23: one poll.  With no more slots taken than the configured
    concurrency, [pollForTasks] never fails and never writes; it
    takes a slot exactly when it hands a task out, never exceeds the
    configured concurrency, hands out only a stored task that is
    [queued], and with every slot taken it hands out nothing. *)
Theorem pollForTasks_respects_slots
        (config : Worker.Config) (sem : Z) (db : DB) :
  sem <= Worker.MaxConcurrency config ->
  exists sem' handed,
    Worker.pollForTasks config sem db = (Ok (sem', handed), db)
    /\ sem' <= Worker.MaxConcurrency config
    /\ (handed = None -> sem' = sem)
    /\ (forall t, handed = Some t ->
          sem' = sem + 1 /\ In t (tasks db) /\ Status t = TaskStatusQueued)
    /\ (sem = Worker.MaxConcurrency config -> handed = None).
Proof.
  intros Hsem. unfold Worker.pollForTasks.
  destruct (Z.ltb_spec sem (Worker.MaxConcurrency config)) as [Hlt | Hge].
  - unfold bind, attempt. rewrite GetNextTask_eq.
    destruct (min_row (Some CreatedAtAsc) (filter is_queued (tasks db)))
      as [t|] eqn:Hmin.
    + exists (sem + 1), (Some t). split; [reflexivity|].
      apply min_row_In, filter_In in Hmin as [Hin Hq].
      apply String.eqb_eq in Hq.
      split; [lia|]. split; [discriminate|]. split.
      * intros t' [= <-]. auto.
      * lia.
    + exists sem, None. split; [reflexivity|].
      split; [lia|]. split; [reflexivity|]. split; [discriminate|reflexivity].
  - exists sem, None. split; [reflexivity|].
    split; [lia|]. split; [reflexivity|]. split; [discriminate|reflexivity].
Qed.

Lemma pollForTasks_respects_slots_witness :
  let config := Worker.mkConfig 10 3 "./work" "amp" "" "./orchestrator.db" in
  let db := System.store_with
              (System.sample System.sample_id TaskStatusQueued 0 1) in
  exists sem' handed,
    Worker.pollForTasks config 2 db = (Ok (sem', handed), db)
    /\ sem' <= Worker.MaxConcurrency config
    /\ (handed = None -> sem' = 2)
    /\ (forall t, handed = Some t ->
          sem' = 2 + 1 /\ In t (tasks db) /\ Status t = TaskStatusQueued)
    /\ (2 = Worker.MaxConcurrency config -> handed = None).
Proof.
  cbv zeta.
  apply (pollForTasks_respects_slots
           (Worker.mkConfig 10 3 "./work" "amp" "" "./orchestrator.db") 2).
  cbn. lia.
Defined.

Lemma In_replace_row (t x : Task) (rows : list Task) :
  In x (replace_row t rows) ->
  x = t \/ (In x rows /\ ID x <> ID t).
Proof.
  unfold replace_row. intros Hin. apply in_map_iff in Hin as (r & Hr & Hin).
  destruct (has_id (ID t) r) eqn:Hid.
  - left. now symmetry.
  - right. subst x. split; [exact Hin|].
    intros Heq. apply has_id_true in Heq. congruence.
Qed.

(** X24: once the worker has marked the task it was handed as
    [running], [GetNextTask] does not hand that task out again: the
    next task, if any, is another stored task that was already
    [queued]. *)
Theorem running_task_not_handed_out_again
        (db : DB) (t : Task) (now : Z) :
  Services.GetNextTask db = (Ok (Some t), db) ->
  ID t <> "" ->
  let db' := snd (Services.UpdateTaskStatus (ID t) TaskStatusRunning now db) in
  forall t2,
    Services.GetNextTask db' = (Ok (Some t2), db') ->
    ID t2 <> ID t /\ In t2 (tasks db) /\ Status t2 = TaskStatusQueued.
Proof.
  intros Hnext Hid. cbv zeta.
  rewrite GetNextTask_eq in Hnext.
  destruct (min_row (Some CreatedAtAsc) (filter is_queued (tasks db)))
    as [m|] eqn:Hmin; [|discriminate].
  injection Hnext as ->.
  apply min_row_In, filter_In in Hmin as [Hin _].
  destruct (GetTask_of_In db t Hin) as [t0 Hget].
  destruct (GetTask_Ok _ _ _ _ Hget) as (_ & _ & Hid0 & _).
  destruct (UpdateTaskStatus_valid db (ID t) TaskStatusRunning now t0
              Hid eq_refl Hget) as [Hup _].
  cbv zeta in Hup. rewrite Hup. cbn [snd].
  intros t2. rewrite GetNextTask_eq. cbn [tasks].
  destruct (min_row (Some CreatedAtAsc) _) as [m|] eqn:Hmin2; [|discriminate].
  intros [= ->]. apply min_row_In, filter_In in Hmin2 as [Hin2 Hq2].
  apply String.eqb_eq in Hq2.
  apply In_replace_row in Hin2 as [-> | [Hin2 Hne]].
  - discriminate Hq2.
  - cbn [ID set_UpdatedAt set_Status] in Hne. rewrite Hid0 in Hne. auto.
Qed.

Lemma running_task_not_handed_out_again_witness :
  let older := System.sample System.sample_id TaskStatusQueued 0 3 in
  let newer := System.sample "01BX5ZZKBKACTAV9WEVGEMMVRZ" TaskStatusQueued 0 7 in
  let db := mkDB [newer; older] None in
  let db' := snd (Services.UpdateTaskStatus (ID older) TaskStatusRunning 9 db) in
  Services.GetNextTask db = (Ok (Some older), db)
  /\ Services.GetNextTask db' = (Ok (Some newer), db')
  /\ ID newer <> ID older /\ In newer (tasks db)
  /\ Status newer = TaskStatusQueued.
Proof.
  cbv zeta. split; [reflexivity|]. split; [reflexivity|].
  apply (running_task_not_handed_out_again
           (mkDB [System.sample "01BX5ZZKBKACTAV9WEVGEMMVRZ"
                                TaskStatusQueued 0 7;
                  System.sample System.sample_id TaskStatusQueued 0 3] None)
           (System.sample System.sample_id TaskStatusQueued 0 3) 9);
    [reflexivity | discriminate | reflexivity].
Defined.

(** ** Strings: prefixes, suffixes, pieces *)

Lemma length_append (a b : string) :
  String.length (a ++ b) = (String.length a + String.length b)%nat.
Proof. induction a as [|c a IH]; cbn; [reflexivity | now rewrite IH]. Qed.

Lemma append_assoc (a b c : string) : (a ++ b) ++ c = a ++ (b ++ c).
Proof. induction a as [|x a IH]; cbn; [reflexivity | now rewrite IH]. Qed.

Lemma drop_append (a b : string) : Strings.drop (String.length a) (a ++ b) = b.
Proof. induction a as [|c a IH]; cbn; [now destruct b | exact IH]. Qed.

Lemma substring_append (a b : string) :
  substring 0 (String.length a) (a ++ b) = a.
Proof.
  induction a as [|c a IH]; cbn; [now destruct b | now rewrite IH].
Qed.

Lemma HasSuffix_append (a suffix : string) :
  Strings.HasSuffix (a ++ suffix) suffix = true.
Proof.
  unfold Strings.HasSuffix. rewrite length_append.
  replace (String.length a + String.length suffix - String.length suffix)%nat
    with (String.length a) by lia.
  rewrite drop_append, String.eqb_refl, andb_true_r.
  apply Nat.leb_le. lia.
Qed.

Lemma TrimSuffix_append (a suffix : string) :
  Strings.TrimSuffix (a ++ suffix) suffix = a.
Proof.
  unfold Strings.TrimSuffix. rewrite HasSuffix_append, length_append.
  replace (String.length a + String.length suffix - String.length suffix)%nat
    with (String.length a) by lia.
  apply substring_append.
Qed.

Lemma all_chars_drop (p : ascii -> bool) (n : nat) (s : string) :
  Ulid.all_chars p s = true -> Ulid.all_chars p (Strings.drop n s) = true.
Proof.
  revert s; induction n as [|n IH]; intros [|c s]; cbn; auto.
  rewrite andb_true_iff. intros [_ Hs]. auto.
Qed.

Lemma all_chars_append (p : ascii -> bool) (a b : string) :
  Ulid.all_chars p (a ++ b) = Ulid.all_chars p a && Ulid.all_chars p b.
Proof.
  induction a as [|c a IH]; cbn; [reflexivity|].
  now rewrite IH, andb_assoc.
Qed.

Lemma HasPrefix_all_chars (p : ascii -> bool) (s prefix : string) :
  Strings.HasPrefix s prefix = true -> Ulid.all_chars p s = true ->
  Ulid.all_chars p prefix = true.
Proof.
  revert s; induction prefix as [|a prefix IH]; intros s; [reflexivity|].
  destruct s as [|b s]; cbn; [discriminate|].
  rewrite !andb_true_iff. intros [Hab Hrest] [Hb Hs].
  apply Ascii.eqb_eq in Hab. subst b. eauto.
Qed.

(** A string that occurs in [s] is made of bytes of [s]. *)
Lemma Contains_all_chars (p : ascii -> bool) (s substr : string) :
  Ulid.all_chars p s = true -> Ulid.all_chars p substr = false ->
  Strings.Contains s substr = false.
Proof.
  intros Hs Hsub.
  destruct (Strings.Contains s substr) eqn:Hc; [|reflexivity].
  exfalso. revert Hs Hc. induction s as [|c s IH]; cbn [Strings.Contains].
  - intros Hs Hc. rewrite orb_false_r in Hc.
    apply (HasPrefix_all_chars p) in Hc; [congruence | exact Hs].
  - intros Hs Hc. apply orb_true_iff in Hc as [Hc | Hc].
    + apply (HasPrefix_all_chars p) in Hc; [congruence | exact Hs].
    + cbn in Hs. apply andb_true_iff in Hs as [_ Hs]. auto.
Qed.

Lemma HasSuffix_all_chars (p : ascii -> bool) (s suffix : string) :
  Ulid.all_chars p s = true -> Ulid.all_chars p suffix = false ->
  Strings.HasSuffix s suffix = false.
Proof.
  intros Hs Hsuf. unfold Strings.HasSuffix.
  destruct (String.eqb_spec
              (Strings.drop (String.length s - String.length suffix) s)
              suffix) as [Heq | _]; [|apply andb_false_r].
  pose proof (all_chars_drop p (String.length s - String.length suffix) s Hs)
    as Hd.
  rewrite Heq in Hd. congruence.
Qed.

(** X25: the branch minted for a task always passes the branch-name
    check of the git operations: for every ULID, ["amp/"] followed by
    its first six characters is accepted by [validateBranchName]. *)
Theorem minted_branch_is_valid (id : string) :
  Ulid.is_ulid id = true ->
  Worker.validateBranchName ("amp/" ++ substring 0 6 id) = None.
Proof.
  intros Hulid. apply is_ulid_inv in Hulid as [Hlen Hall].
  assert (Hchars : Ulid.all_chars Ulid.is_branch_char
                     ("amp/" ++ substring 0 6 id) = true).
  { rewrite all_chars_append. apply andb_true_iff. split; [reflexivity|].
    apply all_chars_substring0.
    clear Hlen. induction id as [|c id IH]; [reflexivity|].
    cbn in Hall |- *. apply andb_true_iff in Hall as [Hc Hrest].
    unfold Ulid.is_branch_char at 1. rewrite Hc. cbn. auto. }
  unfold Worker.validateBranchName.
  assert (Hne : String.eqb ("amp/" ++ substring 0 6 id) "" = false)
    by reflexivity.
  rewrite Hne. cbn [find].
  rewrite !(Contains_all_chars Ulid.is_branch_char _ _ Hchars)
    by reflexivity.
  rewrite !(HasSuffix_all_chars Ulid.is_branch_char _ _ Hchars)
    by reflexivity.
  reflexivity.
Qed.

Lemma minted_branch_is_valid_witness :
  Worker.validateBranchName ("amp/" ++ substring 0 6 System.sample_id) = None.
Proof.
  apply (minted_branch_is_valid System.sample_id). reflexivity.
Defined.

(** X26: the two truncations.  With a bound of at least three, the
    worker's [truncateString] returns the string itself when it fits,
    and otherwise its first [maxLen - 3] bytes followed by three
    dots, exactly [maxLen] bytes in all; with a bound below three and
    a longer string it panics.  [TruncateString] of the output
    package never panics on a bound that is not negative and stays
    within the bound; the two agree when the string fits or the bound
    exceeds three, and differ at the bound three, where the worker
    returns three dots and the output package the first three
    bytes. *)
Theorem truncation_bounds (s : string) (maxLen : Z) :
  (3 <= maxLen ->
   exists r,
     Worker.truncateString s maxLen = Some r
     /\ Go.len r <= maxLen
     /\ (Go.len s <= maxLen -> r = s)
     /\ (maxLen < Go.len s ->
         r = substring 0 (Z.to_nat (maxLen - 3)) s ++ "..."
         /\ Go.len r = maxLen))
  /\ (maxLen < 3 -> maxLen < Go.len s ->
      Worker.truncateString s maxLen = None)
  /\ (0 <= maxLen ->
      exists r, Commands.TruncateString s maxLen = Some r
                /\ Go.len r <= maxLen)
  /\ (Go.len s <= maxLen \/ 3 < maxLen ->
      Commands.TruncateString s maxLen = Worker.truncateString s maxLen)
  /\ (3 < Go.len s ->
      Worker.truncateString s 3 = Some "..."
      /\ Commands.TruncateString s 3 = Some (substring 0 3 s)).
Proof.
  unfold Worker.truncateString, Commands.TruncateString, Go.len.
  assert (Hcut : forall n, (n <= String.length s)%nat ->
                           String.length (substring 0 n s ++ "...")
                           = (n + 3)%nat).
  { intros n Hn. now rewrite length_append, length_substring0. }
  split; [|split; [|split; [|split]]].
  - intros H3.
    destruct (Z.leb_spec (Z.of_nat (String.length s)) maxLen) as [Hfit | Hlong].
    + exists s. split; [reflexivity|].
      split; [exact Hfit|]. split; [reflexivity|]. intros Hlong. lia.
    + assert (H0 : (maxLen - 3 <? 0) = false) by (apply Z.ltb_ge; lia).
      rewrite H0.
      exists (substring 0 (Z.to_nat (maxLen - 3)) s ++ "...").
      rewrite Hcut by lia.
      split; [reflexivity|]. split; [lia|]. split; [intros; lia|].
      intros _. split; [reflexivity | lia].
  - intros Hsmall Hlong.
    assert (H1 : (Z.of_nat (String.length s) <=? maxLen) = false)
      by (apply Z.leb_gt; lia).
    assert (H2 : (maxLen - 3 <? 0) = true) by (apply Z.ltb_lt; lia).
    now rewrite H1, H2.
  - intros H0.
    destruct (Z.leb_spec (Z.of_nat (String.length s)) maxLen) as [Hfit | Hlong].
    + exists s. split; [reflexivity | lia].
    + destruct (Z.leb_spec maxLen 3) as [Hle | Hgt].
      * assert (Hn : (maxLen <? 0) = false) by (apply Z.ltb_ge; lia).
        rewrite Hn. eexists. split; [reflexivity|].
        rewrite length_substring0 by lia. lia.
      * eexists. split; [reflexivity|]. rewrite Hcut by lia. lia.
  - intros Hcase.
    destruct (Z.leb_spec (Z.of_nat (String.length s)) maxLen) as [Hfit | Hlong];
      [reflexivity|].
    assert (H1 : (maxLen <=? 3) = false) by (apply Z.leb_gt; lia).
    assert (H2 : (maxLen - 3 <? 0) = false) by (apply Z.ltb_ge; lia).
    now rewrite H1, H2.
  - intros Hlong.
    assert (H1 : (Z.of_nat (String.length s) <=? 3) = false)
      by (apply Z.leb_gt; lia).
    rewrite H1. split; [|reflexivity].
    change (3 - 3 <? 0) with false. change (Z.to_nat (3 - 3)) with 0%nat.
    cbv iota. now destruct s.
Qed.

Lemma truncation_bounds_witness :
  Worker.truncateString "hello world" 8 = Some "hello..."
  /\ Commands.TruncateString "hello world" 8 = Some "hello..."
  /\ Worker.truncateString "hello" 2 = None
  /\ Commands.TruncateString "hello" 3 = Some "hel".
Proof.
  destruct (truncation_bounds "hello world" 8) as (_ & _ & _ & Hsame & _).
  destruct (truncation_bounds "hello" 2) as (_ & Hpanic & _).
  destruct (truncation_bounds "hello" 3) as (_ & _ & _ & _ & Hthree).
  split; [reflexivity|].
  split; [rewrite Hsame; [reflexivity | right; vm_compute; reflexivity]|].
  split; [apply Hpanic; vm_compute; reflexivity|].
  apply Hthree. vm_compute. reflexivity.
Defined.

(** ** Repository addresses *)

(** X27: the SSH and the HTTPS clone addresses of a repository
    normalise to the same web address: for every path,
    [git@github.com:path.git] and [https://github.com/path.git] both
    become [https://github.com/path]; the same holds for gitlab. *)
Theorem normalizeGitURL_clone_forms (path : string) :
  Worker.normalizeGitURL ("git@github.com:" ++ path ++ ".git")
  = "https://github.com/" ++ path
  /\ Worker.normalizeGitURL ("https://github.com/" ++ path ++ ".git")
     = "https://github.com/" ++ path
  /\ Worker.normalizeGitURL ("git@gitlab.com:" ++ path ++ ".git")
     = "https://gitlab.com/" ++ path
  /\ Worker.normalizeGitURL ("https://gitlab.com/" ++ path ++ ".git")
     = "https://gitlab.com/" ++ path.
Proof.
  unfold Worker.normalizeGitURL. repeat split.
  - assert (Strings.HasPrefix ("git@github.com:" ++ path ++ ".git")
                              "git@github.com:" = true) as -> by reflexivity.
    assert (Strings.TrimPrefix ("git@github.com:" ++ path ++ ".git")
                               "git@github.com:" = path ++ ".git") as ->
      by reflexivity.
    now rewrite TrimSuffix_append.
  - assert (Strings.HasPrefix ("https://github.com/" ++ path ++ ".git")
                              "git@github.com:" = false) as -> by reflexivity.
    assert (Strings.HasPrefix ("https://github.com/" ++ path ++ ".git")
                              "git@gitlab.com:" = false) as -> by reflexivity.
    rewrite <- append_assoc.
    now rewrite HasSuffix_append, TrimSuffix_append.
  - assert (Strings.HasPrefix ("git@gitlab.com:" ++ path ++ ".git")
                              "git@github.com:" = false) as -> by reflexivity.
    assert (Strings.HasPrefix ("git@gitlab.com:" ++ path ++ ".git")
                              "git@gitlab.com:" = true) as -> by reflexivity.
    assert (Strings.TrimPrefix ("git@gitlab.com:" ++ path ++ ".git")
                               "git@gitlab.com:" = path ++ ".git") as ->
      by reflexivity.
    now rewrite TrimSuffix_append.
  - assert (Strings.HasPrefix ("https://gitlab.com/" ++ path ++ ".git")
                              "git@github.com:" = false) as -> by reflexivity.
    assert (Strings.HasPrefix ("https://gitlab.com/" ++ path ++ ".git")
                              "git@gitlab.com:" = false) as -> by reflexivity.
    rewrite <- append_assoc.
    now rewrite HasSuffix_append, TrimSuffix_append.
Qed.

Lemma Split_no_sep (s : string) :
  Ulid.all_chars Ulid.not_slash s = true -> Strings.Split s "/" = [s].
Proof.
  induction s as [|c s IH]; [reflexivity|]. cbn [Ulid.all_chars Strings.Split].
  rewrite andb_true_iff. unfold Ulid.not_slash at 1. rewrite negb_true_iff.
  intros [-> Hs]. now rewrite (IH Hs).
Qed.

Lemma Split_two (a b : string) :
  Ulid.all_chars Ulid.not_slash a = true ->
  Ulid.all_chars Ulid.not_slash b = true ->
  Strings.Split (a ++ "/" ++ b) "/" = [a; b].
Proof.
  intros Ha Hb. induction a as [|c a IH].
  - cbn [append Strings.Split]. change (Ascii.eqb "/" "/") with true.
    cbv iota. now rewrite (Split_no_sep b Hb).
  - cbn [Ulid.all_chars] in Ha. apply andb_true_iff in Ha as [Hc Ha].
    unfold Ulid.not_slash in Hc. apply negb_true_iff in Hc.
    cbn [append Strings.Split]. rewrite Hc.
    change (a ++ String "/" b) with (a ++ "/" ++ b). now rewrite (IH Ha).
Qed.

(** X28: [parseRepoURL] takes a GitHub address apart.  For an owner
    and a repository name without a slash, the HTTPS and the SSH
    address ending in [.git] both yield that owner and that name, and
    [CreatePullRequest] answers with the address of pull request 123
    of that repository; an address with neither GitHub prefix is
    refused as unsupported. *)
Theorem parseRepoURL_round_trip (owner repo : string) :
  Ulid.all_chars Ulid.not_slash owner = true ->
  Ulid.all_chars Ulid.not_slash repo = true ->
  Worker.parseRepoURL ("https://github.com/" ++ owner ++ "/" ++ repo ++ ".git")
  = inr (owner, repo)
  /\ Worker.parseRepoURL ("git@github.com:" ++ owner ++ "/" ++ repo ++ ".git")
     = inr (owner, repo)
  /\ (forall base head title body,
        Worker.CreatePullRequest
          ("https://github.com/" ++ owner ++ "/" ++ repo ++ ".git")
          base head title body
        = inr ("https://github.com/" ++ owner ++ "/" ++ repo ++ "/pull/123"))
  /\ (forall url,
        Strings.HasPrefix url "https://github.com/" = false ->
        Strings.HasPrefix url "git@github.com:" = false ->
        Worker.parseRepoURL url
        = inl (Errorf ("unsupported repository URL format: " ++ url))).
Proof.
  intros Ho Hr.
  assert (Hpath : Strings.TrimSuffix (owner ++ "/" ++ repo ++ ".git") ".git"
                  = owner ++ "/" ++ repo).
  { replace (owner ++ "/" ++ repo ++ ".git")
      with ((owner ++ "/" ++ repo) ++ ".git")
      by (rewrite append_assoc; reflexivity).
    apply TrimSuffix_append. }
  assert (Hhttps :
    Worker.parseRepoURL
      ("https://github.com/" ++ owner ++ "/" ++ repo ++ ".git")
    = inr (owner, repo)).
  { unfold Worker.parseRepoURL.
    assert (Strings.HasPrefix
              ("https://github.com/" ++ owner ++ "/" ++ repo ++ ".git")
              "https://github.com/" = true) as -> by reflexivity.
    assert (Strings.TrimPrefix
              ("https://github.com/" ++ owner ++ "/" ++ repo ++ ".git")
              "https://github.com/" = owner ++ "/" ++ repo ++ ".git") as ->
      by reflexivity.
    now rewrite Hpath, (Split_two owner repo Ho Hr). }
  split; [exact Hhttps|]. split; [|split].
  - unfold Worker.parseRepoURL.
    assert (Strings.HasPrefix
              ("git@github.com:" ++ owner ++ "/" ++ repo ++ ".git")
              "https://github.com/" = false) as -> by reflexivity.
    assert (Strings.HasPrefix
              ("git@github.com:" ++ owner ++ "/" ++ repo ++ ".git")
              "git@github.com:" = true) as -> by reflexivity.
    assert (Strings.TrimPrefix
              ("git@github.com:" ++ owner ++ "/" ++ repo ++ ".git")
              "git@github.com:" = owner ++ "/" ++ repo ++ ".git") as ->
      by reflexivity.
    now rewrite Hpath, (Split_two owner repo Ho Hr).
  - intros base head title body. unfold Worker.CreatePullRequest.
    now rewrite Hhttps.
  - intros url H1 H2. unfold Worker.parseRepoURL. now rewrite H1, H2.
Qed.

Lemma parseRepoURL_round_trip_witness :
  Worker.parseRepoURL "https://github.com/octo/widgets.git"
  = inr ("octo", "widgets")
  /\ Worker.CreatePullRequest "https://github.com/octo/widgets.git"
                              "main" "amp/01ARZ3" "title" "body"
     = inr "https://github.com/octo/widgets/pull/123".
Proof.
  destruct (parseRepoURL_round_trip "octo" "widgets" eq_refl eq_refl)
    as (Hparse & _ & Hpr & _).
  split; [exact Hparse | apply Hpr].
Defined.

(** ** The status vocabularies of the validator and of the client *)

(** X29: the request validator and the command-line client speak of a
    status [failed] that the model does not have, and the validator
    does not know the model's [error].  Apart from these two words the
    three agree on every string: [validateTaskStatus] accepts the
    model's valid statuses without [error], and [failed];
    [isTerminalStatus] holds of the model's terminal statuses and of
    [failed]; [canAbort] holds of exactly the valid statuses that are
    not terminal, and [validateAbortable] returns no error for exactly
    these; [validateContinuable] returns no error exactly when
    [canContinue] holds; and a task below the budget of three
    attempts is retryable for the model exactly when the client can
    continue it and its status is not [failed]. *)
Theorem status_vocabularies (s : string) :
  Validation.validateTaskStatus s
  = (IsValid s && negb (String.eqb s "error")) || String.eqb s "failed"
  /\ Commands.isTerminalStatus s = IsTerminal s || String.eqb s "failed"
  /\ Commands.canAbort s = IsValid s && negb (IsTerminal s)
  /\ (Commands.validateAbortable s = None <-> Commands.canAbort s = true)
  /\ (Commands.validateContinuable s = None
      <-> Commands.canContinue s = true)
  /\ (forall t, Status t = s -> Attempts t < 3 ->
                IsRetryable t 3
                = Commands.canContinue s && negb (String.eqb s "failed")).
Proof.
  revert s. apply status_cases;
    try (repeat split; intros;
         try (unfold IsRetryable;
              match goal with
              | Hs : Status _ = _, Ha : Attempts _ < 3 |- _ =>
                  rewrite Hs; apply Z.ltb_lt in Ha; rewrite Ha
              end);
         try reflexivity; discriminate).
  intros s H1 H2 H3 H4 H5 H6 H7 H8.
  unfold Validation.validateTaskStatus, Commands.isTerminalStatus,
    Commands.canAbort, Commands.validateAbortable,
    Commands.validateContinuable, Commands.canContinue, IsValid, IsTerminal,
    IsRetryable, TaskStatusQueued, TaskStatusRunning, TaskStatusRetrying,
    TaskStatusNeedsReview, TaskStatusSuccess, TaskStatusAborted,
    TaskStatusError.
  cbn [existsb]. rewrite H1, H2, H3, H4, H5, H6, H7, H8. cbn [orb andb negb].
  repeat split; try discriminate.
  intros t Hs _. rewrite Hs, H3, H4, H7. now rewrite andb_false_r.
Qed.

(** X30: the client's check before an abort is stricter than the
    server.  For a stored task with a valid status: when
    [validateAbortable] lets the request through, the server's
    [abort] succeeds and leaves the task [aborted]; and for a task in
    [error] or already [aborted] the client refuses, although the
    server would have accepted the request and stored [aborted]. *)
Theorem client_abort_check_against_server
        (db : DB) (id prompt : string) (now : Z) (t : Task) :
  id <> "" ->
  Services.GetTask id db = (Ok t, db) ->
  IsValid (Status t) = true ->
  let accepted :=
    exists db' t',
      Services.UpdateTask id "abort" prompt now db = (Ok tt, db')
      /\ Services.GetTask id db' = (Ok t', db')
      /\ Status t' = TaskStatusAborted in
  (Commands.validateAbortable (Status t) = None -> accepted)
  /\ (Status t = TaskStatusError \/ Status t = TaskStatusAborted ->
      Commands.validateAbortable (Status t) <> None /\ accepted).
Proof.
  intros Hid Hget Hv. cbv zeta.
  assert (Hacc : Status t <> TaskStatusSuccess ->
                 exists db' t',
                   Services.UpdateTask id "abort" prompt now db = (Ok tt, db')
                   /\ Services.GetTask id db' = (Ok t', db')
                   /\ Status t' = TaskStatusAborted).
  { intros Hns.
    destruct (abort_other_eq db id prompt now t Hid Hget Hv Hns)
      as [Hupd Hget'].
    eexists; eexists. split; [exact Hupd|]. split; [exact Hget'|].
    reflexivity. }
  split.
  - intros Hok. apply Hacc. intros Hs. rewrite Hs in Hok. discriminate.
  - intros [Hs | Hs]; (split; [rewrite Hs; discriminate|]);
      apply Hacc; rewrite Hs; discriminate.
Qed.

Lemma client_abort_check_against_server_witness :
  let t := System.sample System.sample_id TaskStatusError 3 1 in
  let db := System.store_with t in
  Commands.validateAbortable (Status t) <> None
  /\ exists db' t',
       Services.UpdateTask System.sample_id "abort" "" 9 db = (Ok tt, db')
       /\ Services.GetTask System.sample_id db' = (Ok t', db')
       /\ Status t' = TaskStatusAborted.
Proof.
  cbv zeta.
  apply (client_abort_check_against_server
           (System.store_with
              (System.sample System.sample_id TaskStatusError 3 1))
           System.sample_id "" 9
           (System.sample System.sample_id TaskStatusError 3 1));
    [discriminate | reflexivity | reflexivity | left; reflexivity].
Defined.
